(** * crypto-trade-router: route evaluation, lot adjustment, settlement and
      live recomputation of [server/index.js]

    The development embeds the calculation code of [server/index.js]:
    [adjustBuyCoin], [getBestRoute], [numberToFixed], [calculateUSDSavings],
    the fee reconciliation of the [/trade] handler and the two order-book
    handlers registered by [subscribeToOrders].

    JavaScript numbers are IEEE 754 doubles.  The code is written once, over
    an interface [Number] of the arithmetic it uses, and read at two
    instances:
    - [binary64]: the doubles themselves ([spec_float] at precision 53), with
      NaN, infinities, signed zeros and rounding; used wherever a statement
      is about special values or about one concrete run;
    - [Q]: exact rational arithmetic, the idealisation meant by "within
      floating-point tolerance".  It has no NaN, no infinities and no
      rounding, and [x / 0] is 0 there.  A statement at this instance is
      about the computation without rounding, says so, and carries the
      hypotheses (non-negative amounts, positive prices and steps) that
      keep it away from zero divisors.  What the code does with NaN, with
      zero divisors, with the order of numbers or with rounding at a tie is
      stated on the doubles.

    The exchange connectivity of [./binance] ([getOrdersBinance],
    [getMinStepsBinance], [getPriceBinance], [calculateSellData],
    [calculateBuyData], [aggregateFilledTradesBinance]) is not part of this
    file of the repository; it is a parameter of the sections below, and
    every statement holds for whatever these functions are. *)

From Stdlib Require Import ZArith QArith Qround Qpower Lia Lqa List String Bool.
From Stdlib Require Import Permutation Sorted.
From Corelib Require Import SpecFloat.
Import ListNotations.

Set Implicit Arguments.

(* ===================================================================== *)
(** * The arithmetic of JavaScript numbers used by the code              *)
(* ===================================================================== *)

(** [lit n d] is the decimal literal [n/d] (as in [0.0001 = lit 1 10000]);
    [rem] is the [%] operator (the remainder has the sign of the dividend);
    [round] is [Math.round] (nearest integer, ties towards +infinity);
    [strict_eq] is [===]; [is_pos v] and [is_neg v] are [v > 0] and [v < 0],
    the only way [Array.prototype.sort] looks at a comparator's result. *)
Class Number (num : Type) : Type := {
  lit : Z -> positive -> num;
  add : num -> num -> num;
  sub : num -> num -> num;
  mul : num -> num -> num;
  div : num -> num -> num;
  rem : num -> num -> num;
  round : num -> num;
  strict_eq : num -> num -> bool;
  is_pos : num -> bool;
  is_neg : num -> bool
}.

Declare Scope js_scope.
Delimit Scope js_scope with js.
Infix "+" := add : js_scope.
Infix "-" := sub : js_scope.
Infix "*" := mul : js_scope.
Infix "/" := div : js_scope.
Infix "%%" := rem (at level 40, left associativity) : js_scope.
Infix "===" := strict_eq (at level 70, no associativity) : js_scope.
Notation "x !== y" := (negb (strict_eq x y))
  (at level 70, no associativity) : js_scope.

Definition int {num} `{Number num} (n : Z) : num := lit n 1.

(** ** Exact rationals *)

Module Exact.

(** Truncation towards zero of a rational. *)
Definition Qtrunc (x : Q) : Z := Z.quot (Qnum x) (Zpos (Qden x)).

(** [x % y] is [x - y * trunc (x / y)]. *)
Definition Qrem (x y : Q) : Q := x - y * inject_Z (Qtrunc (x / y)).

(** [Math.round x] is [floor (x + 1/2)]. *)
Definition Qround (x : Q) : Q := inject_Z (Qfloor (x + (1 # 2))).

(** [v] is [x] rounded to 4 decimal places, halves rounded up: [v] is
    [n / 10^4] for the integer [n] with [n - 1/2 <= x * 10^4 < n + 1/2]. *)
Definition roundedHalfUp4 (x v : Q) : Prop :=
  exists n : Z,
    v == inject_Z n / 10000
    /\ inject_Z n - (1 # 2) <= x * 10000
    /\ x * 10000 < inject_Z n + (1 # 2).

Definition Qpos_b (x : Q) : bool := negb (Qle_bool x 0).
Definition Qneg_b (x : Q) : bool := negb (Qle_bool 0 x).

End Exact.

#[export] Instance Number_Q : Number Q := {|
  lit := fun n d => Qmake n d;
  add := Qplus;
  sub := Qminus;
  mul := Qmult;
  div := Qdiv;
  rem := Exact.Qrem;
  round := Exact.Qround;
  strict_eq := Qeq_bool;
  is_pos := Exact.Qpos_b;
  is_neg := Exact.Qneg_b
|}.

(** ** IEEE 754 doubles *)

Module Binary64.

Definition prec : Z := 53.
Definition emax : Z := 1024.

Definition t : Type := spec_float.

Definition of_Z (n : Z) : t := binary_normalize prec emax n 0 false.

Definition NaN : t := S754_nan.

(** The [%] of ECMAScript (C's [fmod]): NaN when the dividend is infinite
    or the divisor is zero, the dividend when it is a zero or the divisor
    is infinite, and otherwise the exact remainder of the truncating
    division, with the sign of the dividend. *)
Definition fmod (x y : t) : t :=
  match x, y with
  | S754_nan, _ => S754_nan
  | _, S754_nan => S754_nan
  | S754_infinity _, _ => S754_nan
  | _, S754_zero _ => S754_nan
  | S754_zero _, _ => x
  | S754_finite _ _ _, S754_infinity _ => x
  | S754_finite sx mx ex, S754_finite _ my ey =>
      let e := Z.min ex ey in
      let X := (Zpos mx * 2 ^ (ex - e))%Z in
      let Y := (Zpos my * 2 ^ (ey - e))%Z in
      match Z.rem X Y with
      | Z0 => S754_zero sx
      | r => binary_normalize prec emax (cond_Zopp sx r) e false
      end
  end.

(** [Math.round]: the integer nearest to [x], ties towards +infinity; a
    result of zero keeps the sign of [x]. *)
Definition round (x : t) : t :=
  match x with
  | S754_finite s m e =>
      if (0 <=? e)%Z then x
      else
        let n := ((cond_Zopp s (2 * Zpos m) + 2 ^ (- e)) / 2 ^ (1 - e))%Z in
        match n with
        | Z0 => S754_zero s
        | _ => of_Z n
        end
  | _ => x
  end.

Definition zero : t := S754_zero false.

(** The rational number a finite double stands for, [(-1)^s * m * 2^e]. *)
Definition toQ (x : t) : Q :=
  match x with
  | S754_finite s m e => inject_Z (cond_Zopp s (Zpos m)) * Qpower 2 e
  | _ => 0
  end.

(** [number x]: [x] is a double other than NaN: a zero, an infinity, or a
    finite value in canonical form (the mantissa of 53 bits, or shorter at
    the least exponent, and the exponent in range).  [spec_float] has other
    triples of sign, mantissa and exponent; no double is one of them. *)
Definition number (x : t) : bool :=
  match x with
  | S754_nan => false
  | _ => valid_binary prec emax x
  end.

(** [finite x]: [x] is a zero or a finite double in canonical form. *)
Definition finite (x : t) : bool :=
  match x with
  | S754_zero _ => true
  | S754_finite _ m e => bounded prec emax m e
  | _ => false
  end.

(** An integer that grows with the double: a finite double scaled by
    [2^1074], the infinities beyond every finite double.  The order of the
    doubles is reasoned about through it. *)
Definition top : Z := 2 ^ 2098.

Definition ord (x : t) : Z :=
  match x with
  | S754_zero _ => 0
  | S754_finite s m e => cond_Zopp s (Zpos m * 2 ^ (e + 1074))
  | S754_infinity s => cond_Zopp s top
  | S754_nan => 0
  end.

End Binary64.

#[export] Instance Number_binary64 : Number Binary64.t := {|
  lit := fun n d =>
    SFdiv Binary64.prec Binary64.emax (Binary64.of_Z n) (Binary64.of_Z (Zpos d));
  add := SFadd Binary64.prec Binary64.emax;
  sub := SFsub Binary64.prec Binary64.emax;
  mul := SFmul Binary64.prec Binary64.emax;
  div := SFdiv Binary64.prec Binary64.emax;
  rem := Binary64.fmod;
  round := Binary64.round;
  strict_eq := SFeqb;
  is_pos := fun x => SFltb Binary64.zero x;
  is_neg := fun x => SFltb x Binary64.zero
|}.

(* ===================================================================== *)
(** * Promises and exceptions                                             *)
(* ===================================================================== *)

(** An awaited promise either resolves or rejects; a thrown exception of an
    [async] function rejects its promise.  [TypeError] is what reading a
    property of [undefined] throws; [ExchangeError] stands for whatever the
    connectivity layer rejects with. *)
Inductive error : Type :=
| TypeError (msg : string)
| ExchangeError (msg : string).

Inductive outcome (A : Type) : Type :=
| Resolved (a : A)
| Rejected (e : error).
Arguments Rejected {A} e.

Definition bind {A B} (c : outcome A) (k : A -> outcome B) : outcome B :=
  match c with
  | Resolved a => k a
  | Rejected e => Rejected e
  end.

Notation "x <- c ;; k" := (bind c (fun x => k))
  (at level 61, c at next level, right associativity).
Notation "' pat <- c ;; k" := (bind c (fun x => match x with pat => k end))
  (at level 61, pat pattern, c at next level, right associativity).

Definition resolves {A} (c : outcome A) : Prop := exists a, c = Resolved a.
Definition rejects {A} (c : outcome A) : Prop := exists e, c = Rejected e.

(** [Promise.all([p, q])].  Both promises are already running; which
    rejection is reported when both fail depends on timing, and is taken
    here to be the first in array order. *)
Definition Promise_all2 {A B} (p : outcome A) (q : outcome B) : outcome (A * B) :=
  a <- p ;; b <- q ;; Resolved (a, b).

(** Bluebird's [Promise.map(xs, f)]: resolves to the results in the order
    of [xs] when every [f x] resolves, rejects as soon as one rejects. *)
Fixpoint Promise_map {A B} (f : A -> outcome B) (xs : list A) : outcome (list B) :=
  match xs with
  | [] => Resolved []
  | x :: xs' => b <- f x ;; bs <- Promise_map f xs' ;; Resolved (b :: bs)
  end.

(** [xs[i]] is [nth_error xs i], [undefined] ([None]) out of range; reading
    a property of [undefined], or destructuring it, throws a [TypeError]. *)
Definition defined {A} (x : option A) : outcome A :=
  match x with
  | Some a => Resolved a
  | None => Rejected (TypeError "Cannot read properties of undefined")
  end.

(** [Array.prototype.sort(comparefn)]: a stable sort (ECMAScript 2019);
    [a] is moved behind [b] exactly when [comparefn(a, b) > 0].  For a
    consistent comparator every implementation returns this order.  For an
    inconsistent one (a comparator that returns NaN, say) ECMAScript leaves
    the order to the implementation; the insertion below is one such
    order, and nothing is concluded from it beyond its being a
    permutation, except where a statement names the list it is run on. *)
Section Sort.
Context {A : Type} (after : A -> A -> bool).

Fixpoint insert (a : A) (sorted : list A) : list A :=
  match sorted with
  | [] => [a]
  | b :: rest => if after a b then b :: insert a rest else a :: sorted
  end.

Definition sort (xs : list A) : list A := fold_right insert [] xs.
End Sort.

(* ===================================================================== *)
(** * Data model                                                          *)
(* ===================================================================== *)

(** A price level [[price, quantity]] of an order book. *)
Definition Level (num : Type) : Type := (num * num)%type.

Module OrderBook.
Record t (num : Type) : Type := mk {
  bids : list (Level num);
  asks : list (Level num)
}.
End OrderBook.

(** Result of [calculateSellData]. *)
Module SellData.
Record t (num : Type) : Type := mk {
  sharesSellable : num;
  averageSellPrice : num;
  saleTotal : num
}.
End SellData.

(** Result of [calculateBuyData].  [getBestRoute] reads its
    [sharesPossibleToBuy], the live buy-leg handler its [sharesBuyable]; a
    property the object does not have reads as [undefined] ([None]). *)
Module BuyData.
Record t (num : Type) : Type := mk {
  amountSpent : num;
  sharesPossibleToBuy : option num;
  sharesBuyable : option num;
  averageBuyPrice : num
}.
End BuyData.

(** The [sellCoin] of a route; [minStep] is there after
    [addBinanceMinSteps]. *)
Module SellCoin.
Record t (num : Type) : Type := mk {
  market : string;
  averageSellPrice : num;
  sharesSellable : num;
  minStep : option num
}.
End SellCoin.

(** The [buyCoin] of a candidate route. *)
Module BuyLeg.
Record t (num : Type) : Type := mk {
  market : string;
  amountBuyable : num;
  sharesBuyable : option num;
  averageBuyPrice : num
}.
End BuyLeg.

(** The [buyCoin] handed to [adjustBuyCoin]: a buy leg with its [minStep]
    and, in the live session, the top of the book. *)
Module BuyCoin.
Record t (num : Type) : Type := mk {
  market : string;
  amountBuyable : num;
  sharesBuyable : option num;
  averageBuyPrice : num;
  minStep : num;
  bid : option num;
  ask : option num
}.
End BuyCoin.

(** What [adjustBuyCoin] returns: the input with [sharesBuyable] and
    [amountBuyable] replaced and [leftOver] added. *)
Module Adjusted.
Record t (num : Type) : Type := mk {
  market : string;
  amountBuyable : num;
  sharesBuyable : num;
  averageBuyPrice : num;
  minStep : num;
  leftOver : num;
  bid : option num;
  ask : option num
}.
End Adjusted.

Module BaseCoin.
Record t : Type := mk {
  name : string;
  market : string
}.
End BaseCoin.

(** A candidate route, one per bridge coin. *)
Module Route.
Record t (num : Type) : Type := mk {
  sellCoin : SellCoin.t num;
  buyCoin : BuyLeg.t num;
  baseCoin : BaseCoin.t;
  ratio : num
}.
End Route.

(** The [worstRoute] summary attached to the best route. *)
Module WorstRoute.
Record t (num : Type) : Type := mk {
  sharesBuyable : option num;
  baseCoin : string;
  averageSellPrice : num;
  averageBuyPrice : num
}.
End WorstRoute.

(** What [getBestRoute] returns. *)
Module BestRoute.
Record t (num : Type) : Type := mk {
  sellCoin : SellCoin.t num;
  buyCoin : Adjusted.t num;
  baseCoin : BaseCoin.t;
  ratio : num;
  worstRoute : WorstRoute.t num
}.
End BestRoute.

(** [{ sellCoin: { minStep }, buyCoin: { minStep } }] of
    [getMinStepsBinance]. *)
Module Steps.
Record t (num : Type) : Type := mk {
  sellCoin : num;
  buyCoin : num
}.
End Steps.

(** One fill of a market order. *)
Module Fill.
Record t (num : Type) : Type := mk {
  price : num;
  qty : num;
  commission : num;
  commissionAsset : string;
  tradeId : Z
}.
End Fill.

(** What [sellMarketBinance] and [buyMarketBinance] resolve to. *)
Module OrderResult.
Record t (num : Type) : Type := mk {
  symbol : string;
  fills : list (Fill.t num)
}.
End OrderResult.

(** Result of [aggregateFilledTradesBinance]. *)
Module Aggregate.
Record t (num : Type) : Type := mk {
  price : num;
  qty : num;
  commission : num
}.
End Aggregate.

(** A coin of the request body of [/trade]. *)
Module CoinRef.
Record t (num : Type) : Type := mk {
  name : string;
  market : string;
  averageBuyPrice : num;
  sharesBuyable : num
}.
End CoinRef.

Module TradeRequest.
Record t (num : Type) : Type := mk {
  sellCoin : CoinRef.t num;
  buyCoin : CoinRef.t num;
  shares : num;
  bridgeCoins : list string;
  smartRouting : bool
}.
End TradeRequest.

(** The [sale] and the [purchase] of a settled trade. *)
Module Settled.
Record t (num : Type) : Type := mk {
  market : string;
  price : num;
  quantity : num;
  commission : num;
  commissionAsset : string;
  total : num;
  tradeId : Z
}.
End Settled.

Module Savings.
Record t (num : Type) : Type := mk {
  USDSavings : num;
  totalUSDSavings : num;
  bestBaseCoin : string;
  worstBaseCoin : string
}.
End Savings.

Module Trade.
Record t (num : Type) : Type := mk {
  sale : Settled.t num;
  purchase : Settled.t num;
  savings : option (Savings.t num)
}.
End Trade.

(** The state of one live session: the closure variables
    [SHARES_FOR_ORDER_UPDATES] and [saleProceeds]. *)
Module Session.
Record t (num : Type) : Type := mk {
  SHARES_FOR_ORDER_UPDATES : num;
  saleProceeds : num
}.
End Session.

Module SellCoinInfo.
Record t (num : Type) : Type := mk {
  market : string;
  bid : num;
  ask : num;
  averageSellPrice : num;
  sharesSellable : num
}.
End SellCoinInfo.

(** What a handler emits with [io.sockets.emit]. *)
Module Broadcast.
Inductive t (num : Type) : Type :=
| updateSellCoinInfo (sellCoinInfo : SellCoinInfo.t num)
| updateBuyCoinInfo (adjustedBuyInfo : Adjusted.t num).
End Broadcast.

(** What the event loop delivers to a live session. *)
Module Event.
Inductive t (num : Type) : Type :=
| SellCoinOrders (sellCoinOrders : OrderBook.t num)
| BuyCoinOrders (buyCoinOrders : OrderBook.t num)
| SharesUpdated (sharesEntered : num).
End Event.

(* ===================================================================== *)
(** * Lot adjustment and route evaluation                                 *)
(* ===================================================================== *)

Section Calculations.

Context {num : Type} `{Number num}.
Local Open Scope js_scope.

(** [adjustBuyCoin] (index.js, lines 64-79). *)
Definition adjustBuyCoin (buyCoin : BuyCoin.t num) : Adjusted.t num :=
  let averageBuyPrice := BuyCoin.averageBuyPrice buyCoin in
  let minStep := BuyCoin.minStep buyCoin in
  let amountBuyable := BuyCoin.amountBuyable buyCoin in
  let sharesBuyable := amountBuyable / averageBuyPrice in
  let unBuyableShares := sharesBuyable %% minStep in
  let actualSharesBuyable := sharesBuyable - unBuyableShares in
  let actualAmountBuyable := amountBuyable - unBuyableShares * averageBuyPrice in
  let leftOver := amountBuyable - actualAmountBuyable in
  {| Adjusted.market := BuyCoin.market buyCoin;
     Adjusted.amountBuyable := actualAmountBuyable;
     Adjusted.sharesBuyable := actualSharesBuyable;
     Adjusted.averageBuyPrice := averageBuyPrice;
     Adjusted.minStep := minStep;
     Adjusted.leftOver := leftOver;
     Adjusted.bid := BuyCoin.bid buyCoin;
     Adjusted.ask := BuyCoin.ask buyCoin |}.

(** The comparator of [getBestRoute] (lines 137-144). *)
Definition compareRoutes (route1 route2 : Route.t num) : num :=
  let s1 := SellCoin.sharesSellable (Route.sellCoin route1) in
  let s2 := SellCoin.sharesSellable (Route.sellCoin route2) in
  if s1 !== s2 then s2 - s1
  else Route.ratio route2 - Route.ratio route1.

Definition sortRoutes (possibleRoutes : list (Route.t num)) : list (Route.t num) :=
  sort (fun route1 route2 => is_pos (compareRoutes route1 route2)) possibleRoutes.

(** A number is truthy unless it is a zero or NaN. *)
Definition truthy (x : num) : bool := is_pos x || is_neg x.

(** [Math.pow(b, n)] for a natural exponent [n], as the iterated product.
    The file raises 10 to the power 4 only (both calls of [numberToFixed]
    pass the precision 4 and no base), where the product is exact, on
    doubles as well. *)
Definition pow (b : num) (n : nat) : num := Nat.iter n (fun p => p * b) (int 1).

(** [numberToFixed] (lines 175-178). *)
Definition numberToFixed (number : num) (precision : nat) (base : option num) : num :=
  let b := match base with
           | Some b => if truthy b then b else int 10
           | None => int 10
           end in
  let pow := pow b precision in
  round (number * pow) / pow.

(** ** The connectivity layer *)

Variable getOrdersBinance : string -> outcome (OrderBook.t num).
Variable getMinStepsBinance : string -> string -> outcome (Steps.t num).
Variable getPriceBinance : string -> outcome num.
Variable calculateSellData : list (Level num) -> num -> SellData.t num.
Variable calculateBuyData : list (Level num) -> num -> BuyData.t num.

(** [addBinanceMinSteps] (lines 35-54); destructuring an [undefined]
    route throws.  The result [{...coins, sellCoin, buyCoin}] is the new
    sell coin, the new buy coin, and [coins] for the remaining fields. *)
Definition addBinanceMinSteps (coins : option (Route.t num))
  : outcome (SellCoin.t num * BuyCoin.t num * Route.t num) :=
  coins <- defined coins ;;
  let sellCoin := Route.sellCoin coins in
  let buyCoin := Route.buyCoin coins in
  stepsObj <- getMinStepsBinance (SellCoin.market sellCoin) (BuyLeg.market buyCoin) ;;
  Resolved
    ({| SellCoin.market := SellCoin.market sellCoin;
        SellCoin.averageSellPrice := SellCoin.averageSellPrice sellCoin;
        SellCoin.sharesSellable := SellCoin.sharesSellable sellCoin;
        SellCoin.minStep := Some (Steps.sellCoin stepsObj) |},
     {| BuyCoin.market := BuyLeg.market buyCoin;
        BuyCoin.amountBuyable := BuyLeg.amountBuyable buyCoin;
        BuyCoin.sharesBuyable := BuyLeg.sharesBuyable buyCoin;
        BuyCoin.averageBuyPrice := BuyLeg.averageBuyPrice buyCoin;
        BuyCoin.minStep := Steps.buyCoin stepsObj;
        BuyCoin.bid := None;
        BuyCoin.ask := None |},
     coins).

(** The mapper of [Promise.map] in [getBestRoute] (lines 90-134): the
    candidate route through one bridge coin. *)
Definition possibleRoute (sellCoinName buyCoinName : string) (sharesEntered : num)
    (baseCoin : string) : outcome (Route.t num) :=
  let sellCoinSymbol := (sellCoinName ++ baseCoin)%string in
  let buyCoinSymbol := (buyCoinName ++ baseCoin)%string in
  let getSellCoinOrders := getOrdersBinance sellCoinSymbol in
  let getBuyCoinOrders := getOrdersBinance buyCoinSymbol in
  '(orders0, orders1) <- Promise_all2 getSellCoinOrders getBuyCoinOrders ;;
  let sellCoinBids := OrderBook.bids orders0 in
  let buyCoinAsks := OrderBook.asks orders1 in
  let sell := calculateSellData sellCoinBids sharesEntered in
  let buy := calculateBuyData buyCoinAsks (SellData.saleTotal sell) in
  let ratio := SellData.averageSellPrice sell / BuyData.averageBuyPrice buy in
  Resolved
    {| Route.sellCoin :=
         {| SellCoin.market := sellCoinSymbol;
            SellCoin.averageSellPrice := SellData.averageSellPrice sell;
            SellCoin.sharesSellable := SellData.sharesSellable sell;
            SellCoin.minStep := None |};
       Route.buyCoin :=
         {| BuyLeg.market := buyCoinSymbol;
            BuyLeg.amountBuyable := BuyData.amountSpent buy;
            BuyLeg.sharesBuyable := BuyData.sharesPossibleToBuy buy;
            BuyLeg.averageBuyPrice := BuyData.averageBuyPrice buy |};
       Route.baseCoin :=
         {| BaseCoin.name := baseCoin;
            BaseCoin.market := (baseCoin ++ "USDT")%string |};
       Route.ratio := ratio |}.

Definition possibleRoutes (sellCoinName buyCoinName : string)
    (bridgeCoins : list string) (sharesEntered : num) : outcome (list (Route.t num)) :=
  Promise_map (possibleRoute sellCoinName buyCoinName sharesEntered) bridgeCoins.

(** The [worstRoute] summary (lines 163-168). *)
Definition worstRouteOf (worstRoute : Route.t num) : WorstRoute.t num :=
  {| WorstRoute.sharesBuyable := BuyLeg.sharesBuyable (Route.buyCoin worstRoute);
     WorstRoute.baseCoin := BaseCoin.name (Route.baseCoin worstRoute);
     WorstRoute.averageSellPrice := SellCoin.averageSellPrice (Route.sellCoin worstRoute);
     WorstRoute.averageBuyPrice := BuyLeg.averageBuyPrice (Route.buyCoin worstRoute) |}.

(** [getBestRoute] (lines 82-171).  The last element is read after the
    first one was destructured, so the array is not empty there. *)
Definition getBestRoute (sellCoinName buyCoinName : string)
    (bridgeCoins : list string) (sharesEntered : num) : outcome (BestRoute.t num) :=
  possibleRoutes <- possibleRoutes sellCoinName buyCoinName bridgeCoins sharesEntered ;;
  let sortedRoutes := sortRoutes possibleRoutes in
  let bestRoute := nth_error sortedRoutes 0 in
  '(sellCoin, buyCoin, rest) <- addBinanceMinSteps bestRoute ;;
  let adjustedBuyCoin := adjustBuyCoin buyCoin in
  worstRoute <- defined (nth_error sortedRoutes (List.length sortedRoutes - 1)) ;;
  Resolved
    {| BestRoute.sellCoin := sellCoin;
       BestRoute.buyCoin := adjustedBuyCoin;
       BestRoute.baseCoin := Route.baseCoin rest;
       BestRoute.ratio := Route.ratio rest;
       BestRoute.worstRoute := worstRouteOf worstRoute |}.

(** The two order books of a bridge coin both arrive. *)
Definition fetched (sellCoinName buyCoinName : string) (baseCoin : string) : Prop :=
  resolves (getOrdersBinance (sellCoinName ++ baseCoin))
  /\ resolves (getOrdersBinance (buyCoinName ++ baseCoin)).

(** One of the two order-book fetches of a bridge coin fails. *)
Definition fetchFails (sellCoinName buyCoinName : string) (baseCoin : string) : Prop :=
  rejects (getOrdersBinance (sellCoinName ++ baseCoin))
  \/ rejects (getOrdersBinance (buyCoinName ++ baseCoin)).

(** [route] is the candidate through [baseCoin]: one sell-leg simulation
    for the entered quantity, whose [saleTotal] is the target amount of
    the one buy-leg simulation, and the ratio of their average prices. *)
Definition chained (sellCoinName buyCoinName : string) (sharesEntered : num)
    (baseCoin : string) (route : Route.t num) : Prop :=
  exists sellOrders buyOrders,
    getOrdersBinance (sellCoinName ++ baseCoin) = Resolved sellOrders
    /\ getOrdersBinance (buyCoinName ++ baseCoin) = Resolved buyOrders
    /\ let sell := calculateSellData (OrderBook.bids sellOrders) sharesEntered in
       let buy := calculateBuyData (OrderBook.asks buyOrders) (SellData.saleTotal sell) in
       Route.ratio route = SellData.averageSellPrice sell / BuyData.averageBuyPrice buy
       /\ SellCoin.averageSellPrice (Route.sellCoin route) = SellData.averageSellPrice sell
       /\ SellCoin.sharesSellable (Route.sellCoin route) = SellData.sharesSellable sell
       /\ BuyLeg.averageBuyPrice (Route.buyCoin route) = BuyData.averageBuyPrice buy
       /\ BuyLeg.amountBuyable (Route.buyCoin route) = BuyData.amountSpent buy
       /\ BuyLeg.sharesBuyable (Route.buyCoin route) = BuyData.sharesPossibleToBuy buy
       /\ BaseCoin.name (Route.baseCoin route) = baseCoin.

(** [calculateUSDSavings] (lines 182-199). *)
Definition calculateUSDSavings (bestRoute : BestRoute.t num) : outcome num :=
  let worstRoute := BestRoute.worstRoute bestRoute in
  let bestBaseCoin := BaseCoin.name (BestRoute.baseCoin bestRoute) in
  let worstBaseCoin := WorstRoute.baseCoin worstRoute in
  let bestSpread :=
    SellCoin.averageSellPrice (BestRoute.sellCoin bestRoute)
    - Adjusted.averageBuyPrice (BestRoute.buyCoin bestRoute) in
  let worstSpread :=
    WorstRoute.averageSellPrice worstRoute - WorstRoute.averageBuyPrice worstRoute in
  let bestBaseCoinSymbol := (bestBaseCoin ++ "USDT")%string in
  let worstBaseCoinSymbol := (worstBaseCoin ++ "USDT")%string in
  bestCoinPriceUSD <-
    (if String.eqb bestBaseCoin "USDT" then Resolved (int 1)
     else getPriceBinance bestBaseCoinSymbol) ;;
  worstCoinPriceUSD <-
    (if String.eqb worstBaseCoin "USDT" then Resolved (int 1)
     else getPriceBinance worstBaseCoinSymbol) ;;
  let bestSpreadUSD := bestSpread * bestCoinPriceUSD in
  let worstSpreadUSD := worstSpread * worstCoinPriceUSD in
  Resolved (numberToFixed (bestSpreadUSD - worstSpreadUSD) 4 None).

(** ** Settlement of an executed trade: [app.post('/trade')] *)

Variable sellMarketBinance : string -> num -> outcome (OrderResult.t num).
Variable buyMarketBinance : string -> num -> outcome (OrderResult.t num).
Variable aggregateFilledTradesBinance : list (Fill.t num) -> Aggregate.t num.

(** [commissionAsset === 'BNB' ? 0.00005 : 0.0001] (lines 369 and 385). *)
Definition commissionDecimal (commissionAsset : string) : num :=
  if String.eqb commissionAsset "BNB" then lit 5 100000 else lit 1 10000.

(** The body of the [try] block (lines 323-427). *)
Definition trade (body : TradeRequest.t num) : outcome (Trade.t num) :=
  let sellCoin := TradeRequest.sellCoin body in
  let buyCoin := TradeRequest.buyCoin body in
  let shares := TradeRequest.shares body in
  let smartRouting := TradeRequest.smartRouting body in
  '(sellCoinSymbol, buyCoinSymbol, sharesBuyable, bestRoute) <-
    (if smartRouting then
       bestRoute <- getBestRoute (CoinRef.name sellCoin) (CoinRef.name buyCoin)
                      (TradeRequest.bridgeCoins body) shares ;;
       Resolved (SellCoin.market (BestRoute.sellCoin bestRoute),
                 Adjusted.market (BestRoute.buyCoin bestRoute),
                 Adjusted.sharesBuyable (BestRoute.buyCoin bestRoute),
                 Some bestRoute)
     else
       Resolved (CoinRef.market sellCoin, CoinRef.market buyCoin,
                 CoinRef.sharesBuyable buyCoin, None)) ;;
  stepsObj <- getMinStepsBinance sellCoinSymbol buyCoinSymbol ;;
  let buyCoinMinStep := Steps.buyCoin stepsObj in
  sellRes <- sellMarketBinance sellCoinSymbol shares ;;
  let sellAgg := aggregateFilledTradesBinance (OrderResult.fills sellRes) in
  let sellPrice := Aggregate.price sellAgg in
  let sellQuantity := Aggregate.qty sellAgg in
  let sellCommission := Aggregate.commission sellAgg in
  sellFill0 <- defined (nth_error (OrderResult.fills sellRes) 0) ;;
  let sellCommissionAsset := Fill.commissionAsset sellFill0 in
  let sellTradeId := Fill.tradeId sellFill0 in
  let sellCommissionDecimal := commissionDecimal sellCommissionAsset in
  let sellAmount := sellQuantity * sellPrice in
  let sellTotal := sellAmount - sellAmount * sellCommissionDecimal in
  let unBuyableShares := sharesBuyable %% buyCoinMinStep in
  let actualSharesBuyable := sharesBuyable - unBuyableShares in
  let quantityToBuy := actualSharesBuyable in
  buyRes <- buyMarketBinance buyCoinSymbol quantityToBuy ;;
  let buyAgg := aggregateFilledTradesBinance (OrderResult.fills buyRes) in
  let buyPrice := Aggregate.price buyAgg in
  let buyQuantity := Aggregate.qty buyAgg in
  let buyCommission := Aggregate.commission buyAgg in
  buyFill0 <- defined (nth_error (OrderResult.fills buyRes) 0) ;;
  let buyCommissionAsset := Fill.commissionAsset buyFill0 in
  let buyTradeId := Fill.tradeId buyFill0 in
  let buyCommissionDecimal := commissionDecimal buyCommissionAsset in
  let buyAmount := buyQuantity * buyPrice in
  let buyTotal := buyAmount + buyAmount * buyCommissionDecimal in
  savings <-
    match bestRoute with
    | Some bestRoute =>
        USDSavings <- calculateUSDSavings bestRoute ;;
        let totalUSDSavings := numberToFixed (USDSavings * buyQuantity) 4 None in
        Resolved (Some
          {| Savings.USDSavings := USDSavings;
             Savings.totalUSDSavings := totalUSDSavings;
             Savings.bestBaseCoin := BaseCoin.name (BestRoute.baseCoin bestRoute);
             Savings.worstBaseCoin :=
               WorstRoute.baseCoin (BestRoute.worstRoute bestRoute) |})
    | None => Resolved None
    end ;;
  let sale :=
    {| Settled.market := OrderResult.symbol sellRes;
       Settled.price := sellPrice;
       Settled.quantity := sellQuantity;
       Settled.commission := sellCommission;
       Settled.commissionAsset := sellCommissionAsset;
       Settled.total := sellTotal;
       Settled.tradeId := sellTradeId |} in
  let purchase :=
    {| Settled.market := OrderResult.symbol buyRes;
       Settled.price := buyPrice;
       Settled.quantity := buyQuantity;
       Settled.commission := buyCommission;
       Settled.commissionAsset := buyCommissionAsset;
       Settled.total := buyTotal;
       Settled.tradeId := buyTradeId |} in
  Resolved {| Trade.sale := sale; Trade.purchase := purchase; Trade.savings := savings |}.

(** ** The live session: [subscribeToOrders] and [sharesUpdated] *)

(** [bids[0][0]]. *)
Definition topOfBook (levels : list (Level num)) : outcome num :=
  level <- defined (nth_error levels 0) ;; Resolved (fst level).

(** The handler of the sell market's order-book updates (lines 480-504).
    [saleProceeds] is assigned before the top of the book is read. *)
Definition onSellCoinOrders (sellCoinSymbol : string) (s : Session.t num)
    (sellCoinOrders : OrderBook.t num) : Session.t num * outcome (Broadcast.t num) :=
  let bids := OrderBook.bids sellCoinOrders in
  let asks := OrderBook.asks sellCoinOrders in
  let sell := calculateSellData bids (Session.SHARES_FOR_ORDER_UPDATES s) in
  let s' := {| Session.SHARES_FOR_ORDER_UPDATES := Session.SHARES_FOR_ORDER_UPDATES s;
               Session.saleProceeds := SellData.saleTotal sell |} in
  (s',
   bid <- topOfBook bids ;;
   ask <- topOfBook asks ;;
   Resolved (Broadcast.updateSellCoinInfo
     {| SellCoinInfo.market := sellCoinSymbol;
        SellCoinInfo.bid := bid;
        SellCoinInfo.ask := ask;
        SellCoinInfo.averageSellPrice := SellData.averageSellPrice sell;
        SellCoinInfo.sharesSellable := SellData.sharesSellable sell |})).

(** The handler of the buy market's order-book updates (lines 508-534). *)
Definition onBuyCoinOrders (buyCoin : BuyCoin.t num) (s : Session.t num)
    (buyCoinOrders : OrderBook.t num) : Session.t num * outcome (Broadcast.t num) :=
  let bids := OrderBook.bids buyCoinOrders in
  let asks := OrderBook.asks buyCoinOrders in
  let buy := calculateBuyData asks (Session.saleProceeds s) in
  (s,
   bid <- topOfBook bids ;;
   ask <- topOfBook asks ;;
   let buyCoinInfo :=
     {| BuyCoin.market := BuyCoin.market buyCoin;
        BuyCoin.minStep := BuyCoin.minStep buyCoin;
        BuyCoin.bid := Some bid;
        BuyCoin.ask := Some ask;
        BuyCoin.averageBuyPrice := BuyData.averageBuyPrice buy;
        BuyCoin.sharesBuyable := BuyData.sharesBuyable buy;
        BuyCoin.amountBuyable := BuyData.amountSpent buy |} in
   let adjustedBuyInfo := adjustBuyCoin buyCoinInfo in
   Resolved (Broadcast.updateBuyCoinInfo adjustedBuyInfo)).

(** [socket.on('sharesUpdated', ...)] (lines 542-544). *)
Definition sharesUpdated (s : Session.t num) (sharesEntered : num) : Session.t num :=
  {| Session.SHARES_FOR_ORDER_UPDATES := sharesEntered;
     Session.saleProceeds := Session.saleProceeds s |}.

(** [let SHARES_FOR_ORDER_UPDATES = 0] and [let saleProceeds = 0]. *)
Definition newSession : Session.t num :=
  {| Session.SHARES_FOR_ORDER_UPDATES := int 0; Session.saleProceeds := int 0 |}.

(** One event of the session, run to completion by the event loop; the
    log records what each order-book handler did. *)
Definition step (sellCoinSymbol : string) (buyCoin : BuyCoin.t num)
    (s : Session.t num) (ev : Event.t num)
  : Session.t num * list (outcome (Broadcast.t num)) :=
  match ev with
  | Event.SellCoinOrders o =>
      let (s', r) := onSellCoinOrders sellCoinSymbol s o in (s', [r])
  | Event.BuyCoinOrders o =>
      let (s', r) := onBuyCoinOrders buyCoin s o in (s', [r])
  | Event.SharesUpdated q => (sharesUpdated s q, [])
  end.

Fixpoint run (sellCoinSymbol : string) (buyCoin : BuyCoin.t num)
    (s : Session.t num) (evs : list (Event.t num))
  : Session.t num * list (outcome (Broadcast.t num)) :=
  match evs with
  | [] => (s, [])
  | ev :: evs' =>
      let (s1, log1) := step sellCoinSymbol buyCoin s ev in
      let (s2, log2) := run sellCoinSymbol buyCoin s1 evs' in
      (s2, log1 ++ log2)
  end.

(** The quantity the caller entered last, and the [saleTotal] the sell-leg
    handler computed last, read off the events a session has seen so far
    ([past], most recent first). *)
Fixpoint enteredQuantity (past : list (Event.t num)) : num :=
  match past with
  | [] => int 0
  | Event.SharesUpdated q :: _ => q
  | _ :: older => enteredQuantity older
  end.

Fixpoint cachedSaleTotal (past : list (Event.t num)) : num :=
  match past with
  | [] => int 0
  | Event.SellCoinOrders o :: older =>
      SellData.saleTotal (calculateSellData (OrderBook.bids o) (enteredQuantity older))
  | _ :: older => cachedSaleTotal older
  end.

(** What the buy-leg handler emits for an order book when [saleTotal] is
    the amount to spend. *)
Definition buyLeg (buyCoin : BuyCoin.t num) (saleTotal : num)
    (buyCoinOrders : OrderBook.t num) : outcome (Broadcast.t num) :=
  let buy := calculateBuyData (OrderBook.asks buyCoinOrders) saleTotal in
  bid <- topOfBook (OrderBook.bids buyCoinOrders) ;;
  ask <- topOfBook (OrderBook.asks buyCoinOrders) ;;
  Resolved (Broadcast.updateBuyCoinInfo (adjustBuyCoin
    {| BuyCoin.market := BuyCoin.market buyCoin;
       BuyCoin.minStep := BuyCoin.minStep buyCoin;
       BuyCoin.bid := Some bid;
       BuyCoin.ask := Some ask;
       BuyCoin.averageBuyPrice := BuyData.averageBuyPrice buy;
       BuyCoin.sharesBuyable := BuyData.sharesBuyable buy;
       BuyCoin.amountBuyable := BuyData.amountSpent buy |})).

Definition isSellCoinOrders (ev : Event.t num) : bool :=
  match ev with
  | Event.SellCoinOrders _ => true
  | _ => false
  end.

Definition isBuyCoinOrders (ev : Event.t num) : bool :=
  match ev with
  | Event.BuyCoinOrders _ => true
  | _ => false
  end.

End Calculations.

(** ** The ranking of candidate routes *)

(** [sort] moves [route1] behind [route2]: the comparator's result is
    greater than 0. *)
Definition sortsBehind {num : Type} `{Number num} (route1 route2 : Route.t num) : bool :=
  is_pos (compareRoutes route1 route2).

(** The ranking on doubles, by the two keys themselves. *)
Module Binary64Ranking.

Definition shares (r : Route.t Binary64.t) : Binary64.t :=
  SellCoin.sharesSellable (Route.sellCoin r).

(** [a] has at least the [sharesSellable] of [b] and, when they are equal,
    at least its [ratio].  No comparison with NaN holds. *)
Definition ranked (a b : Route.t Binary64.t) : Prop :=
  SFleb (shares b) (shares a) = true
  /\ (SFeqb (shares a) (shares b) = true ->
      SFleb (Route.ratio b) (Route.ratio a) = true).

(** The two routes are equal on both keys. *)
Definition tied (a b : Route.t Binary64.t) : bool :=
  SFeqb (shares a) (shares b) && SFeqb (Route.ratio a) (Route.ratio b).

(** Neither key of the route is NaN. *)
Definition numbers (r : Route.t Binary64.t) : bool :=
  Binary64.number (shares r) && Binary64.number (Route.ratio r).

End Binary64Ranking.

(* ===================================================================== *)
(** * Stand-ins for the simulators of [./binance]                         *)
(* ===================================================================== *)

(** [calculateSellData], [calculateBuyData] and
    [aggregateFilledTradesBinance] are parameters of every statement.  To
    run the code on an example they have to be something; the functions of
    this section are what the examples put in their place.  They are not
    the repository's functions, and no statement depends on them. *)
Section FillSimulator.

Context {num : Type} `{Number num}.
Local Open Scope js_scope.

(** Walks the bids best-first, taking each level whole until the target
    quantity is exhausted; returns the quantity filled and the proceeds. *)
Fixpoint sellWalk (bids : list (Level num)) (remaining filled total : num) : num * num :=
  match bids with
  | [] => (filled, total)
  | (price, quantity) :: rest =>
      if is_pos remaining then
        let take := if is_pos (remaining - quantity) then quantity else remaining in
        sellWalk rest (remaining - take) (filled + take) (total + take * price)
      else (filled, total)
  end.

(** A stand-in for [calculateSellData]: the quantity filled from the bids,
    the proceeds, and their quotient as the average price (the quotient of
    the arithmetic at hand, also when nothing was filled). *)
Definition sampleSellData (bids : list (Level num)) (shares : num) : SellData.t num :=
  let (filled, total) := sellWalk bids shares (int 0) (int 0) in
  {| SellData.sharesSellable := filled;
     SellData.averageSellPrice := total / filled;
     SellData.saleTotal := total |}.

(** Walks the asks best-first, spending on each level until the amount is
    exhausted; returns the quantity bought and the amount spent. *)
Fixpoint buyWalk (asks : list (Level num)) (remaining shares spent : num) : num * num :=
  match asks with
  | [] => (shares, spent)
  | (price, quantity) :: rest =>
      if is_pos remaining then
        let cost := quantity * price in
        if is_pos (remaining - cost)
        then buyWalk rest (remaining - cost) (shares + quantity) (spent + cost)
        else (shares + remaining / price, spent + remaining)
      else (shares, spent)
  end.

(** A stand-in for [calculateBuyData]: the amount spent on the asks, the
    quantity bought, and their quotient as the average price (the quotient
    of the arithmetic at hand, also when nothing was bought).  The result
    has no [sharesBuyable] property. *)
Definition sampleBuyData (asks : list (Level num)) (buyAmount : num) : BuyData.t num :=
  let (shares, spent) := buyWalk asks buyAmount (int 0) (int 0) in
  {| BuyData.amountSpent := spent;
     BuyData.sharesPossibleToBuy := Some shares;
     BuyData.sharesBuyable := None;
     BuyData.averageBuyPrice := spent / shares |}.

(** A stand-in for [aggregateFilledTradesBinance]: the quantity and the
    commission summed over the fills, and the amount over the quantity as
    the price. *)
Definition sampleAggregate (fills : list (Fill.t num)) : Aggregate.t num :=
  let qty := fold_left (fun acc f => acc + Fill.qty f) fills (int 0) in
  let amount := fold_left (fun acc f => acc + Fill.price f * Fill.qty f) fills (int 0) in
  let commission := fold_left (fun acc f => acc + Fill.commission f) fills (int 0) in
  {| Aggregate.price := amount / qty;
     Aggregate.qty := qty;
     Aggregate.commission := commission |}.

End FillSimulator.

(* ===================================================================== *)
(** * A sample exchange                                                   *)
(* ===================================================================== *)

(** Three bridge markets for selling XRP and buying ADA, used to run the
    code on concrete inputs. *)
Module Sample.

Fixpoint lookup {A} (key : string) (table : list (string * A)) : outcome A :=
  match table with
  | [] => Rejected (ExchangeError "Invalid symbol.")
  | (k, v) :: rest => if String.eqb key k then Resolved v else lookup key rest
  end.

Definition book (bids asks : list (Z * Z)) : OrderBook.t Q :=
  let levels := map (fun l => (inject_Z (fst l), inject_Z (snd l))) in
  {| OrderBook.bids := levels bids; OrderBook.asks := levels asks |}.

Definition books : list (string * OrderBook.t Q) :=
  [ ("XRPBTC", book [(100, 5); (99, 10)] [(101, 5)]);
    ("ADABTC", book [(49, 3)] [(50, 4); (51, 10)]);
    ("XRPETH", book [(10, 20)] [(11, 5)]);
    ("ADAETH", book [(4, 100)] [(5, 1000)]);
    ("XRPUSDT", book [(1000, 6)] [(1001, 1)]);
    ("ADAUSDT", book [(399, 7)] [(400, 100)]) ]%Z%string.

Definition getOrdersBinance (symbol : string) : outcome (OrderBook.t Q) :=
  lookup symbol books.

Definition getMinStepsBinance (sellCoinMarket buyCoinMarket : string)
  : outcome (Steps.t Q) :=
  Resolved {| Steps.sellCoin := 1; Steps.buyCoin := 3 |}.

Definition getPriceBinance (symbol : string) : outcome Q :=
  lookup symbol [("BTCUSDT", 20000); ("ETHUSDT", 1500)]%string.

Definition getBestRoute :=
  getBestRoute getOrdersBinance getMinStepsBinance sampleSellData sampleBuyData.

Definition possibleRoutes :=
  possibleRoutes getOrdersBinance sampleSellData sampleBuyData.

Definition sellMarketBinance (symbol : string) (quantity : Q)
  : outcome (OrderResult.t Q) :=
  Resolved
    {| OrderResult.symbol := symbol;
       OrderResult.fills :=
         [ Fill.mk 10 5 (1 # 100) "BNB" 7001; Fill.mk 10 (quantity - 5) (1 # 100) "BNB" 7002 ] |}.

Definition buyMarketBinance (symbol : string) (quantity : Q)
  : outcome (OrderResult.t Q) :=
  Resolved
    {| OrderResult.symbol := symbol;
       OrderResult.fills := [ Fill.mk 5 quantity (3 # 200) "ADA" 7003 ] |}.

Definition trade :=
  trade getOrdersBinance getMinStepsBinance getPriceBinance sampleSellData sampleBuyData
    sellMarketBinance buyMarketBinance sampleAggregate.

Definition request (bridgeCoins : list string) : TradeRequest.t Q :=
  {| TradeRequest.sellCoin := CoinRef.mk "XRP" "XRPETH" 0 0;
     TradeRequest.buyCoin := CoinRef.mk "ADA" "ADAETH" 5 16;
     TradeRequest.shares := 8;
     TradeRequest.bridgeCoins := bridgeCoins;
     TradeRequest.smartRouting := true |}.

(** The best route of [/trade] settled over USDT on both sides. *)
Definition usdtRoute (sell buy worstSell worstBuy : Q) : BestRoute.t Q :=
  {| BestRoute.sellCoin := SellCoin.mk "XRPUSDT" sell 8 (Some 1);
     BestRoute.buyCoin := Adjusted.mk "ADAUSDT" 0 0 buy 1 0 None None;
     BestRoute.baseCoin := BaseCoin.mk "USDT" "USDTUSDT";
     BestRoute.ratio := sell / buy;
     BestRoute.worstRoute := WorstRoute.mk None "USDT" worstSell worstBuy |}.

(** The client's [buyCoin] of a live session on XRPETH and ADAETH. *)
Definition liveBuyCoin : BuyCoin.t Q := BuyCoin.mk "ADAETH" 0 None 0 3 None None.

Definition run := run sampleSellData sampleBuyData "XRPETH" liveBuyCoin.

End Sample.

(** The same exchange with its figures as doubles. *)
Module Doubles.

Definition book (bids asks : list (Z * Z)) : OrderBook.t Binary64.t :=
  let levels := map (fun l => (int (fst l), int (snd l))) in
  {| OrderBook.bids := levels bids; OrderBook.asks := levels asks |}.

Definition books : list (string * OrderBook.t Binary64.t) :=
  [ ("XRPBTC", book [(100, 5); (99, 10)] [(101, 5)]);
    ("ADABTC", book [(49, 3)] [(50, 4); (51, 10)]);
    ("XRPETH", book [(10, 20)] [(11, 5)]);
    ("ADAETH", book [(4, 100)] [(5, 1000)]);
    ("XRPUSDT", book [(1000, 6)] [(1001, 1)]);
    ("ADAUSDT", book [(399, 7)] [(400, 100)]) ]%Z%string.

Definition getOrdersBinance (symbol : string) : outcome (OrderBook.t Binary64.t) :=
  Sample.lookup symbol books.

Definition getMinStepsBinance (sellCoinMarket buyCoinMarket : string)
  : outcome (Steps.t Binary64.t) :=
  Resolved {| Steps.sellCoin := int 1; Steps.buyCoin := int 3 |}.

Definition getPriceBinance (symbol : string) : outcome Binary64.t :=
  Sample.lookup symbol [("BTCUSDT", int 20000); ("ETHUSDT", int 1500)]%string.

Definition getBestRoute :=
  getBestRoute getOrdersBinance getMinStepsBinance sampleSellData sampleBuyData.

Definition possibleRoutes :=
  possibleRoutes getOrdersBinance sampleSellData sampleBuyData.

(** A candidate route that sells all 8 XRP entered, as line 114 makes it
    from the two average prices: its [ratio] is their quotient. *)
Definition candidate (baseCoin : string) (averageSellPrice averageBuyPrice : Binary64.t)
  : Route.t Binary64.t :=
  {| Route.sellCoin := SellCoin.mk ("XRP" ++ baseCoin) averageSellPrice (int 8) None;
     Route.buyCoin := BuyLeg.mk ("ADA" ++ baseCoin) (int 0) None averageBuyPrice;
     Route.baseCoin := BaseCoin.mk baseCoin (baseCoin ++ "USDT");
     Route.ratio := div averageSellPrice averageBuyPrice |}.

(** A best route through [bestBaseCoin] whose worst route went through
    [worstBaseCoin], with the four average prices the savings are
    computed from. *)
Definition route (bestBaseCoin worstBaseCoin : string)
    (sell buy worstSell worstBuy : Binary64.t) : BestRoute.t Binary64.t :=
  {| BestRoute.sellCoin := SellCoin.mk ("XRP" ++ bestBaseCoin) sell (int 8) (Some (int 1));
     BestRoute.buyCoin :=
       Adjusted.mk ("ADA" ++ bestBaseCoin) (int 0) (int 0) buy (int 1) (int 0) None None;
     BestRoute.baseCoin := BaseCoin.mk bestBaseCoin (bestBaseCoin ++ "USDT");
     BestRoute.ratio := div sell buy;
     BestRoute.worstRoute := WorstRoute.mk None worstBaseCoin worstSell worstBuy |}.

End Doubles.

(* ===================================================================== *)
(** * More of [index.js]: route selection and price lookup                *)
(* ===================================================================== *)

(** The query of [GET /coins/prices] and its answer. *)
Module PricesQuery.
Record t : Type := mk {
  sellCoinSymbol : string;
  buyCoinSymbol : string;
  baseCoinSymbol : string
}.
End PricesQuery.

Module LastPrices.
Record t (num : Type) : Type := mk {
  sellCoinLast : num;
  buyCoinLast : num;
  baseCoinLast : num
}.
End LastPrices.

(** [Promise.all([p, q, r])], rejections in array order as in
    [Promise_all2]. *)
Definition Promise_all3 {A B C} (p : outcome A) (q : outcome B) (r : outcome C)
  : outcome (A * B * C) :=
  a <- p ;; b <- q ;; c <- r ;; Resolved (a, b, c).

Section Routes.

Context {num : Type} `{Number num}.
Local Open Scope js_scope.

Variable getOrdersBinance : string -> outcome (OrderBook.t num).
Variable getMinStepsBinance : string -> string -> outcome (Steps.t num).
Variable getPriceBinance : string -> outcome num.
Variable calculateSellData : list (Level num) -> num -> SellData.t num.
Variable calculateBuyData : list (Level num) -> num -> BuyData.t num.

(** The choice of markets at the head of [/trade] (lines 329-345): the best
    route's when [smartRouting] is on, the request's own otherwise. *)
Definition selectRoute (body : TradeRequest.t num)
  : outcome (string * string * num * option (BestRoute.t num)) :=
  let sellCoin := TradeRequest.sellCoin body in
  let buyCoin := TradeRequest.buyCoin body in
  if TradeRequest.smartRouting body then
    bestRoute <- getBestRoute getOrdersBinance getMinStepsBinance calculateSellData
                   calculateBuyData (CoinRef.name sellCoin) (CoinRef.name buyCoin)
                   (TradeRequest.bridgeCoins body) (TradeRequest.shares body) ;;
    Resolved (SellCoin.market (BestRoute.sellCoin bestRoute),
              Adjusted.market (BestRoute.buyCoin bestRoute),
              Adjusted.sharesBuyable (BestRoute.buyCoin bestRoute),
              Some bestRoute)
  else
    Resolved (CoinRef.market sellCoin, CoinRef.market buyCoin,
              CoinRef.sharesBuyable buyCoin, None).

(** The quantity [/trade] buys (lines 374-376). *)
Definition quantityToBuy (sharesBuyable buyCoinMinStep : num) : num :=
  sharesBuyable - sharesBuyable %% buyCoinMinStep.

(** The price of a bridge coin in USDT as [calculateUSDSavings] looks it up
    (lines 191-193). *)
Definition coinPriceUSD (baseCoin : string) : outcome num :=
  if String.eqb baseCoin "USDT" then Resolved (int 1)
  else getPriceBinance (baseCoin ++ "USDT").

(** [price] is the price factor of the bridge coin [baseCoin]: exactly 1
    when the coin is USDT, and otherwise the price the lookup of its USDT
    market resolves to. *)
Definition priceInUSD (baseCoin : string) (price : num) : Prop :=
  (baseCoin = "USDT"%string /\ price = int 1)
  \/ (baseCoin <> "USDT"%string
      /\ getPriceBinance (baseCoin ++ "USDT") = Resolved price).

(** [app.get('/coins/prices')] (lines 270-280).  The answer is sent from the
    [then] of [Promise.all]; there is no [catch], so when a price lookup
    rejects no answer is sent ([None]). *)
Definition coinsPrices (query : PricesQuery.t) : option (LastPrices.t num) :=
  let sellCoinPromise := getPriceBinance (PricesQuery.sellCoinSymbol query) in
  let buyCoinPromise := getPriceBinance (PricesQuery.buyCoinSymbol query) in
  let baseCoinPromise :=
    if negb (String.eqb (PricesQuery.baseCoinSymbol query) "USDTUSDT")
    then getPriceBinance (PricesQuery.baseCoinSymbol query)
    else Resolved (int 1) in
  match Promise_all3 sellCoinPromise buyCoinPromise baseCoinPromise with
  | Resolved (sellCoinLast, buyCoinLast, baseCoinLast) =>
      Some {| LastPrices.sellCoinLast := sellCoinLast;
              LastPrices.buyCoinLast := buyCoinLast;
              LastPrices.baseCoinLast := baseCoinLast |}
  | Rejected _ => None
  end.

End Routes.

(** A price feed that also quotes the two traded markets of the sample
    exchange. *)
Module SampleFeed.

Definition getPriceBinance (symbol : string) : outcome Q :=
  Sample.lookup symbol
    [("BTCUSDT", 20000); ("ETHUSDT", 1500); ("XRPETH", 1 # 100); ("ADAETH", 2 # 100)]%string.

End SampleFeed.

(* ===================================================================== *)
(** * The stand-in simulators on two examples                             *)
(* ===================================================================== *)

(** Selling 8 into bids [[100,5],[99,10]] fills 8 at 99.625 for 797. *)
Example sampleSellData_example :
  let r := sampleSellData [(100, 5); (99, 10)] 8 in
  SellData.sharesSellable r == 8
  /\ SellData.averageSellPrice r == 99625 # 1000
  /\ SellData.saleTotal r == 797.
Proof. vm_compute. repeat split. Qed.

(** Spending 400 on asks [[50,4],[51,10]] buys 4 at 50 and 200/51 at 51. *)
Example sampleBuyData_example :
  let r := sampleBuyData [(50, 4); (51, 10)] 400 in
  BuyData.amountSpent r == 400
  /\ BuyData.sharesPossibleToBuy r = Some (404 # 51)
  /\ BuyData.averageBuyPrice r == 400 / (4 + 200 / 51).
Proof. vm_compute. repeat split. Qed.

(* ===================================================================== *)
(** * Lot adjustment: [adjustBuyCoin]                                     *)
(* ===================================================================== *)

Section AdjustAnyNumber.

Context {num : Type} `{Number num}.
Local Open Scope js_scope.

(** The three computed fields, as functions of the three fields read. *)
Lemma adjustBuyCoin_fields (b : BuyCoin.t num) :
  let a := BuyCoin.amountBuyable b in
  let p := BuyCoin.averageBuyPrice b in
  let m := BuyCoin.minStep b in
  Adjusted.sharesBuyable (adjustBuyCoin b) = a / p - (a / p) %% m
  /\ Adjusted.amountBuyable (adjustBuyCoin b) = a - (a / p) %% m * p
  /\ Adjusted.leftOver (adjustBuyCoin b) = a - (a - (a / p) %% m * p).
Proof. repeat split. Qed.

(** C9. Two inputs of [adjustBuyCoin] that agree on [amountBuyable],
    [averageBuyPrice] and [minStep] give the same [sharesBuyable],
    [amountBuyable] and [leftOver], whatever their own [sharesBuyable]
    fields are: the quantity is recomputed as
    [amountBuyable / averageBuyPrice] and then snapped to the step. *)
Theorem adjustBuyCoin_ignores_sharesBuyable (b1 b2 : BuyCoin.t num) :
  BuyCoin.amountBuyable b1 = BuyCoin.amountBuyable b2 ->
  BuyCoin.averageBuyPrice b1 = BuyCoin.averageBuyPrice b2 ->
  BuyCoin.minStep b1 = BuyCoin.minStep b2 ->
  Adjusted.sharesBuyable (adjustBuyCoin b1) = Adjusted.sharesBuyable (adjustBuyCoin b2)
  /\ Adjusted.amountBuyable (adjustBuyCoin b1) = Adjusted.amountBuyable (adjustBuyCoin b2)
  /\ Adjusted.leftOver (adjustBuyCoin b1) = Adjusted.leftOver (adjustBuyCoin b2)
  /\ Adjusted.sharesBuyable (adjustBuyCoin b1)
     = BuyCoin.amountBuyable b1 / BuyCoin.averageBuyPrice b1
       - (BuyCoin.amountBuyable b1 / BuyCoin.averageBuyPrice b1) %% BuyCoin.minStep b1.
Proof.
  intros Ha Hp Hm.
  destruct (adjustBuyCoin_fields b1) as (S1 & A1 & L1).
  destruct (adjustBuyCoin_fields b2) as (S2 & A2 & L2).
  cbv zeta in *.
  rewrite S1, A1, L1, S2, A2, L2, Ha, Hp, Hm.
  repeat split.
Qed.

End AdjustAnyNumber.

Lemma adjustBuyCoin_ignores_sharesBuyable_witness :
  let b1 := BuyCoin.mk "ADAETH" (80 : Q) (Some 16) 5 3 None None in
  let b2 := BuyCoin.mk "ADAETH" (80 : Q) None 5 3 None None in
  BuyCoin.sharesBuyable b1 <> BuyCoin.sharesBuyable b2
  /\ Adjusted.sharesBuyable (adjustBuyCoin b1) = Adjusted.sharesBuyable (adjustBuyCoin b2)
  /\ Adjusted.amountBuyable (adjustBuyCoin b1) = Adjusted.amountBuyable (adjustBuyCoin b2)
  /\ Adjusted.leftOver (adjustBuyCoin b1) = Adjusted.leftOver (adjustBuyCoin b2).
Proof.
  intros b1 b2. split; [discriminate|].
  destruct (@adjustBuyCoin_ignores_sharesBuyable Q _ b1 b2) as (S & A & L & _);
    [reflexivity | reflexivity | reflexivity |].
  exact (conj S (conj A L)).
Defined.

(** ** Exact arithmetic, positive step *)

Module ExactFacts.

Import Exact.

Lemma Qtrunc_le (q : Q) : 0 <= q -> inject_Z (Qtrunc q) <= q.
Proof.
  intros Hq. unfold Qtrunc. destruct q as [n d].
  assert (Hn : (0 <= n)%Z) by (unfold Qle in Hq; simpl in Hq; lia).
  cbn [Qnum Qden]. rewrite Z.quot_div_nonneg by lia.
  exact (Qfloor_le (n # d)).
Qed.

Lemma Qtrunc_nonneg (q : Q) : 0 <= q -> (0 <= Qtrunc q)%Z.
Proof.
  intros Hq. unfold Qtrunc.
  assert (Hn : (0 <= Qnum q)%Z).
  { destruct q as [n d]. unfold Qle in Hq. simpl in *. lia. }
  apply Z.quot_pos; lia.
Qed.

(** What is taken off [x] is a whole number of steps. *)
Lemma Qrem_multiple (x y : Q) : x - Qrem x y == inject_Z (Qtrunc (x / y)) * y.
Proof. unfold Qrem. ring. Qed.

Lemma Qrem_nonneg (x y : Q) : 0 <= x -> 0 < y -> 0 <= Qrem x y.
Proof.
  intros Hx Hy. unfold Qrem.
  assert (Hq : 0 <= x / y).
  { apply Qle_shift_div_l; [exact Hy | lra]. }
  pose proof (Qtrunc_le Hq) as Ht.
  assert (Hm : y * inject_Z (Qtrunc (x / y)) <= y * (x / y)).
  { apply Qmult_le_l; assumption. }
  assert (He : y * (x / y) == x) by (field; lra).
  lra.
Qed.


End ExactFacts.

(** C4, as the code behaves.  In exact arithmetic, for a non-negative
    amount, a positive average price and a step [S > 0]: the adjusted
    quantity does not exceed the buyable quantity
    [amountBuyable / averageBuyPrice], it is a whole multiple of [S], and
    [leftOver] plus the adjusted amount is the original amount. *)
Theorem adjustBuyCoin_positive_step (b : BuyCoin.t Q) :
  0 <= BuyCoin.amountBuyable b ->
  0 < BuyCoin.averageBuyPrice b ->
  0 < BuyCoin.minStep b ->
  let r := adjustBuyCoin b in
  Adjusted.sharesBuyable r <= BuyCoin.amountBuyable b / BuyCoin.averageBuyPrice b
  /\ (exists k : Z, (0 <= k)%Z
        /\ Adjusted.sharesBuyable r == inject_Z k * BuyCoin.minStep b)
  /\ Adjusted.leftOver r + Adjusted.amountBuyable r == BuyCoin.amountBuyable b.
Proof.
  intros Ha Hp Hs r.
  destruct (adjustBuyCoin_fields b) as (ES & EA & EL).
  cbv zeta in ES, EA, EL. subst r. rewrite ES, EA, EL. clear ES EA EL.
  set (a := BuyCoin.amountBuyable b) in *.
  set (p := BuyCoin.averageBuyPrice b) in *.
  set (m := BuyCoin.minStep b) in *.
  assert (Hq : 0 <= a / p) by (apply Qle_shift_div_l; [exact Hp | lra]).
  change (a / p - Exact.Qrem (a / p) m <= a / p
          /\ (exists k : Z, (0 <= k)%Z /\ a / p - Exact.Qrem (a / p) m == inject_Z k * m)
          /\ a - (a - Exact.Qrem (a / p) m * p) + (a - Exact.Qrem (a / p) m * p) == a).
  split; [|split].
  - pose proof (ExactFacts.Qrem_nonneg Hq Hs). lra.
  - exists (Exact.Qtrunc (a / p / m)). split.
    + apply ExactFacts.Qtrunc_nonneg. apply Qle_shift_div_l; [exact Hs | lra].
    + apply ExactFacts.Qrem_multiple.
  - ring.
Qed.

Lemma adjustBuyCoin_positive_step_witness :
  let b := BuyCoin.mk "ADAETH" (80 : Q) None 5 3 None None in
  Adjusted.sharesBuyable (adjustBuyCoin b) == 15
  /\ Adjusted.sharesBuyable (adjustBuyCoin b) <= 80 / 5
  /\ Adjusted.leftOver (adjustBuyCoin b) + Adjusted.amountBuyable (adjustBuyCoin b) == 80.
Proof.
  intros b.
  destruct (@adjustBuyCoin_positive_step b) as (Hle & _ & Hsum);
    [vm_compute; discriminate | reflexivity | reflexivity |].
  split; [reflexivity | exact (conj Hle Hsum)].
Defined.

(** C4, as the claim states it, fails.  A positive step is not enough.  On
    doubles, when nothing was spent and nothing bought - a buy-market
    update before any sale proceeds - the average price is 0/0 = NaN, and
    with the step 3 the adjusted quantity, the adjusted amount and
    [leftOver] are all NaN: the quantity is not at most the buyable
    quantity, not a multiple of the step, and [leftOver] plus the adjusted
    amount is not the amount.  In exact arithmetic, an amount of -10 at the
    price 3 and step 1 is adjusted to -3 shares, more than the buyable
    quantity -10/3. *)
Lemma adjustBuyCoin_nothing_bought :
  (let b := BuyCoin.mk "ADAETH" (int 0 : Binary64.t) None (div (int 0) (int 0)) (int 3)
              None None in
   let r := adjustBuyCoin b in
   is_pos (BuyCoin.minStep b) = true
   /\ BuyCoin.averageBuyPrice b = Binary64.NaN
   /\ Adjusted.sharesBuyable r = Binary64.NaN
   /\ Adjusted.amountBuyable r = Binary64.NaN
   /\ Adjusted.leftOver r = Binary64.NaN
   /\ SFleb (Adjusted.sharesBuyable r)
        (div (BuyCoin.amountBuyable b) (BuyCoin.averageBuyPrice b)) = false
   /\ (forall k : Z,
         strict_eq (Adjusted.sharesBuyable r) (mul (Binary64.of_Z k) (BuyCoin.minStep b))
         = false)
   /\ strict_eq (add (Adjusted.leftOver r) (Adjusted.amountBuyable r))
        (BuyCoin.amountBuyable b) = false)
  /\ (let b := BuyCoin.mk "ADAETH" (-10 : Q) None 3 1 None None in
      let r := adjustBuyCoin b in
      0 < BuyCoin.minStep b
      /\ Adjusted.sharesBuyable r == -3
      /\ ~ Adjusted.sharesBuyable r
           <= BuyCoin.amountBuyable b / BuyCoin.averageBuyPrice b).
Proof.
  split.
  - intros b r.
    do 6 (split; [vm_compute; reflexivity|]).
    split; [|vm_compute; reflexivity].
    intros k.
    change (Adjusted.sharesBuyable r) with Binary64.NaN.
    reflexivity.
  - intros b r.
    split; [reflexivity|]. split; [reflexivity|].
    intros Hle. vm_compute in Hle. apply Hle. reflexivity.
Qed.

(** The run of the witness on doubles: 80 at 5 apiece in steps of 3 is 15
    shares for 75, and 5 left over. *)
Example adjustBuyCoin_binary64 :
  let r := adjustBuyCoin
             (BuyCoin.mk "ADAETH" (int 80 : Binary64.t) None (int 5) (int 3) None None) in
  Adjusted.sharesBuyable r = int 15
  /\ Adjusted.amountBuyable r = int 75
  /\ Adjusted.leftOver r = int 5.
Proof. vm_compute. repeat split. Qed.

(** ** Doubles, step zero *)

Module Binary64Facts.

Import Binary64.

Local Open Scope js_scope.

Lemma rem_zero (x : t) (s : bool) : x %% S754_zero s = NaN.
Proof. destruct x; reflexivity. Qed.

Lemma sub_NaN (x : t) : x - NaN = NaN.
Proof. destruct x; reflexivity. Qed.

Lemma NaN_mul (x : t) : NaN * x = NaN.
Proof. destruct x; reflexivity. Qed.

End Binary64Facts.

(** C3, as the code behaves.  With a [minStep] that is a zero, [%] yields
    NaN and the adjusted [sharesBuyable], [amountBuyable] and [leftOver] are
    all NaN, for every amount and price. *)
Theorem adjustBuyCoin_zero_step_NaN (b : BuyCoin.t Binary64.t) (s : bool) :
  BuyCoin.minStep b = S754_zero s ->
  Adjusted.sharesBuyable (adjustBuyCoin b) = Binary64.NaN
  /\ Adjusted.amountBuyable (adjustBuyCoin b) = Binary64.NaN
  /\ Adjusted.leftOver (adjustBuyCoin b) = Binary64.NaN.
Proof.
  intros Hm.
  destruct (adjustBuyCoin_fields b) as (ES & EA & EL).
  cbv zeta in ES, EA, EL. rewrite ES, EA, EL, Hm. clear ES EA EL.
  rewrite Binary64Facts.rem_zero, Binary64Facts.NaN_mul, !Binary64Facts.sub_NaN.
  repeat split.
Qed.

(** The run at [amountBuyable = 400], [averageBuyPrice = 50], [minStep = 0]:
    the buyable quantity is 8, and nothing of it survives the adjustment. *)
Lemma adjustBuyCoin_zero_step_NaN_witness :
  let b := BuyCoin.mk "ADAETH" (int 400 : Binary64.t) None (int 50) (int 0) None None in
  div (BuyCoin.amountBuyable b) (BuyCoin.averageBuyPrice b) = int 8
  /\ Adjusted.sharesBuyable (adjustBuyCoin b) = Binary64.NaN
  /\ Adjusted.amountBuyable (adjustBuyCoin b) = Binary64.NaN
  /\ Adjusted.leftOver (adjustBuyCoin b) = Binary64.NaN.
Proof.
  intros b. split; [vm_compute; reflexivity|].
  apply (@adjustBuyCoin_zero_step_NaN b false). vm_compute. reflexivity.
Defined.

(* ===================================================================== *)
(** * Promises, arrays and [sort]                                         *)
(* ===================================================================== *)

Lemma resolves_not_rejects {A} (c : outcome A) : resolves c -> ~ rejects c.
Proof. intros [a ->] [e He]. discriminate. Qed.

Lemma resolves_or_rejects {A} (c : outcome A) : resolves c \/ rejects c.
Proof. destruct c as [a|e]; [left; exists a | right; exists e]; reflexivity. Qed.

Lemma bind_resolved {A B} (c : outcome A) (k : A -> outcome B) (b : B) :
  bind c k = Resolved b -> exists a, c = Resolved a /\ k a = Resolved b.
Proof. destruct c as [a|e]; simpl; [eauto | discriminate]. Qed.

Lemma bind_rejects {A B} (c : outcome A) (k : A -> outcome B) :
  rejects c -> rejects (bind c k).
Proof. intros [e ->]. exists e. reflexivity. Qed.

Lemma defined_resolved {A} (x : option A) (a : A) :
  defined x = Resolved a -> x = Some a.
Proof. destruct x; simpl; congruence. Qed.

Lemma Promise_all2_resolved {A B} (p : outcome A) (q : outcome B) a b :
  Promise_all2 p q = Resolved (a, b) -> p = Resolved a /\ q = Resolved b.
Proof. destruct p, q; simpl; intros E; inversion E; auto. Qed.

Lemma Promise_all2_rejects {A B} (p : outcome A) (q : outcome B) :
  rejects p \/ rejects q -> rejects (Promise_all2 p q).
Proof.
  intros [[e ->] | [e ->]]; destruct p || destruct q; simpl; eexists; reflexivity.
Qed.

Section PromiseMap.
Context {A B : Type} (f : A -> outcome B).

Lemma Promise_map_resolved (xs : list A) (ys : list B) :
  Promise_map f xs = Resolved ys -> Forall2 (fun x y => f x = Resolved y) xs ys.
Proof.
  revert ys. induction xs as [|x xs IH]; simpl; intros ys E.
  - inversion E. constructor.
  - destruct (f x) as [y|e] eqn:Ex; simpl in E; [|discriminate].
    destruct (Promise_map f xs) as [ys'|e] eqn:Exs; simpl in E; [|discriminate].
    inversion E; subst. constructor; auto.
Qed.

Lemma Promise_map_rejects (xs : list A) (x : A) :
  In x xs -> rejects (f x) -> rejects (Promise_map f xs).
Proof.
  induction xs as [|x' xs IH]; simpl; [tauto|].
  intros [-> | Hin] Hx.
  - apply bind_rejects, Hx.
  - destruct (f x') as [y|e]; simpl; [|eexists; reflexivity].
    apply bind_rejects. auto.
Qed.

Lemma Promise_map_length (xs : list A) (ys : list B) :
  Promise_map f xs = Resolved ys -> List.length ys = List.length xs.
Proof.
  intros E. apply Promise_map_resolved in E.
  induction E; simpl; congruence.
Qed.
End PromiseMap.

Lemma nth_error_last {A} (xs : list A) (x : A) :
  nth_error xs (List.length xs - 1) = Some x -> exists front, xs = front ++ [x].
Proof.
  intros E. destruct xs as [|y front _] using rev_ind; [discriminate|].
  exists front. f_equal.
  rewrite length_app in E. simpl in E.
  replace (List.length front + 1 - 1)%nat with (List.length front + 0)%nat in E by lia.
  rewrite nth_error_app2 in E by lia.
  replace (List.length front + 0 - List.length front)%nat with 0%nat in E by lia.
  simpl in E. congruence.
Qed.

Section SortFacts.
Context {A : Type} (after : A -> A -> bool).

Lemma insert_perm (a : A) (l : list A) : Permutation (a :: l) (insert after a l).
Proof.
  induction l as [|b l IH]; simpl; [reflexivity|].
  destruct (after a b); [|reflexivity].
  rewrite perm_swap. apply perm_skip, IH.
Qed.

Lemma sort_perm (l : list A) : Permutation l (sort after l).
Proof.
  induction l as [|a l IH]; simpl; [reflexivity|].
  rewrite <- insert_perm. apply perm_skip, IH.
Qed.

(** On the elements of [dom] the comparator is consistent: of two
    elements one may stand in front of the other, and "may stand in front
    of" ([before]) is transitive. *)
Variable dom : A -> Prop.
Hypothesis not_both :
  forall a b, dom a -> dom b -> after a b = true -> after b a = false.
Hypothesis not_after_trans :
  forall a b c, dom a -> dom b -> dom c ->
    after a b = false -> after b c = false -> after a c = false.

Local Abbreviation before := (fun a b : A => after a b = false).

Lemma insert_sorted (a : A) (l : list A) :
  dom a -> Forall dom l ->
  StronglySorted before l -> StronglySorted before (insert after a l).
Proof.
  intros Ha Hl Hs. induction Hs as [|b l Hs IH Hb]; simpl.
  - repeat constructor.
  - inversion Hl as [|? ? Hdb Hdl]; subst.
    destruct (after a b) eqn:E.
    + constructor; [exact (IH Hdl)|].
      rewrite <- insert_perm. constructor; [apply not_both; assumption | exact Hb].
    + constructor; [constructor; assumption|].
      constructor; [exact E|].
      rewrite Forall_forall in Hb, Hdl. apply Forall_forall. intros c Hc.
      apply not_after_trans with (b := b); auto.
Qed.

Lemma sort_sorted (l : list A) :
  Forall dom l -> StronglySorted before (sort after l).
Proof.
  induction l as [|a l IH]; simpl; intros Hl; [constructor|].
  inversion Hl as [|? ? Ha Hl']; subst.
  apply insert_sorted; [exact Ha | | exact (IH Hl')].
  rewrite <- sort_perm. exact Hl'.
Qed.

(** Stability: an element only moves behind elements of other classes. *)
Variable same : A -> bool.
Hypothesis same_not_after :
  forall a b, dom a -> dom b -> same a = true -> same b = true -> after a b = false.

Lemma filter_insert (a : A) (l : list A) :
  dom a -> Forall dom l ->
  filter same (insert after a l) = filter same (a :: l).
Proof.
  intros Ha. induction l as [|b l IH]; intros Hl; [reflexivity|].
  inversion Hl as [|? ? Hb Hl']; subst.
  simpl insert. destruct (after a b) eqn:E; [|reflexivity].
  simpl in *. rewrite (IH Hl').
  destruct (same a) eqn:Ea; [|reflexivity].
  destruct (same b) eqn:Eb; [|reflexivity].
  rewrite (same_not_after Ha Hb Ea Eb) in E. discriminate.
Qed.

Lemma sort_stable (l : list A) :
  Forall dom l -> filter same (sort after l) = filter same l.
Proof.
  induction l as [|a l IH]; intros Hl; [reflexivity|].
  inversion Hl as [|? ? Ha Hl']; subst.
  simpl sort. rewrite filter_insert; [| exact Ha | rewrite <- sort_perm; exact Hl'].
  simpl. rewrite (IH Hl'). reflexivity.
Qed.
End SortFacts.

Lemma StronglySorted_impl {A} (R R' : A -> A -> Prop) (l : list A) :
  (forall a b, R a b -> R' a b) -> StronglySorted R l -> StronglySorted R' l.
Proof.
  intros HR. induction 1 as [|a l Hs IH Ha]; constructor; [exact IH|].
  eapply Forall_impl; [|exact Ha]. auto.
Qed.

(** Any two elements of a sorted list are related one way or the other. *)
Lemma StronglySorted_either {A} (R : A -> A -> Prop) (l : list A) (x y : A) :
  StronglySorted R l -> In x l -> In y l -> x = y \/ R x y \/ R y x.
Proof.
  induction 1 as [|a l Hs IH Ha]; simpl; [tauto|].
  rewrite Forall_forall in Ha.
  intros [-> | Hx] [-> | Hy]; auto.
Qed.

(* ===================================================================== *)
(** * Route evaluation: [getBestRoute]                                    *)
(* ===================================================================== *)

Section RouteEvaluation.

Context {num : Type} `{Number num}.
Local Open Scope js_scope.

Variable getOrdersBinance : string -> outcome (OrderBook.t num).
Variable getMinStepsBinance : string -> string -> outcome (Steps.t num).
Variable calculateSellData : list (Level num) -> num -> SellData.t num.
Variable calculateBuyData : list (Level num) -> num -> BuyData.t num.

Variables sellCoinName buyCoinName : string.
Variable sharesEntered : num.

Local Abbreviation candidate :=
  (possibleRoute getOrdersBinance calculateSellData calculateBuyData
     sellCoinName buyCoinName sharesEntered).
Local Abbreviation candidates bridgeCoins :=
  (possibleRoutes getOrdersBinance calculateSellData calculateBuyData
     sellCoinName buyCoinName bridgeCoins sharesEntered).
Local Abbreviation evaluate bridgeCoins :=
  (getBestRoute getOrdersBinance getMinStepsBinance calculateSellData calculateBuyData
     sellCoinName buyCoinName bridgeCoins sharesEntered).
Local Abbreviation arrived := (fetched getOrdersBinance sellCoinName buyCoinName).
Local Abbreviation failing := (fetchFails getOrdersBinance sellCoinName buyCoinName).
Local Abbreviation chain :=
  (chained getOrdersBinance calculateSellData calculateBuyData
     sellCoinName buyCoinName sharesEntered).

Lemma possibleRoute_chained (baseCoin : string) (route : Route.t num) :
  candidate baseCoin = Resolved route -> chain baseCoin route.
Proof.
  unfold possibleRoute. intros E.
  apply bind_resolved in E. destruct E as ([orders0 orders1] & Eall & E).
  apply Promise_all2_resolved in Eall. destruct Eall as [E0 E1].
  inversion E; subst; clear E.
  exists orders0, orders1. cbn. repeat split; assumption.
Qed.

Lemma possibleRoute_fetched (baseCoin : string) :
  resolves (candidate baseCoin) <-> arrived baseCoin.
Proof.
  unfold possibleRoute, fetched. split.
  - intros [route E].
    apply bind_resolved in E. destruct E as ([orders0 orders1] & Eall & _).
    apply Promise_all2_resolved in Eall. destruct Eall as [E0 E1].
    split; eexists; eassumption.
  - intros [[o0 E0] [o1 E1]]. rewrite E0, E1. simpl. eexists. reflexivity.
Qed.

Lemma possibleRoute_fetchFails (baseCoin : string) :
  failing baseCoin -> rejects (candidate baseCoin).
Proof.
  intros Hf. unfold possibleRoute.
  apply bind_rejects, Promise_all2_rejects, Hf.
Qed.

Lemma possibleRoutes_chained (bridgeCoins : list string) (routes : list (Route.t num)) :
  candidates bridgeCoins = Resolved routes -> Forall2 chain bridgeCoins routes.
Proof.
  intros E. apply Promise_map_resolved in E.
  induction E; constructor; auto using possibleRoute_chained.
Qed.

Lemma sortRoutes_perm (routes : list (Route.t num)) :
  Permutation routes (sortRoutes routes).
Proof. apply sort_perm. Qed.

(** What a resolved [getBestRoute] went through. *)
Lemma getBestRoute_resolved (bridgeCoins : list string) (best : BestRoute.t num) :
  evaluate bridgeCoins = Resolved best ->
  exists routes r0 rN stepsObj,
    candidates bridgeCoins = Resolved routes
    /\ nth_error (sortRoutes routes) 0 = Some r0
    /\ nth_error (sortRoutes routes) (List.length (sortRoutes routes) - 1) = Some rN
    /\ getMinStepsBinance (SellCoin.market (Route.sellCoin r0))
         (BuyLeg.market (Route.buyCoin r0)) = Resolved stepsObj
    /\ best =
       {| BestRoute.sellCoin :=
            {| SellCoin.market := SellCoin.market (Route.sellCoin r0);
               SellCoin.averageSellPrice := SellCoin.averageSellPrice (Route.sellCoin r0);
               SellCoin.sharesSellable := SellCoin.sharesSellable (Route.sellCoin r0);
               SellCoin.minStep := Some (Steps.sellCoin stepsObj) |};
          BestRoute.buyCoin :=
            adjustBuyCoin
              {| BuyCoin.market := BuyLeg.market (Route.buyCoin r0);
                 BuyCoin.amountBuyable := BuyLeg.amountBuyable (Route.buyCoin r0);
                 BuyCoin.sharesBuyable := BuyLeg.sharesBuyable (Route.buyCoin r0);
                 BuyCoin.averageBuyPrice := BuyLeg.averageBuyPrice (Route.buyCoin r0);
                 BuyCoin.minStep := Steps.buyCoin stepsObj;
                 BuyCoin.bid := None;
                 BuyCoin.ask := None |};
          BestRoute.baseCoin := Route.baseCoin r0;
          BestRoute.ratio := Route.ratio r0;
          BestRoute.worstRoute := worstRouteOf rN |}.
Proof.
  unfold getBestRoute. intros E.
  apply bind_resolved in E. destruct E as (routes & Eroutes & E).
  exists routes.
  apply bind_resolved in E. destruct E as ([[sellCoin buyCoin] rest] & Esteps & E).
  unfold addBinanceMinSteps in Esteps.
  apply bind_resolved in Esteps. destruct Esteps as (r0 & E0 & Esteps).
  apply defined_resolved in E0.
  apply bind_resolved in Esteps. destruct Esteps as (stepsObj & Es & Esteps).
  inversion Esteps; subst; clear Esteps.
  apply bind_resolved in E. destruct E as (rN & EN & E).
  apply defined_resolved in EN.
  inversion E; subst; clear E.
  exists rest, rN, stepsObj. repeat split; assumption.
Qed.

(** C5. Every candidate route that [getBestRoute] ranks comes from one
    chained simulation: the buy leg is simulated for exactly the
    [saleTotal] of the sell-leg simulation of the entered quantity, and
    [ratio] is [averageSellPrice / averageBuyPrice] of these two results.
    The returned best route keeps that ratio and those two prices. *)
Theorem getBestRoute_ratio_chained (bridgeCoins : list string) (best : BestRoute.t num) :
  evaluate bridgeCoins = Resolved best ->
  exists routes,
    candidates bridgeCoins = Resolved routes
    /\ Forall2 chain bridgeCoins routes
    /\ Forall (fun route =>
         Route.ratio route
         = SellCoin.averageSellPrice (Route.sellCoin route)
           / BuyLeg.averageBuyPrice (Route.buyCoin route)) routes
    /\ BestRoute.ratio best
       = SellCoin.averageSellPrice (BestRoute.sellCoin best)
         / Adjusted.averageBuyPrice (BestRoute.buyCoin best).
Proof.
  intros E. apply getBestRoute_resolved in E.
  destruct E as (routes & r0 & rN & stepsObj & Eroutes & E0 & EN & Es & ->).
  exists routes.
  pose proof (possibleRoutes_chained _ Eroutes) as Hch.
  assert (Hall : Forall (fun route =>
            Route.ratio route
            = SellCoin.averageSellPrice (Route.sellCoin route)
              / BuyLeg.averageBuyPrice (Route.buyCoin route)) routes).
  { clear - Hch. induction Hch as [|b r bs rs Hbr _ IH]; constructor; [|exact IH].
    destruct Hbr as (so & bo & _ & _ & Hr & Hs & _ & Hb & _).
    rewrite Hr, Hs, Hb. reflexivity. }
  repeat split; try assumption.
  cbn. rewrite Forall_forall in Hall. apply Hall.
  apply (Permutation_in _ (Permutation_sym (sortRoutes_perm routes))).
  apply nth_error_In with (n := 0%nat). exact E0.
Qed.

End RouteEvaluation.

(* ===================================================================== *)
(** * The order of the doubles                                            *)
(* ===================================================================== *)

Unset Implicit Arguments.

Module Binary64Order.

Import Binary64.
Local Open Scope Z_scope.

Lemma digits2_bounds (p : positive) :
  2 ^ (Zpos (digits2_pos p) - 1) <= Zpos p < 2 ^ Zpos (digits2_pos p).
Proof.
  induction p as [p IH | p IH |]; cbn [digits2_pos].
  - rewrite Pos2Z.inj_succ.
    replace (Z.succ (Zpos (digits2_pos p)) - 1) with (Z.succ (Zpos (digits2_pos p) - 1)) by lia.
    rewrite !Z.pow_succ_r by lia. lia.
  - rewrite Pos2Z.inj_succ.
    replace (Z.succ (Zpos (digits2_pos p)) - 1) with (Z.succ (Zpos (digits2_pos p) - 1)) by lia.
    rewrite !Z.pow_succ_r by lia. lia.
  - cbn. lia.
Qed.

Lemma bounded_spec (m : positive) (e : Z) :
  bounded prec emax m e = true ->
  e = Z.max (Zpos (digits2_pos m) + e - 53) (-1074) /\ e <= 971.
Proof.
  unfold bounded, canonical_mantissa, fexp, SpecFloat.emin, prec, emax.
  intros Hb. apply andb_true_iff in Hb. destruct Hb as [Hc He].
  apply Z.eqb_eq in Hc. apply Z.leb_le in He.
  split; [|exact He]. symmetry. exact Hc.
Qed.

Lemma pow2_pos (n : Z) : 0 <= n -> 0 < 2 ^ n.
Proof. intros. apply Z.pow_pos_nonneg; lia. Qed.

Lemma top_split : top = 2 ^ 53 * 2 ^ 2045.
Proof. unfold top. rewrite <- Z.pow_add_r by lia. reflexivity. Qed.

Lemma finite_lt_top (m : positive) (e : Z) :
  bounded prec emax m e = true ->
  0 < Zpos m * 2 ^ (e + 1074) < top.
Proof.
  intros Hb. apply bounded_spec in Hb. destruct Hb as [Hc He].
  pose proof (digits2_bounds m) as [_ Hm].
  assert (Hd : Zpos (digits2_pos m) <= 53) by lia.
  assert (Hm' : Zpos m < 2 ^ 53).
  { eapply Z.lt_le_trans; [exact Hm|]. apply Z.pow_le_mono_r; lia. }
  assert (He' : 0 <= e + 1074) by lia.
  pose proof (pow2_pos (e + 1074) He') as HP.
  assert (HP' : 2 ^ (e + 1074) <= 2 ^ 2045) by (apply Z.pow_le_mono_r; lia).
  rewrite top_split.
  split; [lia|].
  apply Z.lt_le_trans with (2 ^ 53 * 2 ^ (e + 1074)).
  - apply Z.mul_lt_mono_pos_r; assumption.
  - apply Z.mul_le_mono_nonneg_l; [|exact HP']. apply Z.pow_nonneg. lia.
Qed.


(** Two well-formed mantissas compare as the numbers they stand for. *)
Lemma finite_lt (m1 m2 : positive) (e1 e2 : Z) :
  bounded prec emax m1 e1 = true ->
  bounded prec emax m2 e2 = true ->
  e1 < e2 ->
  Zpos m1 * 2 ^ (e1 + 1074) < Zpos m2 * 2 ^ (e2 + 1074).
Proof.
  intros H1 H2 Hlt.
  apply bounded_spec in H1. destruct H1 as [Hc1 _].
  apply bounded_spec in H2. destruct H2 as [Hc2 _].
  pose proof (digits2_bounds m1) as [_ Hm1].
  pose proof (digits2_bounds m2) as [Hm2 _].
  assert (Hd1 : Zpos (digits2_pos m1) <= 53) by lia.
  assert (Hd2 : Zpos (digits2_pos m2) = 53).
  { destruct (Z.max_spec (Zpos (digits2_pos m2) + e2 - 53) (-1074)) as [[? ?] | [? ?]];
      destruct (Z.max_spec (Zpos (digits2_pos m1) + e1 - 53) (-1074)) as [[? ?] | [? ?]];
      lia. }
  rewrite Hd2 in Hm2. change (53 - 1) with 52 in Hm2.
  assert (Hm1' : Zpos m1 < 2 ^ 53).
  { eapply Z.lt_le_trans; [exact Hm1|]. apply Z.pow_le_mono_r; lia. }
  assert (He1 : 0 <= e1 + 1074) by lia.
  pose proof (pow2_pos (e1 + 1074) He1) as HP1.
  replace (e2 + 1074) with (Z.succ (e2 - e1 - 1) + (e1 + 1074)) by lia.
  rewrite (Z.pow_add_r 2 (Z.succ (e2 - e1 - 1)) (e1 + 1074)) by lia.
  rewrite (Z.pow_succ_r 2 (e2 - e1 - 1)) by lia.
  pose proof (pow2_pos (e2 - e1 - 1) ltac:(lia)) as HQ.
  change (2 ^ 53) with (2 * 2 ^ 52) in Hm1'.
  set (A := 2 ^ 52) in *. set (P := 2 ^ (e1 + 1074)) in *. set (Q := 2 ^ (e2 - e1 - 1)) in *.
  assert (S1 : Zpos m1 * P < 2 * A * P) by (apply Z.mul_lt_mono_pos_r; lia).
  assert (S2 : 2 * A * P <= 2 * Zpos m2 * P) by (apply Z.mul_le_mono_nonneg_r; lia).
  assert (S3 : 2 * Zpos m2 * P * 1 <= 2 * Zpos m2 * P * Q).
  { apply Z.mul_le_mono_nonneg_l; [|lia]. apply Z.mul_nonneg_nonneg; lia. }
  lia.
Qed.

Lemma finite_compare (m1 m2 : positive) (e1 e2 : Z) :
  bounded prec emax m1 e1 = true ->
  bounded prec emax m2 e2 = true ->
  match e1 ?= e2 with
  | Lt => Lt
  | Gt => Gt
  | Eq => Pos.compare_cont Eq m1 m2
  end
  = (Zpos m1 * 2 ^ (e1 + 1074) ?= Zpos m2 * 2 ^ (e2 + 1074)).
Proof.
  intros H1 H2.
  destruct (Z.compare_spec e1 e2) as [-> | Hlt | Hgt].
  - rewrite <- Zmult_compare_compat_r; [reflexivity|].
    apply bounded_spec in H1. apply Z.lt_gt, pow2_pos. lia.
  - symmetry. apply Z.compare_lt_iff. apply finite_lt; assumption.
  - symmetry. apply Z.compare_gt_iff. apply finite_lt; assumption.
Qed.

(** [ord] embeds the doubles other than NaN, in their order, into the
    integers. *)
Lemma compare_ord (x y : t) :
  number x = true -> number y = true ->
  SFcompare x y = Some (ord x ?= ord y).
Proof.
  assert (Htop : 0 < top) by (unfold top; apply pow2_pos; lia).
  destruct x as [sx | sx | | sx mx ex]; destruct y as [sy | sy | | sy my ey];
    cbn [number valid_binary]; intros Hx Hy; try discriminate;
    try (pose proof (finite_lt_top mx ex Hx) as Bx);
    try (pose proof (finite_lt_top my ey Hy) as By);
    cbn [SFcompare ord]; f_equal; symmetry.
  all: try (destruct sx); try (destruct sy); cbn [cond_Zopp].
  all: try reflexivity.
  all: try (apply Z.compare_lt_iff; lia).
  all: try (apply Z.compare_gt_iff; lia).
  all: try (apply Z.compare_eq_iff; lia).
  - rewrite Z.compare_opp. rewrite <- (finite_compare my mx ey ex Hy Hx).
    rewrite (Z.compare_antisym ex ey). rewrite (Pos.compare_cont_antisym).
    destruct (ex ?= ey); cbn; reflexivity.
  - symmetry. apply finite_compare; assumption.
Qed.


(** ** The sign of a difference *)

Lemma shr_1_m (mrs : shr_record) :
  0 <= shr_m mrs -> shr_m (shr_1 mrs) = Z.div2 (shr_m mrs).
Proof.
  destruct mrs as [[|[p|p|]|p] r s]; cbn; intros Hm; try reflexivity; lia.
Qed.

Lemma div_div_pos (a b c : Z) : 0 < b -> 0 < c -> a / b / c = a / (b * c).
Proof. intros Hb Hc. apply Z.div_div; lia. Qed.

Lemma iter_shr_m (p : positive) :
  forall mrs, 0 <= shr_m mrs ->
    shr_m (iter_pos shr_1 p mrs) = shr_m mrs / 2 ^ Zpos p.
Proof.
  induction p as [p IH | p IH |]; intros mrs Hm; cbn [iter_pos].
  - assert (H1 : 0 <= shr_m (shr_1 mrs)).
    { rewrite shr_1_m by exact Hm. rewrite Z.div2_div. apply Z.div_pos; lia. }
    assert (H2 : 0 <= shr_m (iter_pos shr_1 p (shr_1 mrs))).
    { rewrite IH by exact H1. apply Z.div_pos; [exact H1 | apply pow2_pos; lia]. }
    rewrite (IH _ H2), (IH _ H1), shr_1_m by exact Hm. rewrite Z.div2_div.
    rewrite !div_div_pos by (try apply pow2_pos; lia).
    f_equal.
    assert (E : Zpos p~1 = Z.succ (Zpos p + Zpos p)) by lia.
    rewrite E, Z.pow_succ_r, Z.pow_add_r by lia. ring.
  - assert (H1 : 0 <= shr_m (iter_pos shr_1 p mrs)).
    { rewrite IH by exact Hm. apply Z.div_pos; [exact Hm | apply pow2_pos; lia]. }
    rewrite (IH _ H1), (IH _ Hm).
    rewrite div_div_pos by (apply pow2_pos; lia).
    f_equal.
    assert (E : Zpos p~0 = Zpos p + Zpos p) by lia.
    rewrite E, Z.pow_add_r by lia. reflexivity.
  - rewrite shr_1_m by exact Hm. rewrite Z.div2_div. reflexivity.
Qed.

Lemma shr_record_of_loc_m (m : Z) (l : location) : shr_m (shr_record_of_loc m l) = m.
Proof. destruct l as [|[]]; reflexivity. Qed.

(** Shifting a mantissa to its place never loses its leading bit. *)
Lemma shr_fexp_pos (m : positive) (e : Z) (l : location) :
  -1074 <= e ->
  0 < shr_m (fst (shr_fexp prec emax (Zpos m) e l))
  /\ -1074 <= snd (shr_fexp prec emax (Zpos m) e l).
Proof.
  intros He. unfold shr_fexp, shr, fexp, SpecFloat.emin, prec, emax.
  cbn [Zdigits2]. change (3 - 1024 - 53) with (-1074).
  destruct (Z.max (Zpos (digits2_pos m) + e - 53) (-1074) - e) as [|p|p] eqn:En;
    cbn [fst snd]; rewrite ?shr_record_of_loc_m; try (split; lia).
  assert (Hp : Zpos p = Zpos (digits2_pos m) - 53) by lia.
  split; [|lia].
  rewrite iter_shr_m by (rewrite shr_record_of_loc_m; lia).
  rewrite shr_record_of_loc_m.
  pose proof (digits2_bounds m) as [Hm _].
  apply Z.div_str_pos. split; [apply pow2_pos; lia|].
  eapply Z.le_trans; [|exact Hm]. apply Z.pow_le_mono_r; lia.
Qed.

Lemma round_nearest_even_ge (m : Z) (l : location) : m <= round_nearest_even m l.
Proof.
  destruct l as [|[]]; cbn; try lia. destruct (Z.even m); lia.
Qed.

(** A rounded non-zero number is not zero, and keeps its sign. *)
Lemma binary_round_aux_sign (s : bool) (m : positive) (e : Z) (l : location) :
  -1074 <= e ->
  SFltb zero (binary_round_aux prec emax s (Zpos m) e l) = negb s.
Proof.
  intros He. unfold binary_round_aux.
  pose proof (shr_fexp_pos m e l He) as [Hm1 He1].
  destruct (shr_fexp prec emax (Zpos m) e l) as [mrs' e']. cbn [fst snd] in Hm1, He1.
  pose proof (round_nearest_even_ge (shr_m mrs') (loc_of_shr_record mrs')) as Hr.
  destruct (round_nearest_even (shr_m mrs') (loc_of_shr_record mrs')) as [|m'|m'];
    try lia.
  pose proof (shr_fexp_pos m' e' loc_Exact He1) as [Hm2 _].
  destruct (shr_fexp prec emax (Zpos m') e' loc_Exact) as [mrs'' e''].
  cbn [fst] in Hm2.
  destruct (shr_m mrs'') as [|m''|m'']; try lia.
  destruct (e'' <=? emax - prec); destruct s; reflexivity.
Qed.

Lemma iter_xO (m d : positive) : Zpos (Pos.iter xO m d) = Zpos m * 2 ^ Zpos d.
Proof.
  rewrite (Pos.iter_swap_gen _ _ Zpos xO (Z.mul 2)) by reflexivity.
  change (Pos.iter (Z.mul 2) (Zpos m) d) with (Z.shiftl (Zpos m) (Zpos d)).
  apply Z.shiftl_mul_pow2. lia.
Qed.

Lemma shl_align_fst (m : positive) (e ez : Z) :
  ez <= e -> Zpos (fst (shl_align m e ez)) = Zpos m * 2 ^ (e - ez).
Proof.
  intros Hle. unfold shl_align.
  destruct (ez - e) as [|d|d] eqn:Ed; cbn [fst]; try lia.
  - replace (e - ez) with 0 by lia. lia.
  - rewrite iter_xO. f_equal. f_equal. lia.
Qed.

Lemma shl_align_snd (m : positive) (e ez : Z) :
  -1074 <= e -> -1074 <= ez -> -1074 <= snd (shl_align m e ez).
Proof.
  intros He Hez. unfold shl_align. destruct (ez - e); cbn [snd]; lia.
Qed.

Lemma binary_normalize_sign (D e : Z) :
  -1074 <= e ->
  SFltb zero (binary_normalize prec emax D e false) = (0 <? D).
Proof.
  intros He. destruct D as [|m|m]; cbn [binary_normalize]; [reflexivity | |].
  - unfold binary_round.
    pose proof (shl_align_snd m e (fexp prec emax (Zpos (digits2_pos m) + e)) He) as Hs.
    destruct (shl_align m e (fexp prec emax (Zpos (digits2_pos m) + e))) as [mz ez].
    cbn [snd] in Hs. apply binary_round_aux_sign. apply Hs.
    unfold fexp, SpecFloat.emin, prec, emax. change (3 - 1024 - 53) with (-1074). lia.
  - unfold binary_round.
    pose proof (shl_align_snd m e (fexp prec emax (Zpos (digits2_pos m) + e)) He) as Hs.
    destruct (shl_align m e (fexp prec emax (Zpos (digits2_pos m) + e))) as [mz ez].
    cbn [snd] in Hs. apply binary_round_aux_sign. apply Hs.
    unfold fexp, SpecFloat.emin, prec, emax. change (3 - 1024 - 53) with (-1074). lia.
Qed.

Lemma cond_Zopp_mul (s : bool) (a k : Z) : cond_Zopp s (a * k) = cond_Zopp s a * k.
Proof. destruct s; cbn; lia. Qed.

(** The difference [y - x] of two doubles other than NaN is greater than 0
    exactly when [x] is below [y]. *)
Lemma sub_pos (x y : t) :
  number x = true -> number y = true ->
  SFltb zero (SFsub prec emax y x) = (ord x <? ord y).
Proof.
  assert (Htop : 0 < top) by (unfold top; apply pow2_pos; lia).
  destruct x as [sx | sx | | sx mx ex]; destruct y as [sy | sy | | sy my ey];
    cbn [number valid_binary]; intros Hx Hy; try discriminate;
    try (pose proof (finite_lt_top mx ex Hx) as Bx);
    try (pose proof (finite_lt_top my ey Hy) as By).
  9: {
    cbn [SFsub ord].
    pose proof (bounded_spec mx ex Hx) as [Cx _].
    pose proof (bounded_spec my ey Hy) as [Cy _].
    set (ez := Z.min ey ex).
    assert (Hez : -1074 <= ez) by (unfold ez; lia).
    rewrite binary_normalize_sign by exact Hez.
    rewrite !shl_align_fst by (unfold ez; lia).
    pose proof (pow2_pos (ez + 1074) ltac:(lia)) as HK.
    assert (Ex : 2 ^ (ex + 1074) = 2 ^ (ex - ez) * 2 ^ (ez + 1074)).
    { rewrite <- Z.pow_add_r by (unfold ez; lia). f_equal. lia. }
    assert (Ey : 2 ^ (ey + 1074) = 2 ^ (ey - ez) * 2 ^ (ez + 1074)).
    { rewrite <- Z.pow_add_r by (unfold ez; lia). f_equal. lia. }
    rewrite Ex, Ey, !Z.mul_assoc, !cond_Zopp_mul.
    set (K := 2 ^ (ez + 1074)) in *.
    set (Dy := cond_Zopp sy (Zpos my) * 2 ^ (ey - ez)).
    set (Dx := cond_Zopp sx (Zpos mx) * 2 ^ (ex - ez)).
    clearbody K Dy Dx.
    destruct (Z.ltb_spec 0 (Dy - Dx)) as [H1 | H1];
      destruct (Z.ltb_spec (Dx * K) (Dy * K)) as [H2 | H2]; try reflexivity; exfalso.
    - assert (Dx * K < Dy * K) by (apply Z.mul_lt_mono_pos_r; lia). lia.
    - assert (Dy * K <= Dx * K) by (apply Z.mul_le_mono_nonneg_r; lia). lia. }
  all: cbn [SFsub ord]; try (destruct sx); try (destruct sy); cbn [cond_Zopp negb].
  all: try (symmetry; apply Z.ltb_lt; lia).
  all: try (symmetry; apply Z.ltb_ge; lia).
Qed.


Lemma ltb_ord (x y : t) :
  number x = true -> number y = true -> SFltb x y = (ord x <? ord y).
Proof.
  intros Hx Hy. unfold SFltb, Z.ltb. rewrite (compare_ord x y Hx Hy). reflexivity.
Qed.

Lemma leb_ord (x y : t) :
  number x = true -> number y = true -> SFleb x y = (ord x <=? ord y).
Proof.
  intros Hx Hy. unfold SFleb, Z.leb. rewrite (compare_ord x y Hx Hy).
  destruct (ord x ?= ord y); reflexivity.
Qed.

Lemma eqb_ord (x y : t) :
  number x = true -> number y = true -> SFeqb x y = (ord x =? ord y).
Proof.
  intros Hx Hy. unfold SFeqb. rewrite (compare_ord x y Hx Hy).
  destruct (Z.compare_spec (ord x) (ord y)) as [E | E | E]; symmetry.
  - apply Z.eqb_eq, E.
  - apply Z.eqb_neq. lia.
  - apply Z.eqb_neq. lia.
Qed.

End Binary64Order.

(* ===================================================================== *)
(** * The ranking of [getBestRoute]                                       *)
(* ===================================================================== *)

Lemma StronglySorted_impl_on {A} (dom : A -> Prop) (R R' : A -> A -> Prop) (l : list A) :
  (forall a b, dom a -> dom b -> R a b -> R' a b) ->
  Forall dom l -> StronglySorted R l -> StronglySorted R' l.
Proof.
  intros HR Hl Hs. induction Hs as [|a l Hs IH Ha]; [constructor|].
  inversion Hl as [|? ? Hda Hdl]; subst.
  constructor; [exact (IH Hdl)|].
  rewrite Forall_forall in Ha, Hdl. apply Forall_forall. intros b Hb.
  apply HR; auto.
Qed.

Module RankingFacts.

Import Binary64 Binary64Ranking Binary64Order.
Local Open Scope Z_scope.

(** On routes whose keys are numbers the comparator sends [a] behind [b]
    exactly when [a] has fewer shares sellable, or as many and the lower
    ratio. *)
Lemma sortsBehind_ord (a b : Route.t t) :
  numbers a = true -> numbers b = true ->
  sortsBehind a b
  = if ord (shares a) =? ord (shares b)
    then ord (Route.ratio a) <? ord (Route.ratio b)
    else ord (shares a) <? ord (shares b).
Proof.
  unfold numbers. intros Ha Hb.
  apply andb_true_iff in Ha. destruct Ha as [Hsa Hra].
  apply andb_true_iff in Hb. destruct Hb as [Hsb Hrb].
  unfold sortsBehind, compareRoutes. cbv zeta.
  pose proof (eqb_ord _ _ Hsa Hsb) as E. unfold shares in E, Hsa, Hsb |- *.
  change (strict_eq (SellCoin.sharesSellable (Route.sellCoin a))
            (SellCoin.sharesSellable (Route.sellCoin b)))
    with (SFeqb (SellCoin.sharesSellable (Route.sellCoin a))
            (SellCoin.sharesSellable (Route.sellCoin b))).
  rewrite E.
  destruct (ord (SellCoin.sharesSellable (Route.sellCoin a))
            =? ord (SellCoin.sharesSellable (Route.sellCoin b))); cbn [negb].
  - exact (sub_pos _ _ Hra Hrb).
  - exact (sub_pos _ _ Hsa Hsb).
Qed.

Lemma ranked_ord (a b : Route.t t) :
  numbers a = true -> numbers b = true ->
  ranked a b
  <-> ord (shares b) <= ord (shares a)
      /\ (ord (shares a) = ord (shares b) -> ord (Route.ratio b) <= ord (Route.ratio a)).
Proof.
  unfold numbers, ranked. intros Ha Hb.
  apply andb_true_iff in Ha. destruct Ha as [Hsa Hra].
  apply andb_true_iff in Hb. destruct Hb as [Hsb Hrb].
  rewrite (leb_ord _ _ Hsb Hsa), (eqb_ord _ _ Hsa Hsb), (leb_ord _ _ Hrb Hra).
  rewrite !Z.leb_le, Z.eqb_eq. reflexivity.
Qed.

Lemma tied_ord (a b : Route.t t) :
  numbers a = true -> numbers b = true ->
  tied a b = true
  <-> ord (shares a) = ord (shares b) /\ ord (Route.ratio a) = ord (Route.ratio b).
Proof.
  unfold numbers, tied. intros Ha Hb.
  apply andb_true_iff in Ha. destruct Ha as [Hsa Hra].
  apply andb_true_iff in Hb. destruct Hb as [Hsb Hrb].
  rewrite (eqb_ord _ _ Hsa Hsb), (eqb_ord _ _ Hra Hrb).
  rewrite andb_true_iff, !Z.eqb_eq. reflexivity.
Qed.

Lemma ranked_not_behind (a b : Route.t t) :
  numbers a = true -> numbers b = true ->
  sortsBehind a b = false <-> ranked a b.
Proof.
  intros Ha Hb. rewrite (sortsBehind_ord a b Ha Hb), (ranked_ord a b Ha Hb).
  destruct (Z.eqb_spec (ord (shares a)) (ord (shares b))) as [E | E].
  - rewrite Z.ltb_ge. split; [intros; split; lia | intros [_ Hr]; auto].
  - rewrite Z.ltb_ge. split; [intros; split; lia | intros [Hs _]; exact Hs].
Qed.

Lemma not_both (a b : Route.t t) :
  numbers a = true -> numbers b = true ->
  sortsBehind a b = true -> sortsBehind b a = false.
Proof.
  intros Ha Hb. rewrite (sortsBehind_ord a b Ha Hb), (sortsBehind_ord b a Hb Ha).
  destruct (Z.eqb_spec (ord (shares a)) (ord (shares b))) as [E | E];
    destruct (Z.eqb_spec (ord (shares b)) (ord (shares a))) as [E' | E'];
    rewrite ?Z.ltb_lt, ?Z.ltb_ge; lia.
Qed.

Lemma not_behind_trans (a b c : Route.t t) :
  numbers a = true -> numbers b = true -> numbers c = true ->
  sortsBehind a b = false -> sortsBehind b c = false -> sortsBehind a c = false.
Proof.
  intros Ha Hb Hc.
  rewrite (ranked_not_behind a b Ha Hb), (ranked_not_behind b c Hb Hc),
    (ranked_not_behind a c Ha Hc).
  rewrite (ranked_ord a b Ha Hb), (ranked_ord b c Hb Hc), (ranked_ord a c Ha Hc).
  intros [S1 R1] [S2 R2]. split; [lia|].
  intros E. assert (E1 : ord (shares a) = ord (shares b)) by lia.
  assert (E2 : ord (shares b) = ord (shares c)) by lia.
  specialize (R1 E1). specialize (R2 E2). lia.
Qed.

Lemma numbers_Forall (routes : list (Route.t t)) :
  forallb numbers routes = true -> Forall (fun r => numbers r = true) routes.
Proof. intros H. apply Forall_forall. apply forallb_forall. exact H. Qed.

(** When no key is NaN, [sortRoutes] returns the routes in ranking order,
    and routes that tie on both keys in the order they came in. *)
Lemma sortRoutes_ranked (routes : list (Route.t t)) :
  forallb numbers routes = true ->
  StronglySorted ranked (sortRoutes routes).
Proof.
  intros Hn. apply numbers_Forall in Hn.
  apply StronglySorted_impl_on
    with (dom := fun r => numbers r = true) (R := fun a b => sortsBehind a b = false).
  - intros a b Ha Hb. apply ranked_not_behind; assumption.
  - rewrite <- (sortRoutes_perm routes). exact Hn.
  - exact (@sort_sorted _ sortsBehind (fun r => numbers r = true)
             not_both not_behind_trans routes Hn).
Qed.

Lemma sortRoutes_stable (routes : list (Route.t t)) (r : Route.t t) :
  forallb numbers routes = true ->
  numbers r = true ->
  filter (tied r) (sortRoutes routes) = filter (tied r) routes.
Proof.
  intros Hn Hr. apply numbers_Forall in Hn.
  apply (@sort_stable _ sortsBehind (fun x => numbers x = true) (tied r)); [|exact Hn].
  intros a b Ha Hb Ta Tb.
  apply (tied_ord r a Hr Ha) in Ta. apply (tied_ord r b Hr Hb) in Tb.
  rewrite (sortsBehind_ord a b Ha Hb).
  destruct (Z.eqb_spec (ord (shares a)) (ord (shares b))); apply Z.ltb_ge; lia.
Qed.

End RankingFacts.

Set Implicit Arguments.

Section RankingOfGetBestRoute.

Variable getOrdersBinance : string -> outcome (OrderBook.t Binary64.t).
Variable getMinStepsBinance : string -> string -> outcome (Steps.t Binary64.t).
Variable calculateSellData : list (Level Binary64.t) -> Binary64.t -> SellData.t Binary64.t.
Variable calculateBuyData : list (Level Binary64.t) -> Binary64.t -> BuyData.t Binary64.t.

(** C1, as the code behaves.  On doubles, when no [sharesSellable] and no
    [ratio] of a candidate is NaN, the candidate routes of [getBestRoute]
    are put in the order: more [sellCoin.sharesSellable] first, among equal
    [sharesSellable] the higher [ratio] first, and routes equal on both
    keys in their input order.  Whatever the keys are, the best route
    returned is made from the first element of the sorted candidates and
    its [worstRoute] summary from the last one. *)
Theorem getBestRoute_ranking (sellCoinName buyCoinName : string)
    (bridgeCoins : list string) (sharesEntered : Binary64.t)
    (best : BestRoute.t Binary64.t) :
  getBestRoute getOrdersBinance getMinStepsBinance calculateSellData calculateBuyData
    sellCoinName buyCoinName bridgeCoins sharesEntered = Resolved best ->
  exists routes sorted first last_ front,
    possibleRoutes getOrdersBinance calculateSellData calculateBuyData
      sellCoinName buyCoinName bridgeCoins sharesEntered = Resolved routes
    /\ sorted = sortRoutes routes
    /\ Permutation routes sorted
    /\ (forallb Binary64Ranking.numbers routes = true ->
        StronglySorted Binary64Ranking.ranked sorted
        /\ (forall r, Binary64Ranking.numbers r = true ->
              filter (Binary64Ranking.tied r) sorted
              = filter (Binary64Ranking.tied r) routes))
    /\ nth_error sorted 0 = Some first
    /\ sorted = front ++ [last_]
    /\ List.length sorted = List.length bridgeCoins
    /\ BestRoute.baseCoin best = Route.baseCoin first
    /\ BestRoute.ratio best = Route.ratio first
    /\ SellCoin.market (BestRoute.sellCoin best) = SellCoin.market (Route.sellCoin first)
    /\ SellCoin.sharesSellable (BestRoute.sellCoin best)
       = SellCoin.sharesSellable (Route.sellCoin first)
    /\ SellCoin.averageSellPrice (BestRoute.sellCoin best)
       = SellCoin.averageSellPrice (Route.sellCoin first)
    /\ Adjusted.market (BestRoute.buyCoin best) = BuyLeg.market (Route.buyCoin first)
    /\ Adjusted.averageBuyPrice (BestRoute.buyCoin best)
       = BuyLeg.averageBuyPrice (Route.buyCoin first)
    /\ BestRoute.worstRoute best = worstRouteOf last_.
Proof.
  intros E. apply getBestRoute_resolved in E.
  destruct E as (routes & r0 & rN & stepsObj & Eroutes & E0 & EN & Es & ->).
  apply nth_error_last in EN. destruct EN as [front Efront].
  exists routes, (sortRoutes routes), r0, rN, front.
  split; [exact Eroutes|]. split; [reflexivity|].
  split; [apply sortRoutes_perm|].
  split.
  { intros Hn. split.
    - apply RankingFacts.sortRoutes_ranked, Hn.
    - intros r Hr. apply RankingFacts.sortRoutes_stable; assumption. }
  split; [exact E0|]. split; [exact Efront|].
  split.
  { rewrite <- (Permutation_length (sortRoutes_perm routes)).
    apply (Promise_map_length _ _ Eroutes). }
  repeat split.
Qed.

End RankingOfGetBestRoute.

(** The ranking of the sample exchange on doubles: ETH sells all 8 XRP at
    the better ratio, BTC sells all 8, USDT only 6. *)
Lemma getBestRoute_ranking_witness :
  exists best routes sorted,
    Doubles.getBestRoute "XRP" "ADA" ["BTC"; "ETH"; "USDT"]%string (int 8) = Resolved best
    /\ Doubles.possibleRoutes "XRP" "ADA" ["BTC"; "ETH"; "USDT"]%string (int 8)
       = Resolved routes
    /\ forallb Binary64Ranking.numbers routes = true
    /\ sorted = sortRoutes routes
    /\ StronglySorted Binary64Ranking.ranked sorted
    /\ map (fun r => BaseCoin.name (Route.baseCoin r)) sorted = ["ETH"; "BTC"; "USDT"]%string
    /\ BaseCoin.name (BestRoute.baseCoin best) = "ETH"%string
    /\ WorstRoute.baseCoin (BestRoute.worstRoute best) = "USDT"%string.
Proof.
  destruct (Doubles.getBestRoute "XRP" "ADA" ["BTC"; "ETH"; "USDT"]%string (int 8))
    as [best|e] eqn:E; [|vm_compute in E; discriminate E].
  destruct (getBestRoute_ranking _ _ _ _ _ _ _ _ E)
    as (routes & sorted & first & last_ & front & Eroutes & Esorted & _ & Hranked & _).
  exists best, routes, sorted.
  split; [reflexivity|]. split; [exact Eroutes|].
  assert (Hn : forallb Binary64Ranking.numbers routes = true).
  { vm_compute in Eroutes. inversion Eroutes; subst routes. vm_compute. reflexivity. }
  split; [exact Hn|]. split; [exact Esorted|].
  split; [exact (proj1 (Hranked Hn))|].
  subst sorted.
  vm_compute in Eroutes. inversion Eroutes; subst routes; clear Eroutes.
  vm_compute in E. inversion E; subst best; clear E.
  repeat split.
Defined.

(** C1, as the claim states it, fails on doubles.  Three candidates sell
    all 8 XRP; their average prices make the ratios 1, 0/0 = NaN and 2.
    Every difference with the NaN ratio is NaN, which is not greater than
    0: the comparator sends the first route neither behind the second nor
    the second behind the third, yet it sends the first behind the third,
    and [sort] moves nothing.  The route of ratio 1 is returned as best and
    the route of ratio 2, the highest, as worst.  No arrangement of these
    candidates is in descending order of the two keys. *)
Lemma sortRoutes_NaN_ratio :
  let btc := Doubles.candidate "BTC" (int 1) (int 1) in
  let eth := Doubles.candidate "ETH" (int 0) (int 0) in
  let usdt := Doubles.candidate "USDT" (int 2) (int 1) in
  let routes := [btc; eth; usdt] in
  Route.ratio btc = int 1
  /\ Route.ratio eth = Binary64.NaN
  /\ Route.ratio usdt = int 2
  /\ sortsBehind btc eth = false
  /\ sortsBehind eth usdt = false
  /\ sortsBehind btc usdt = true
  /\ sortRoutes routes = routes
  /\ nth_error (sortRoutes routes) 0 = Some btc
  /\ nth_error (sortRoutes routes) (List.length (sortRoutes routes) - 1) = Some usdt
  /\ SFeqb (Binary64Ranking.shares btc) (Binary64Ranking.shares usdt) = true
  /\ SFltb (Route.ratio btc) (Route.ratio usdt) = true
  /\ ~ Binary64Ranking.ranked btc usdt
  /\ (forall arrangement,
        Permutation routes arrangement ->
        ~ StronglySorted Binary64Ranking.ranked arrangement).
Proof.
  intros btc eth usdt routes.
  do 11 (split; [vm_compute; reflexivity|]).
  split.
  - intros [_ Hr]. specialize (Hr eq_refl). vm_compute in Hr. discriminate Hr.
  - intros arrangement Hp Hs.
    assert (Hb : In btc arrangement) by (apply (Permutation_in _ Hp); simpl; auto).
    assert (He : In eth arrangement) by (apply (Permutation_in _ Hp); simpl; auto).
    destruct (@StronglySorted_either _ _ _ _ _ Hs Hb He) as [Heq | [[_ Hr] | [_ Hr]]].
    + discriminate Heq.
    + specialize (Hr eq_refl). vm_compute in Hr. discriminate Hr.
    + specialize (Hr eq_refl). vm_compute in Hr. discriminate Hr.
Qed.

Lemma getBestRoute_ratio_chained_witness :
  exists best routes,
    Sample.getBestRoute "XRP" "ADA" ["BTC"; "ETH"; "USDT"]%string 8 = Resolved best
    /\ Sample.possibleRoutes "XRP" "ADA" ["BTC"; "ETH"; "USDT"]%string 8 = Resolved routes
    /\ Forall2 (chained Sample.getOrdersBinance sampleSellData sampleBuyData "XRP" "ADA" 8)
         ["BTC"; "ETH"; "USDT"]%string routes
    /\ BestRoute.ratio best
       = div (SellCoin.averageSellPrice (BestRoute.sellCoin best))
             (Adjusted.averageBuyPrice (BestRoute.buyCoin best)).
Proof.
  destruct (Sample.getBestRoute "XRP" "ADA" ["BTC"; "ETH"; "USDT"]%string 8)
    as [best|e] eqn:E; [|vm_compute in E; discriminate E].
  destruct (getBestRoute_ratio_chained _ _ _ _ _ _ _ _ E)
    as (routes & Eroutes & Hchained & _ & Hratio).
  exists best, routes. repeat split; assumption.
Defined.

(** C2, as the claim states it, fails.  On the sample exchange there is no
    XRPDOGE market: with the bridge coins BTC, DOGE and USDT the order books
    of BTC and of USDT arrive and only DOGE's fetch fails, yet the
    evaluation rejects with the exchange's error instead of ranking the two
    remaining candidates. *)
Lemma getBestRoute_one_failed_fetch :
  fetched Sample.getOrdersBinance "XRP" "ADA" "BTC"
  /\ fetched Sample.getOrdersBinance "XRP" "ADA" "USDT"
  /\ fetchFails Sample.getOrdersBinance "XRP" "ADA" "DOGE"
  /\ Sample.getBestRoute "XRP" "ADA" ["BTC"; "DOGE"; "USDT"]%string 8
     = Rejected (ExchangeError "Invalid symbol.")
  /\ ~ (rejects (Sample.getBestRoute "XRP" "ADA" ["BTC"; "DOGE"; "USDT"]%string 8)
        <-> forall baseCoin, In baseCoin ["BTC"; "DOGE"; "USDT"]%string ->
              fetchFails Sample.getOrdersBinance "XRP" "ADA" baseCoin).
Proof.
  assert (Hbtc : fetched Sample.getOrdersBinance "XRP" "ADA" "BTC").
  { split; eexists; vm_compute; reflexivity. }
  split; [exact Hbtc|].
  split; [split; eexists; vm_compute; reflexivity|].
  split; [left; eexists; vm_compute; reflexivity|].
  split; [vm_compute; reflexivity|].
  intros [Hall _].
  assert (Hrej : rejects (Sample.getBestRoute "XRP" "ADA" ["BTC"; "DOGE"; "USDT"]%string 8)).
  { eexists. vm_compute. reflexivity. }
  specialize (Hall Hrej "BTC"%string (or_introl eq_refl)).
  destruct Hbtc as [[o1 E1] [o2 E2]].
  destruct Hall as [[e He] | [e He]]; congruence.
Qed.

(* ===================================================================== *)
(** * Settlement: the fees of [/trade]                                    *)
(* ===================================================================== *)

Section Settlement.

Context {num : Type} `{Number num}.
Local Open Scope js_scope.

Variable getOrdersBinance : string -> outcome (OrderBook.t num).
Variable getMinStepsBinance : string -> string -> outcome (Steps.t num).
Variable getPriceBinance : string -> outcome num.
Variable calculateSellData : list (Level num) -> num -> SellData.t num.
Variable calculateBuyData : list (Level num) -> num -> BuyData.t num.
Variable sellMarketBinance : string -> num -> outcome (OrderResult.t num).
Variable buyMarketBinance : string -> num -> outcome (OrderResult.t num).
Variable aggregateFilledTradesBinance : list (Fill.t num) -> Aggregate.t num.

Local Abbreviation settle :=
  (trade getOrdersBinance getMinStepsBinance getPriceBinance calculateSellData
     calculateBuyData sellMarketBinance buyMarketBinance aggregateFilledTradesBinance).

(** The rate depends on the commission asset only through its being BNB. *)
Lemma commissionDecimal_cases (commissionAsset : string) :
  (commissionAsset = "BNB"%string -> commissionDecimal commissionAsset = lit 5 100000)
  /\ (commissionAsset <> "BNB"%string -> commissionDecimal commissionAsset = lit 1 10000).
Proof.
  unfold commissionDecimal.
  destruct (String.eqb_spec commissionAsset "BNB"); split; intros; congruence.
Qed.

(** C6. In every settled trade, each leg's rate is 0.00005 when the
    commission asset of that leg's first fill is BNB and 0.0001 otherwise;
    the sale total is the aggregated amount [quantity * price] less
    [amount * rate], the purchase total the aggregated amount plus
    [amount * rate]. *)
Theorem trade_totals (body : TradeRequest.t num) (t : Trade.t num) :
  settle body = Resolved t ->
  exists sellSymbol buySymbol quantityToBuy sellRes buyRes sellFill buyFill,
    sellMarketBinance sellSymbol (TradeRequest.shares body) = Resolved sellRes
    /\ buyMarketBinance buySymbol quantityToBuy = Resolved buyRes
    /\ nth_error (OrderResult.fills sellRes) 0 = Some sellFill
    /\ nth_error (OrderResult.fills buyRes) 0 = Some buyFill
    /\ let sellAgg := aggregateFilledTradesBinance (OrderResult.fills sellRes) in
       let buyAgg := aggregateFilledTradesBinance (OrderResult.fills buyRes) in
       let sellAmount := Aggregate.qty sellAgg * Aggregate.price sellAgg in
       let buyAmount := Aggregate.qty buyAgg * Aggregate.price buyAgg in
       let sellRate := if String.eqb (Fill.commissionAsset sellFill) "BNB"
                       then lit 5 100000 else lit 1 10000 in
       let buyRate := if String.eqb (Fill.commissionAsset buyFill) "BNB"
                      then lit 5 100000 else lit 1 10000 in
       Settled.commissionAsset (Trade.sale t) = Fill.commissionAsset sellFill
       /\ Settled.commissionAsset (Trade.purchase t) = Fill.commissionAsset buyFill
       /\ Settled.total (Trade.sale t) = sellAmount - sellAmount * sellRate
       /\ Settled.total (Trade.purchase t) = buyAmount + buyAmount * buyRate.
Proof.
  unfold trade. intros E.
  apply bind_resolved in E.
  destruct E as ([[[sellSymbol buySymbol] sharesBuyable] bestRoute] & _ & E).
  apply bind_resolved in E. destruct E as (stepsObj & _ & E).
  apply bind_resolved in E. destruct E as (sellRes & Esell & E).
  apply bind_resolved in E. destruct E as (sellFill & Esf & E).
  apply defined_resolved in Esf.
  apply bind_resolved in E. destruct E as (buyRes & Ebuy & E).
  apply bind_resolved in E. destruct E as (buyFill & Ebf & E).
  apply defined_resolved in Ebf.
  apply bind_resolved in E. destruct E as (savings & _ & E).
  inversion E; subst t; clear E.
  exists sellSymbol, buySymbol.
  eexists. exists sellRes, buyRes, sellFill, buyFill.
  split; [exact Esell|]. split; [exact Ebuy|].
  split; [exact Esf|]. split; [exact Ebf|].
  cbn. unfold commissionDecimal. repeat split.
Qed.

End Settlement.

Lemma trade_totals_witness :
  exists t,
    Sample.trade (Sample.request ["BTC"; "ETH"; "USDT"]%string) = Resolved t
    /\ Settled.commissionAsset (Trade.sale t) = "BNB"%string
    /\ Settled.commissionAsset (Trade.purchase t) = "ADA"%string
    /\ Settled.total (Trade.sale t) == 80 - 80 * (5 # 100000)
    /\ Settled.total (Trade.purchase t) == 75 + 75 * (1 # 10000).
Proof.
  destruct (Sample.trade (Sample.request ["BTC"; "ETH"; "USDT"]%string))
    as [t|e] eqn:E; [|vm_compute in E; discriminate E].
  destruct (@trade_totals Q _ Sample.getOrdersBinance Sample.getMinStepsBinance
              Sample.getPriceBinance sampleSellData sampleBuyData Sample.sellMarketBinance
              Sample.buyMarketBinance sampleAggregate
              (Sample.request ["BTC"; "ETH"; "USDT"]%string) t E)
    as (s1 & s2 & q & sellRes & buyRes & sellFill & buyFill & _).
  exists t. split; [reflexivity|].
  vm_compute in E. inversion E; subst t; clear E.
  repeat split.
Defined.

(* ===================================================================== *)
(** * [Math.round] on doubles                                             *)
(* ===================================================================== *)

Unset Implicit Arguments.

Module Binary64Round.

Import Binary64 Binary64Order.
Local Open Scope Z_scope.

Lemma digits2_iter_xO (m k : positive) :
  Zpos (digits2_pos (Pos.iter xO m k)) = Zpos (digits2_pos m) + Zpos k.
Proof.
  induction k as [|k IH] using Pos.peano_ind.
  - cbn. lia.
  - rewrite Pos.iter_succ. cbn [digits2_pos]. lia.
Qed.

(** A mantissa of 53 bits at an exponent in range is left as it is. *)
Lemma binary_round_aux_exact (s : bool) (m : positive) (e : Z) :
  Zpos (digits2_pos m) = 53 -> -1074 <= e <= 971 ->
  binary_round_aux prec emax s (Zpos m) e loc_Exact = S754_finite s m e.
Proof.
  intros Hd He.
  assert (Hs : shr_fexp prec emax (Zpos m) e loc_Exact
               = ({| shr_m := Zpos m; shr_r := false; shr_s := false |}, e)).
  { unfold shr_fexp, shr, fexp, SpecFloat.emin, prec, emax. cbn [Zdigits2].
    rewrite Hd. change (3 - 1024 - 53) with (-1074).
    replace (Z.max (53 + e - 53) (-1074) - e) with 0 by lia. reflexivity. }
  unfold binary_round_aux. rewrite Hs. cbn [shr_m loc_of_shr_record round_nearest_even].
  rewrite Hs. cbn [shr_m].
  replace (e <=? emax - prec) with true; [reflexivity|].
  symmetry. apply Z.leb_le. unfold emax, prec. lia.
Qed.

(** An integer of at most 53 bits is a double. *)
Lemma binary_round_small (s : bool) (m : positive) :
  Zpos m < 2 ^ 53 ->
  exists mz ez,
    binary_round prec emax s m 0 = S754_finite s mz ez
    /\ -52 <= ez <= 0
    /\ Zpos mz = Zpos m * 2 ^ (- ez).
Proof.
  intros Hm. unfold binary_round.
  pose proof (digits2_bounds m) as [Hlo _].
  assert (Hd : Zpos (digits2_pos m) <= 53).
  { destruct (Z.le_gt_cases (Zpos (digits2_pos m)) 53) as [H | H]; [exact H|].
    exfalso. assert (2 ^ 53 <= 2 ^ (Zpos (digits2_pos m) - 1)) by (apply Z.pow_le_mono_r; lia).
    lia. }
  unfold shl_align, fexp, SpecFloat.emin, prec, emax.
  change (3 - 1024 - 53) with (-1074).
  replace (Z.max (Zpos (digits2_pos m) + 0 - 53) (-1074) - 0)
    with (Zpos (digits2_pos m) - 53) by lia.
  destruct (Zpos (digits2_pos m) - 53) as [|k|k] eqn:Ek; try lia.
  - exists m, 0. split; [|split; [lia | cbn; lia]].
    apply (binary_round_aux_exact s m 0); lia.
  - exists (Pos.iter xO m k), (Z.max (Zpos (digits2_pos m) + 0 - 53) (-1074)).
    replace (Z.max (Zpos (digits2_pos m) + 0 - 53) (-1074)) with (Zneg k) by lia.
    split; [|split].
    + apply (binary_round_aux_exact s).
      * rewrite digits2_iter_xO. lia.
      * lia.
    + lia.
    + rewrite iter_xO. reflexivity.
Qed.


Lemma Qpower2_opp (k : Z) : 0 <= k -> (Qpower 2 (- k) == 1 / inject_Z (2 ^ k))%Q.
Proof.
  intros Hk. rewrite Qpower_opp, Zpower_Qpower by exact Hk.
  change (inject_Z 2) with 2%Q. field.
  apply Qpower_not_0. discriminate.
Qed.

Lemma inject_cond_Zopp (s : bool) (a : Z) :
  (inject_Z (cond_Zopp s a) == (if s then - inject_Z a else inject_Z a))%Q.
Proof. destruct s; cbn [cond_Zopp]; [rewrite inject_Z_opp|]; reflexivity. Qed.

Lemma toQ_scaled (s : bool) (mz m : positive) (ez : Z) :
  ez <= 0 -> Zpos mz = Zpos m * 2 ^ (- ez) ->
  (toQ (S754_finite s mz ez) == inject_Z (cond_Zopp s (Zpos m)))%Q.
Proof.
  intros He Hm. cbn [toQ].
  replace ez with (- - ez) at 1 by lia.
  rewrite Qpower2_opp by lia.
  rewrite !inject_cond_Zopp, Hm, inject_Z_mult.
  assert (HK : ~ (inject_Z (2 ^ (- ez)) == 0)%Q).
  { intros E. change 0%Q with (inject_Z 0) in E. apply (proj1 (inject_Z_injective _ _)) in E.
    pose proof (pow2_pos (- ez) ltac:(lia)). lia. }
  destruct s; field; exact HK.
Qed.

(** [of_Z n] is the integer [n] when [n] has at most 53 bits. *)
Lemma of_Z_value (n : Z) :
  - 2 ^ 53 < n < 2 ^ 53 -> (toQ (of_Z n) == inject_Z n)%Q.
Proof.
  intros Hn. unfold of_Z. destruct n as [|m|m]; cbn [binary_normalize].
  - reflexivity.
  - destruct (binary_round_small false m) as (mz & ez & E & He & Hm); [lia|].
    rewrite E. rewrite (toQ_scaled false mz m ez) by (lia || exact Hm). reflexivity.
  - destruct (binary_round_small true m) as (mz & ez & E & He & Hm); [lia|].
    rewrite E. rewrite (toQ_scaled true mz m ez) by (lia || exact Hm). reflexivity.
Qed.

(** [Math.round] on a finite double: the integer nearest to it, halves
    going up. *)
Lemma round_half_up (s : bool) (m : positive) (e : Z) :
  bounded prec emax m e = true ->
  exists n : Z,
    (toQ (round (S754_finite s m e)) == inject_Z n)%Q
    /\ (inject_Z n - (1 # 2) <= toQ (S754_finite s m e))%Q
    /\ (toQ (S754_finite s m e) < inject_Z n + (1 # 2))%Q.
Proof.
  intros Hb. cbn [round].
  destruct (Z.leb_spec 0 e) as [He | He].
  - exists (cond_Zopp s (Zpos m) * 2 ^ e).
    assert (E : (toQ (S754_finite s m e) == inject_Z (cond_Zopp s (Zpos m) * 2 ^ e))%Q).
    { cbn [toQ]. rewrite inject_Z_mult, Zpower_Qpower by exact He. reflexivity. }
    rewrite E. split; [reflexivity | split; lra].
  - pose proof (bounded_spec m e Hb) as [Hc _].
    pose proof (digits2_bounds m) as [_ Hm].
    assert (Hm' : Zpos m < 2 ^ 53).
    { eapply Z.lt_le_trans; [exact Hm|]. apply Z.pow_le_mono_r; lia. }
    set (K := 2 ^ (- e)).
    assert (HK : 2 <= K).
    { unfold K. change 2 with (2 ^ 1) at 1. apply Z.pow_le_mono_r; lia. }
    assert (ED : 2 ^ (1 - e) = 2 * K).
    { unfold K. replace (1 - e) with (Z.succ (- e)) by lia. apply Z.pow_succ_r. lia. }
    rewrite ED.
    set (M := cond_Zopp s (Zpos m)).
    assert (HM : - 2 ^ 53 < M < 2 ^ 53) by (unfold M; destruct s; cbn [cond_Zopp]; lia).
    assert (EN : cond_Zopp s (2 * Zpos m) = 2 * M) by (unfold M; destruct s; cbn [cond_Zopp]; lia).
    rewrite EN.
    set (n := (2 * M + K) / (2 * K)).
    pose proof (Z.mul_div_le (2 * M + K) (2 * K) ltac:(lia)) as Hlo.
    pose proof (Z.mul_succ_div_gt (2 * M + K) (2 * K) ltac:(lia)) as Hhi.
    fold n in Hlo, Hhi.
    assert (Hn : - 2 ^ 53 < n < 2 ^ 53).
    { change (2 ^ 53) with 9007199254740992 in *.
      split.
      - destruct (Z.lt_ge_cases (- 9007199254740992) n) as [H | H]; [exact H | exfalso].
        assert (K * Z.succ n <= K * (- 9007199254740992 + 1))
          by (apply Z.mul_le_mono_nonneg_l; lia).
        lia.
      - destruct (Z.lt_ge_cases n 9007199254740992) as [H | H]; [exact H | exfalso].
        assert (K * 9007199254740992 <= K * n) by (apply Z.mul_le_mono_nonneg_l; lia).
        lia. }
    exists n.
    assert (EQ : (toQ (S754_finite s m e) == inject_Z M / inject_Z K)%Q).
    { cbn [toQ]. fold M. replace e with (- - e) at 1 by lia.
      rewrite Qpower2_opp by lia. fold K. field.
      intros E. change 0%Q with (inject_Z 0) in E. apply (proj1 (inject_Z_injective _ _)) in E. lia. }
    assert (IK : (0 < inject_Z K)%Q).
    { change 0%Q with (inject_Z 0). rewrite <- Zlt_Qlt. lia. }
    assert (Qlo : (inject_Z (2 * K * n) <= inject_Z (2 * M + K))%Q)
      by (rewrite <- Zle_Qle; exact Hlo).
    assert (Qhi : (inject_Z (2 * M + K) < inject_Z (2 * K * Z.succ n))%Q)
      by (rewrite <- Zlt_Qlt; exact Hhi).
    unfold Z.succ in Qhi.
    repeat (rewrite inject_Z_plus in Qlo || rewrite inject_Z_mult in Qlo).
    repeat (rewrite inject_Z_plus in Qhi || rewrite inject_Z_mult in Qhi).
    change (inject_Z 2) with 2%Q in Qlo, Qhi. change (inject_Z 1) with 1%Q in Qhi.
    split; [|split].
    + destruct n as [|pn|pn] eqn:En; [reflexivity | |];
        rewrite <- En in *; apply of_Z_value; exact Hn.
    + rewrite EQ. apply Qle_shift_div_l; [exact IK|]. lra.
    + rewrite EQ. apply Qlt_shift_div_r; [exact IK|]. lra.
Qed.

(** [Math.round] of a finite double, a zero included, is the integer
    nearest to it, halves going up. *)
Lemma round_nearest (x : t) :
  finite x = true ->
  exists n : Z,
    (toQ (round x) == inject_Z n)%Q
    /\ (inject_Z n - (1 # 2) <= toQ x)%Q
    /\ (toQ x < inject_Z n + (1 # 2))%Q.
Proof.
  destruct x as [s | s | | s m e]; cbn [finite]; intros Hx; try discriminate.
  - exists 0. cbn. repeat split; discriminate.
  - apply round_half_up, Hx.
Qed.

End Binary64Round.

Set Implicit Arguments.

(* ===================================================================== *)
(** * Savings: [numberToFixed] and [calculateUSDSavings]                  *)
(* ===================================================================== *)

Section Savings.

Variable getPriceBinance : string -> outcome Binary64.t.
Local Open Scope js_scope.

(** 10 to the power 4, as [numberToFixed] computes it on doubles. *)
Lemma pow_ten_4 : pow (int 10 : Binary64.t) 4 = int 10000.
Proof. vm_compute. reflexivity. Qed.

Lemma coinPriceUSD_priceInUSD (baseCoin : string) (price : Binary64.t) :
  coinPriceUSD getPriceBinance baseCoin = Resolved price
  <-> priceInUSD getPriceBinance baseCoin price.
Proof.
  unfold coinPriceUSD, priceInUSD.
  destruct (String.eqb_spec baseCoin "USDT") as [-> | Hne]; split.
  - intros E. inversion E. left. split; reflexivity.
  - intros [[_ ->] | [Hne _]]; [reflexivity | congruence].
  - intros E. right. split; assumption.
  - intros [[-> _] | [_ E]]; [congruence | exact E].
Qed.

(** C7, as the code behaves.  On doubles the savings of a best route are
    [Math.round(x * 10^4) / 10^4] for
    [x = bestSpread * bestPrice - worstSpread * worstPrice], every
    operation rounded as doubles are, where a spread is the average sell
    price less the average buy price and the price of a bridge coin is
    exactly 1 when it is USDT and otherwise the price looked up for its
    USDT market; the savings resolve only when both prices are there.
    [Math.round] takes the product [x * 10^4], when it is finite, to the
    integer nearest to it, halves going up.  A route over USDT with best
    spread 2 and worst spread 1 saves 1. *)
Theorem calculateUSDSavings_rounded (bestRoute : BestRoute.t Binary64.t) :
  let worstRoute := BestRoute.worstRoute bestRoute in
  let bestBaseCoin := BaseCoin.name (BestRoute.baseCoin bestRoute) in
  let worstBaseCoin := WorstRoute.baseCoin worstRoute in
  let bestSpread :=
    SellCoin.averageSellPrice (BestRoute.sellCoin bestRoute)
    - Adjusted.averageBuyPrice (BestRoute.buyCoin bestRoute) in
  let worstSpread :=
    WorstRoute.averageSellPrice worstRoute - WorstRoute.averageBuyPrice worstRoute in
  (forall bestPrice worstPrice,
     priceInUSD getPriceBinance bestBaseCoin bestPrice ->
     priceInUSD getPriceBinance worstBaseCoin worstPrice ->
     calculateUSDSavings getPriceBinance bestRoute
     = Resolved
         (round ((bestSpread * bestPrice - worstSpread * worstPrice) * int 10000)
          / int 10000))
  /\ (forall USDSavings,
        calculateUSDSavings getPriceBinance bestRoute = Resolved USDSavings ->
        exists bestPrice worstPrice,
          priceInUSD getPriceBinance bestBaseCoin bestPrice
          /\ priceInUSD getPriceBinance worstBaseCoin worstPrice)
  /\ (forall bestPrice worstPrice,
        let product :=
          (bestSpread * bestPrice - worstSpread * worstPrice) * int 10000 in
        Binary64.finite product = true ->
        exists n : Z,
          (Binary64.toQ (round product) == inject_Z n)%Q
          /\ (inject_Z n - (1 # 2) <= Binary64.toQ product)%Q
          /\ (Binary64.toQ product < inject_Z n + (1 # 2))%Q)
  /\ (bestBaseCoin = "USDT"%string -> worstBaseCoin = "USDT"%string ->
      bestSpread = int 2 -> worstSpread = int 1 ->
      calculateUSDSavings getPriceBinance bestRoute = Resolved (int 1)).
Proof.
  intros worstRoute bestBaseCoin worstBaseCoin bestSpread worstSpread.
  assert (Hcalc :
    calculateUSDSavings getPriceBinance bestRoute
    = (bestPrice <- coinPriceUSD getPriceBinance bestBaseCoin ;;
       worstPrice <- coinPriceUSD getPriceBinance worstBaseCoin ;;
       Resolved
         (round ((bestSpread * bestPrice - worstSpread * worstPrice) * int 10000)
          / int 10000))).
  { unfold calculateUSDSavings, coinPriceUSD, numberToFixed. rewrite pow_ten_4.
    reflexivity. }
  rewrite Hcalc. clear Hcalc.
  split; [|split; [|split]].
  - intros bestPrice worstPrice Hb Hw.
    apply coinPriceUSD_priceInUSD in Hb. apply coinPriceUSD_priceInUSD in Hw.
    rewrite Hb. cbn [bind]. rewrite Hw. reflexivity.
  - intros v E.
    apply bind_resolved in E. destruct E as (bestPrice & Eb & E).
    apply bind_resolved in E. destruct E as (worstPrice & Ew & _).
    exists bestPrice, worstPrice.
    split; apply coinPriceUSD_priceInUSD; assumption.
  - intros bestPrice worstPrice product Hp.
    exact (Binary64Round.round_nearest product Hp).
  - intros Eb Ew Hb Hw. unfold coinPriceUSD. rewrite Eb, Ew, Hb, Hw.
    vm_compute. reflexivity.
Qed.

End Savings.

(** Best route over ETH at 1500 USDT with spread 10 - 5, worst route over
    USDT with spread 1000 - 400: the savings are 5 * 1500 - 600 = 6900.
    With the spreads 1.00123 - 1 and 0.3 - 0.1 they are 1.645, from a
    product that [Math.round] takes to the nearest integer. *)
Lemma calculateUSDSavings_rounded_witness :
  calculateUSDSavings Doubles.getPriceBinance
    (Doubles.route "ETH" "USDT" (int 10) (int 5) (int 1000) (int 400))
  = Resolved (int 6900)
  /\ calculateUSDSavings Doubles.getPriceBinance
       (Doubles.route "ETH" "USDT" (lit 100123 100000) (int 1) (lit 3 10) (lit 1 10))
     = Resolved (lit 1645 1000)
  /\ (let product : Binary64.t :=
        mul (sub (mul (sub (lit 100123 100000) (int 1)) (int 1500))
                 (mul (sub (lit 3 10) (lit 1 10)) (int 1)))
            (int 10000) in
      exists n : Z,
        Binary64.toQ (round product) == inject_Z n
        /\ inject_Z n - (1 # 2) <= Binary64.toQ product
        /\ Binary64.toQ product < inject_Z n + (1 # 2))
  /\ calculateUSDSavings Doubles.getPriceBinance
       (Doubles.route "USDT" "USDT" (int 12) (int 10) (int 11) (int 10))
     = Resolved (int 1).
Proof.
  assert (Heth : priceInUSD Doubles.getPriceBinance "ETH" (int 1500)).
  { right. split; [discriminate | reflexivity]. }
  assert (Husdt : priceInUSD Doubles.getPriceBinance "USDT" (int 1)).
  { left. split; reflexivity. }
  split; [|split; [|split]].
  - rewrite (proj1 (calculateUSDSavings_rounded Doubles.getPriceBinance
                      (Doubles.route "ETH" "USDT" (int 10) (int 5) (int 1000) (int 400)))
               (int 1500) (int 1) Heth Husdt).
    vm_compute. reflexivity.
  - rewrite (proj1 (calculateUSDSavings_rounded Doubles.getPriceBinance
                      (Doubles.route "ETH" "USDT" (lit 100123 100000) (int 1)
                         (lit 3 10) (lit 1 10)))
               (int 1500) (int 1) Heth Husdt).
    vm_compute. reflexivity.
  - apply (proj1 (proj2 (proj2
             (calculateUSDSavings_rounded Doubles.getPriceBinance
                (Doubles.route "ETH" "USDT" (lit 100123 100000) (int 1)
                   (lit 3 10) (lit 1 10)))))
             (int 1500) (int 1)).
    vm_compute. reflexivity.
  - apply (proj2 (proj2 (proj2
             (calculateUSDSavings_rounded Doubles.getPriceBinance
                (Doubles.route "USDT" "USDT" (int 12) (int 10) (int 11) (int 10))))));
      vm_compute; reflexivity.
Defined.

(** C7, as the claim states it, fails on doubles.  The double nearest to
    0.06245 lies below 0.06245, so rounded to 4 decimal places, halves up,
    it is 0.0624.  The code multiplies it by 10^4 first; the product is
    rounded to the double 624.5, which [Math.round] takes up to 625: the
    savings of a route over USDT with this best spread and a worst spread
    of 0 are 0.0625. *)
Lemma calculateUSDSavings_not_half_up :
  let x : Binary64.t := lit 6245 100000 in
  let bestRoute := Doubles.route "USDT" "USDT" x (int 0) (int 0) (int 0) in
  sub (mul (sub x (int 0)) (int 1)) (mul (sub (int 0) (int 0)) (int 1)) = x
  /\ Binary64.toQ x < 6245 # 100000
  /\ Exact.roundedHalfUp4 (Binary64.toQ x) (624 # 10000)
  /\ calculateUSDSavings Doubles.getPriceBinance bestRoute = Resolved (lit 625 10000)
  /\ Binary64.toQ (lit 625 10000) == 625 # 10000
  /\ ~ Exact.roundedHalfUp4 (Binary64.toQ x) (Binary64.toQ (lit 625 10000)).
Proof.
  intros x bestRoute.
  assert (Hx : Binary64.toQ x < 6245 # 100000) by (vm_compute; reflexivity).
  assert (Hr : Binary64.toQ (lit 625 10000) == 625 # 10000) by (vm_compute; reflexivity).
  split; [vm_compute; reflexivity|].
  split; [exact Hx|].
  split.
  { exists 624%Z. split; [reflexivity|].
    split; vm_compute; [discriminate | reflexivity]. }
  split; [vm_compute; reflexivity|].
  split; [exact Hr|].
  intros (n & Hv & Hlo & _).
  rewrite Hr in Hv.
  assert (Hn : inject_Z n == 625).
  { setoid_replace (inject_Z n) with (inject_Z n / 10000 * 10000) by field.
    rewrite <- Hv. reflexivity. }
  rewrite Hn in Hlo. lra.
Qed.

(** The same example on doubles: spreads 2 and 1 over USDT give 1. *)
Example calculateUSDSavings_binary64 :
  calculateUSDSavings (fun _ => Rejected (ExchangeError "Invalid symbol."))
    {| BestRoute.sellCoin := SellCoin.mk "XRPUSDT" (int 12 : Binary64.t) (int 8) None;
       BestRoute.buyCoin :=
         Adjusted.mk "ADAUSDT" (int 0) (int 0) (int 10) (int 1) (int 0) None None;
       BestRoute.baseCoin := BaseCoin.mk "USDT" "USDTUSDT";
       BestRoute.ratio := lit 12 10;
       BestRoute.worstRoute := WorstRoute.mk None "USDT" (int 11) (int 10) |}
  = Resolved (int 1).
Proof. vm_compute. reflexivity. Qed.

(* ===================================================================== *)
(** * The live session                                                    *)
(* ===================================================================== *)

Section LiveSession.

Context {num : Type} `{Number num}.
Local Open Scope js_scope.

Variable calculateSellData : list (Level num) -> num -> SellData.t num.
Variable calculateBuyData : list (Level num) -> num -> BuyData.t num.
Variable sellCoinSymbol : string.
Variable buyCoin : BuyCoin.t num.

Local Abbreviation onSell := (onSellCoinOrders calculateSellData sellCoinSymbol).
Local Abbreviation onBuy := (onBuyCoinOrders calculateBuyData buyCoin).
Local Abbreviation step1 := (step calculateSellData calculateBuyData sellCoinSymbol buyCoin).
Local Abbreviation runs := (run calculateSellData calculateBuyData sellCoinSymbol buyCoin).
Local Abbreviation cached := (cachedSaleTotal calculateSellData).

Lemma topOfBook_resolved (levels : list (Level num)) :
  levels <> [] -> exists price, topOfBook levels = Resolved price.
Proof.
  destruct levels as [|[price quantity] rest]; [congruence|].
  intros _. exists price. reflexivity.
Qed.

Lemma topOfBook_empty :
  topOfBook (@nil (Level num)) = Rejected (TypeError "Cannot read properties of undefined").
Proof. reflexivity. Qed.

(** C10. An order-book update with non-empty bids and non-empty asks lets
    the sell-leg and the buy-leg handler run to their broadcast, with the
    first bid and ask prices as [bid] and [ask].  With empty bids or empty
    asks the read of the top of the book throws a [TypeError] in both
    handlers and nothing is broadcast. *)
Theorem handlers_top_of_book (s : Session.t num) (o : OrderBook.t num) :
  (OrderBook.bids o <> [] -> OrderBook.asks o <> [] ->
   exists bid ask sellCoinInfo adjustedBuyInfo,
     nth_error (OrderBook.bids o) 0 = Some bid
     /\ nth_error (OrderBook.asks o) 0 = Some ask
     /\ snd (onSell s o) = Resolved (Broadcast.updateSellCoinInfo sellCoinInfo)
     /\ SellCoinInfo.bid sellCoinInfo = fst bid
     /\ SellCoinInfo.ask sellCoinInfo = fst ask
     /\ snd (onBuy s o) = Resolved (Broadcast.updateBuyCoinInfo adjustedBuyInfo)
     /\ Adjusted.bid adjustedBuyInfo = Some (fst bid)
     /\ Adjusted.ask adjustedBuyInfo = Some (fst ask))
  /\ (OrderBook.bids o = [] \/ OrderBook.asks o = [] ->
      snd (onSell s o) = Rejected (TypeError "Cannot read properties of undefined")
      /\ snd (onBuy s o) = Rejected (TypeError "Cannot read properties of undefined")).
Proof.
  unfold onSellCoinOrders, onBuyCoinOrders.
  destruct o as [bids asks]. cbn [OrderBook.bids OrderBook.asks snd].
  split.
  - intros Hb Ha.
    destruct bids as [|bid bids]; [congruence|].
    destruct asks as [|ask asks]; [congruence|].
    exists bid, ask. eexists. eexists.
    cbn. repeat split.
  - intros [-> | ->].
    + split; reflexivity.
    + destruct bids as [|bid bids]; split; reflexivity.
Qed.

(** The sell-leg handler caches its [saleTotal] before it reads the top of
    the book, so the cache is refreshed even by an update it fails on. *)
Lemma onSellCoinOrders_caches (s : Session.t num) (o : OrderBook.t num) :
  fst (onSell s o)
  = {| Session.SHARES_FOR_ORDER_UPDATES := Session.SHARES_FOR_ORDER_UPDATES s;
       Session.saleProceeds :=
         SellData.saleTotal
           (calculateSellData (OrderBook.bids o) (Session.SHARES_FOR_ORDER_UPDATES s)) |}.
Proof. reflexivity. Qed.

Lemma onBuyCoinOrders_buyLeg (s : Session.t num) (o : OrderBook.t num) :
  onBuy s o = (s, buyLeg calculateBuyData buyCoin (Session.saleProceeds s) o).
Proof. reflexivity. Qed.

Lemma run_app (s : Session.t num) (evs1 evs2 : list (Event.t num)) :
  runs s (evs1 ++ evs2)
  = (fst (runs (fst (runs s evs1)) evs2),
     snd (runs s evs1) ++ snd (runs (fst (runs s evs1)) evs2)).
Proof.
  revert s. induction evs1 as [|ev evs1 IH]; intros s.
  - simpl. destruct (runs s evs2). reflexivity.
  - simpl. destruct (step1 s ev) as [s1 log1].
    rewrite IH. destruct (runs s1 evs1) as [s2 log2]. simpl.
    rewrite app_assoc. reflexivity.
Qed.

(** The session state after a history of events. *)
Lemma run_state (evs : list (Event.t num)) :
  fst (runs newSession evs)
  = {| Session.SHARES_FOR_ORDER_UPDATES := enteredQuantity (rev evs);
       Session.saleProceeds := cached (rev evs) |}.
Proof.
  induction evs as [|ev evs IH] using rev_ind; [reflexivity|].
  rewrite run_app, rev_app_distr. cbn [fst]. rewrite IH.
  destruct ev; reflexivity.
Qed.

(** Between sell-leg updates, nothing that is emitted or cached depends on
    the quantity entered. *)
Lemma run_without_sell_updates (s s' : Session.t num) (evs : list (Event.t num)) :
  forallb (fun ev => negb (isSellCoinOrders ev)) evs = true ->
  Session.saleProceeds s = Session.saleProceeds s' ->
  snd (runs s evs) = snd (runs s' evs)
  /\ Session.saleProceeds (fst (runs s evs)) = Session.saleProceeds (fst (runs s' evs)).
Proof.
  revert s s'. induction evs as [|ev evs IH]; intros s s' Hevs Hs; [auto|].
  simpl in Hevs. apply andb_true_iff in Hevs. destruct Hevs as [Hev Hevs].
  destruct ev as [o | o | q]; [discriminate Hev | |].
  - simpl. specialize (IH s s' Hevs Hs).
    destruct (runs s evs) as [s2 log2]. destruct (runs s' evs) as [s2' log2'].
    simpl in *. destruct IH as [-> ->]. rewrite Hs. auto.
  - simpl. specialize (IH (sharesUpdated s q) (sharesUpdated s' q) Hevs Hs).
    destruct (runs (sharesUpdated s q) evs) as [s2 log2].
    destruct (runs (sharesUpdated s' q) evs) as [s2' log2'].
    simpl in *. exact IH.
Qed.

Lemma enteredQuantity_skip (past older : list (Event.t num)) :
  forallb isBuyCoinOrders past = true ->
  enteredQuantity (past ++ older) = enteredQuantity older.
Proof.
  induction past as [|ev past IH]; [reflexivity|].
  simpl. destruct ev; simpl; try discriminate. exact IH.
Qed.

(** C8. After any history of a live session, a buy-market update computes
    the buy leg from the [saleTotal] cached by the most recent sell-leg
    update (0 before the first one) and leaves the session state as it is:
    the sell leg is not run again.  A change of the entered quantity emits
    nothing and changes nothing that is emitted or cached until the next
    sell-market update, which is the first computation to use it. *)
Theorem live_session_hand_off :
  (forall evs o,
     let s := fst (runs newSession evs) in
     Session.saleProceeds s = cached (rev evs)
     /\ onBuy s o = (s, buyLeg calculateBuyData buyCoin (cached (rev evs)) o))
  /\ (forall s q, step1 s (Event.SharesUpdated q)
                  = ({| Session.SHARES_FOR_ORDER_UPDATES := q;
                        Session.saleProceeds := Session.saleProceeds s |}, []))
  /\ (forall pre q post,
        forallb (fun ev => negb (isSellCoinOrders ev)) post = true ->
        snd (runs newSession (pre ++ Event.SharesUpdated q :: post))
        = snd (runs newSession (pre ++ post))
        /\ Session.saleProceeds (fst (runs newSession (pre ++ Event.SharesUpdated q :: post)))
           = Session.saleProceeds (fst (runs newSession (pre ++ post))))
  /\ (forall pre q post o,
        forallb isBuyCoinOrders post = true ->
        Session.saleProceeds
          (fst (runs newSession
                  (pre ++ Event.SharesUpdated q :: post ++ [Event.SellCoinOrders o])))
        = SellData.saleTotal (calculateSellData (OrderBook.bids o) q)).
Proof.
  split; [|split; [|split]].
  - intros evs o s. subst s. rewrite onBuyCoinOrders_buyLeg, run_state.
    split; reflexivity.
  - reflexivity.
  - intros pre q post Hpost.
    rewrite !run_app. cbn [fst snd].
    change (runs (fst (runs newSession pre)) (Event.SharesUpdated q :: post))
      with (let (s2, log2) := runs (sharesUpdated (fst (runs newSession pre)) q) post in
            (s2, [] ++ log2)).
    destruct (run_without_sell_updates (sharesUpdated (fst (runs newSession pre)) q)
                (fst (runs newSession pre)) post Hpost eq_refl) as [Hlog Hst].
    destruct (runs (sharesUpdated (fst (runs newSession pre)) q) post) as [s2 log2].
    simpl in *. rewrite Hlog, Hst. auto.
  - intros pre q post o Hpost.
    replace (pre ++ Event.SharesUpdated q :: post ++ [Event.SellCoinOrders o])
      with ((pre ++ Event.SharesUpdated q :: post) ++ [Event.SellCoinOrders o])
      by (rewrite <- app_assoc; reflexivity).
    rewrite run_state, rev_app_distr. cbn [rev app cachedSaleTotal Session.saleProceeds].
    rewrite rev_app_distr. cbn [rev app]. rewrite <- app_assoc. cbn [app].
    rewrite enteredQuantity_skip; [reflexivity|].
    apply forallb_forall. intros ev Hin. apply in_rev in Hin.
    rewrite forallb_forall in Hpost. auto.
Qed.

End LiveSession.

Lemma handlers_top_of_book_witness :
  let o := Sample.book [(10, 20)]%Z [(11, 5)]%Z in
  let empty := Sample.book [] [(11, 5)]%Z in
  (exists sellCoinInfo adjustedBuyInfo,
     snd (onSellCoinOrders sampleSellData "XRPETH" newSession o)
     = Resolved (Broadcast.updateSellCoinInfo sellCoinInfo)
     /\ SellCoinInfo.bid sellCoinInfo = 10
     /\ SellCoinInfo.ask sellCoinInfo = 11
     /\ snd (onBuyCoinOrders sampleBuyData Sample.liveBuyCoin newSession o)
        = Resolved (Broadcast.updateBuyCoinInfo adjustedBuyInfo)
     /\ Adjusted.bid adjustedBuyInfo = Some 10
     /\ Adjusted.ask adjustedBuyInfo = Some 11)
  /\ snd (onSellCoinOrders sampleSellData "XRPETH" newSession empty)
     = Rejected (TypeError "Cannot read properties of undefined")
  /\ snd (onBuyCoinOrders sampleBuyData Sample.liveBuyCoin newSession empty)
     = Rejected (TypeError "Cannot read properties of undefined").
Proof.
  intros o empty. split.
  - destruct (proj1 (handlers_top_of_book sampleSellData sampleBuyData "XRPETH"
                       Sample.liveBuyCoin newSession o))
      as (bid & ask & sellCoinInfo & adjustedBuyInfo
          & Eb & Ea & Es & Esb & Esa & Ebuy & Ebb & Eba);
      [discriminate | discriminate |].
    inversion Eb; subst bid. inversion Ea; subst ask.
    exists sellCoinInfo, adjustedBuyInfo. repeat split; assumption.
  - apply (proj2 (handlers_top_of_book sampleSellData sampleBuyData "XRPETH"
                    Sample.liveBuyCoin newSession empty)).
    left. reflexivity.
Defined.

(** A session in which 8 is entered, the sell market updates, 100 is
    entered and then the buy market updates: the buy leg spends the 80 that
    selling 8 yields, and entering 100 has emitted and cached nothing. *)
Lemma live_session_hand_off_witness :
  let xrpeth := Sample.book [(10, 20)]%Z [(11, 5)]%Z in
  let adaeth := Sample.book [(4, 100)]%Z [(5, 1000)]%Z in
  let pre := [Event.SharesUpdated 8; Event.SellCoinOrders xrpeth] in
  let post := [Event.BuyCoinOrders adaeth] in
  Session.saleProceeds (fst (Sample.run newSession pre)) = 80
  /\ snd (Sample.run newSession (pre ++ Event.SharesUpdated 100 :: post))
     = snd (Sample.run newSession (pre ++ post))
  /\ Session.saleProceeds
       (fst (Sample.run newSession (pre ++ Event.SharesUpdated 100 :: post))) = 80
  /\ Session.saleProceeds
       (fst (Sample.run newSession
               (pre ++ Event.SharesUpdated 100 :: post ++ [Event.SellCoinOrders xrpeth])))
     = 200.
Proof.
  intros xrpeth adaeth pre post. unfold Sample.run.
  destruct (@live_session_hand_off Q _ sampleSellData sampleBuyData
              "XRPETH" Sample.liveBuyCoin) as (Hbuy & _ & Hpast & Hnext).
  split; [exact (proj1 (Hbuy pre adaeth))|].
  destruct (Hpast pre 100 post eq_refl) as [Hlog Hcache].
  split; [exact Hlog|].
  split; [rewrite Hcache; reflexivity|].
  exact (Hnext pre 100 post xrpeth eq_refl).
Defined.

(* ===================================================================== *)
(** * More on [adjustBuyCoin]                                             *)
(* ===================================================================== *)

Module AdjustFacts.

Import Exact.



End AdjustFacts.



(** ** Doubles: undefined quantities and the sign of the step *)

Module Binary64More.

Import Binary64.
Local Open Scope js_scope.

Lemma NaN_div (y : t) : NaN / y = NaN.
Proof. destruct y; reflexivity. Qed.

Lemma div_NaN (x : t) : x / NaN = NaN.
Proof. destruct x; reflexivity. Qed.

(** Dividing by a zero gives an infinity or NaN, never a finite number. *)
Lemma div_zero (x : t) (s : bool) :
  x / S754_zero s = NaN \/ exists s', x / S754_zero s = S754_infinity s'.
Proof. destruct x; cbn; eauto. Qed.

Lemma NaN_rem (y : t) : NaN %% y = NaN.
Proof. reflexivity. Qed.

Lemma infinity_rem (s : bool) (y : t) : S754_infinity s %% y = NaN.
Proof. destruct y; reflexivity. Qed.

Lemma rem_NaN (x : t) : x %% NaN = NaN.
Proof. destruct x; reflexivity. Qed.

(** [%] does not look at the sign of the divisor. *)
Lemma rem_opp (x y : t) : x %% SFopp y = x %% y.
Proof. destruct x, y; reflexivity. Qed.

End Binary64More.

(** X3. On doubles, when the average buy price is a zero or NaN, or the
    amount or the step is NaN, the buyable quantity is not a finite number
    and [adjustBuyCoin] makes [sharesBuyable], [amountBuyable] and
    [leftOver] all NaN. *)
Theorem adjustBuyCoin_undefined_quantity (b : BuyCoin.t Binary64.t) :
  (exists s, BuyCoin.averageBuyPrice b = S754_zero s)
  \/ BuyCoin.averageBuyPrice b = Binary64.NaN
  \/ BuyCoin.amountBuyable b = Binary64.NaN
  \/ BuyCoin.minStep b = Binary64.NaN ->
  Adjusted.sharesBuyable (adjustBuyCoin b) = Binary64.NaN
  /\ Adjusted.amountBuyable (adjustBuyCoin b) = Binary64.NaN
  /\ Adjusted.leftOver (adjustBuyCoin b) = Binary64.NaN.
Proof.
  intros Hcase.
  destruct (adjustBuyCoin_fields b) as (ES & EA & EL).
  cbv zeta in ES, EA, EL. rewrite ES, EA, EL. clear ES EA EL.
  assert (Hrem : rem (div (BuyCoin.amountBuyable b) (BuyCoin.averageBuyPrice b))
                     (BuyCoin.minStep b) = Binary64.NaN).
  { destruct Hcase as [[s Hp] | [Hp | [Ha | Hm]]].
    - rewrite Hp.
      destruct (Binary64More.div_zero (BuyCoin.amountBuyable b) s) as [-> | [s' ->]].
      + apply Binary64More.NaN_rem.
      + apply Binary64More.infinity_rem.
    - rewrite Hp, Binary64More.div_NaN. apply Binary64More.NaN_rem.
    - rewrite Ha, Binary64More.NaN_div. apply Binary64More.NaN_rem.
    - rewrite Hm. apply Binary64More.rem_NaN. }
  rewrite Hrem, Binary64Facts.NaN_mul, !Binary64Facts.sub_NaN.
  repeat split.
Qed.

(** Nothing was spent and nothing bought, so the average price is [0/0]. *)
Lemma adjustBuyCoin_undefined_quantity_witness :
  let b := BuyCoin.mk "ADAETH" (int 0 : Binary64.t) None
             (div (int 0) (int 0)) (lit 1 100) None None in
  BuyCoin.averageBuyPrice b = Binary64.NaN
  /\ Adjusted.sharesBuyable (adjustBuyCoin b) = Binary64.NaN
  /\ Adjusted.amountBuyable (adjustBuyCoin b) = Binary64.NaN
  /\ Adjusted.leftOver (adjustBuyCoin b) = Binary64.NaN.
Proof.
  intros b. split; [reflexivity|].
  apply (@adjustBuyCoin_undefined_quantity b). right. left. reflexivity.
Defined.

(** X4. On doubles, [adjustBuyCoin] does not look at the sign of [minStep]:
    a buy coin with step [-S] is adjusted to the same [sharesBuyable],
    [amountBuyable] and [leftOver] as with step [S]. *)
Theorem adjustBuyCoin_step_sign (b b' : BuyCoin.t Binary64.t) :
  BuyCoin.amountBuyable b' = BuyCoin.amountBuyable b ->
  BuyCoin.averageBuyPrice b' = BuyCoin.averageBuyPrice b ->
  BuyCoin.minStep b' = SFopp (BuyCoin.minStep b) ->
  Adjusted.sharesBuyable (adjustBuyCoin b') = Adjusted.sharesBuyable (adjustBuyCoin b)
  /\ Adjusted.amountBuyable (adjustBuyCoin b') = Adjusted.amountBuyable (adjustBuyCoin b)
  /\ Adjusted.leftOver (adjustBuyCoin b') = Adjusted.leftOver (adjustBuyCoin b).
Proof.
  intros Ha Hp Hm.
  destruct (adjustBuyCoin_fields b) as (ES & EA & EL).
  destruct (adjustBuyCoin_fields b') as (ES' & EA' & EL').
  cbv zeta in *.
  rewrite ES, EA, EL, ES', EA', EL', Ha, Hp, Hm, Binary64More.rem_opp.
  repeat split.
Qed.

Lemma adjustBuyCoin_step_sign_witness :
  let b := BuyCoin.mk "ADAETH" (int 80 : Binary64.t) None (int 5) (int 3) None None in
  let b' := BuyCoin.mk "ADAETH" (int 80 : Binary64.t) None (int 5) (int (-3)) None None in
  Adjusted.sharesBuyable (adjustBuyCoin b') = int 15
  /\ Adjusted.amountBuyable (adjustBuyCoin b') = int 75
  /\ Adjusted.leftOver (adjustBuyCoin b') = int 5.
Proof.
  intros b b'.
  destruct (@adjustBuyCoin_step_sign b b') as (Hs & Ha & Hl);
    [reflexivity | reflexivity | reflexivity |].
  rewrite Hs, Ha, Hl. vm_compute. repeat split.
Defined.

(* ===================================================================== *)
(** * More on [numberToFixed]                                             *)
(* ===================================================================== *)

Module FixedFacts.

Lemma pow_ten_pos (p : nat) : 0 < pow (int 10 : Q) p.
Proof.
  induction p as [|p IH]; [reflexivity|].
  change (0 < pow (int 10 : Q) p * 10). lra.
Qed.

Lemma numberToFixed_unfold (x : Q) (p : nat) :
  numberToFixed x p None
  = inject_Z (Qfloor (x * pow (int 10) p + (1 # 2))) / pow (int 10) p.
Proof. reflexivity. Qed.

End FixedFacts.

(** X6. [numberToFixed] keeps the order of the numbers it rounds. *)
Theorem numberToFixed_monotone (x y : Q) (p : nat) :
  x <= y -> numberToFixed x p None <= numberToFixed y p None.
Proof.
  intros Hxy. rewrite !FixedFacts.numberToFixed_unfold.
  pose proof (FixedFacts.pow_ten_pos p) as HP.
  set (P := pow (int 10 : Q) p) in *.
  apply Qmult_le_r with (z := P); [exact HP|].
  assert (E : forall n, inject_Z n / P * P == inject_Z n) by (intros; field; lra).
  rewrite !E. rewrite <- Zle_Qle.
  apply Qfloor_resp_le.
  assert (Hm : x * P <= y * P) by (apply Qmult_le_compat_r; lra).
  lra.
Qed.

Lemma numberToFixed_monotone_witness :
  numberToFixed (12344 # 10000) 2 None <= numberToFixed (12345 # 10000) 2 None
  /\ numberToFixed (12344 # 10000) 2 None == 123 # 100
  /\ numberToFixed (12345 # 10000) 2 None == 123 # 100
  /\ numberToFixed (1235 # 1000) 2 None == 124 # 100.
Proof.
  split; [apply numberToFixed_monotone; vm_compute; discriminate|].
  repeat split.
Defined.

(* ===================================================================== *)
(** * More on [getBestRoute]                                              *)
(* ===================================================================== *)

Lemma Forall2_In_r {A B} (P : A -> B -> Prop) (xs : list A) (ys : list B) (y : B) :
  Forall2 P xs ys -> In y ys -> exists x, In x xs /\ P x y.
Proof.
  induction 1 as [|x y' xs ys Hxy _ IH]; simpl; [tauto|].
  intros [-> | Hin]; [exists x; auto|].
  destruct (IH Hin) as (x' & Hx' & HP). exists x'. auto.
Qed.

Lemma nth_error_last_Some {A} (xs : list A) :
  xs <> [] -> exists x, nth_error xs (List.length xs - 1) = Some x.
Proof.
  intros Hne.
  destruct (nth_error xs (List.length xs - 1)) as [x|] eqn:E; [eauto|].
  apply nth_error_None in E. destruct xs; [congruence | simpl in E; lia].
Qed.

Section RouteEvaluationMore.

Context {num : Type} `{Number num}.
Local Open Scope js_scope.

Variable getOrdersBinance : string -> outcome (OrderBook.t num).
Variable getMinStepsBinance : string -> string -> outcome (Steps.t num).
Variable calculateSellData : list (Level num) -> num -> SellData.t num.
Variable calculateBuyData : list (Level num) -> num -> BuyData.t num.

Variables sellCoinName buyCoinName : string.
Variable sharesEntered : num.

Local Abbreviation candidate :=
  (possibleRoute getOrdersBinance calculateSellData calculateBuyData
     sellCoinName buyCoinName sharesEntered).
Local Abbreviation candidates bridgeCoins :=
  (possibleRoutes getOrdersBinance calculateSellData calculateBuyData
     sellCoinName buyCoinName bridgeCoins sharesEntered).
Local Abbreviation evaluate bridgeCoins :=
  (getBestRoute getOrdersBinance getMinStepsBinance calculateSellData calculateBuyData
     sellCoinName buyCoinName bridgeCoins sharesEntered).

Lemma possibleRoute_markets (baseCoin : string) (route : Route.t num) :
  candidate baseCoin = Resolved route ->
  SellCoin.market (Route.sellCoin route) = (sellCoinName ++ baseCoin)%string
  /\ BuyLeg.market (Route.buyCoin route) = (buyCoinName ++ baseCoin)%string
  /\ Route.baseCoin route = BaseCoin.mk baseCoin (baseCoin ++ "USDT").
Proof.
  unfold possibleRoute. intros E.
  apply bind_resolved in E. destruct E as ([orders0 orders1] & _ & E).
  inversion E; subst; clear E. repeat split.
Qed.

Lemma candidates_In (bridgeCoins : list string) (routes : list (Route.t num))
    (route : Route.t num) :
  candidates bridgeCoins = Resolved routes -> In route routes ->
  exists baseCoin, In baseCoin bridgeCoins /\ candidate baseCoin = Resolved route.
Proof.
  intros E Hin. apply Promise_map_resolved in E.
  exact (@Forall2_In_r _ _ (fun x y => candidate x = Resolved y) _ _ _ E Hin).
Qed.

(** X7. The best route returned goes through one of the requested bridge
    coins [b]: it sells on [sellCoinName ++ b], buys on [buyCoinName ++ b],
    its base market is [b ++ "USDT"], and the worst route named in its
    summary is a requested bridge coin too. *)
Theorem getBestRoute_markets (bridgeCoins : list string) (best : BestRoute.t num) :
  evaluate bridgeCoins = Resolved best ->
  (exists b, In b bridgeCoins
     /\ BestRoute.baseCoin best = BaseCoin.mk b (b ++ "USDT")
     /\ SellCoin.market (BestRoute.sellCoin best) = (sellCoinName ++ b)%string
     /\ Adjusted.market (BestRoute.buyCoin best) = (buyCoinName ++ b)%string)
  /\ In (WorstRoute.baseCoin (BestRoute.worstRoute best)) bridgeCoins.
Proof.
  intros E. apply getBestRoute_resolved in E.
  destruct E as (routes & r0 & rN & stepsObj & Eroutes & E0 & EN & Es & ->).
  assert (H0 : In r0 routes).
  { apply (Permutation_in _ (Permutation_sym (sortRoutes_perm routes))).
    apply nth_error_In with (n := 0%nat). exact E0. }
  assert (HN : In rN routes).
  { apply (Permutation_in _ (Permutation_sym (sortRoutes_perm routes))).
    eapply nth_error_In. exact EN. }
  destruct (@candidates_In _ _ _ Eroutes H0) as (b & Hb & Eb).
  destruct (@candidates_In _ _ _ Eroutes HN) as (w & Hw & Ew).
  apply possibleRoute_markets in Eb. destruct Eb as (Esell & Ebuy & Ebase).
  apply possibleRoute_markets in Ew. destruct Ew as (_ & _ & Ewbase).
  split.
  - exists b. cbn. repeat split; assumption.
  - cbn. rewrite Ewbase. exact Hw.
Qed.

(** X8. With a single bridge coin the best route is its own worst route:
    the summary carries the base coin and the two average prices of the
    route returned. *)
Theorem getBestRoute_single_bridge (baseCoin : string) (best : BestRoute.t num) :
  evaluate [baseCoin] = Resolved best ->
  WorstRoute.baseCoin (BestRoute.worstRoute best) = baseCoin
  /\ BaseCoin.name (BestRoute.baseCoin best) = baseCoin
  /\ WorstRoute.averageSellPrice (BestRoute.worstRoute best)
     = SellCoin.averageSellPrice (BestRoute.sellCoin best)
  /\ WorstRoute.averageBuyPrice (BestRoute.worstRoute best)
     = Adjusted.averageBuyPrice (BestRoute.buyCoin best).
Proof.
  intros E. apply getBestRoute_resolved in E.
  destruct E as (routes & r0 & rN & stepsObj & Eroutes & E0 & EN & Es & ->).
  pose proof (Promise_map_length _ _ Eroutes) as Hlen.
  rewrite (Permutation_length (sortRoutes_perm routes)) in Hlen.
  simpl in Hlen. rewrite Hlen in EN. change (1 - 1)%nat with 0%nat in EN.
  assert (rN = r0) by congruence. subst rN.
  assert (H0 : In r0 routes).
  { apply (Permutation_in _ (Permutation_sym (sortRoutes_perm routes))).
    apply nth_error_In with (n := 0%nat). exact E0. }
  destruct (@candidates_In _ _ _ Eroutes H0) as (b & Hb & Eb).
  destruct Hb as [<- | []].
  apply possibleRoute_markets in Eb. destruct Eb as (_ & _ & Ebase).
  cbn. rewrite Ebase. repeat split.
Qed.

(** X9. Once every order book has arrived, the evaluation stands or falls
    with the min-step lookup for the markets of the first-ranked route: it
    resolves when that lookup resolves and rejects when it rejects. *)
Theorem getBestRoute_min_steps (bridgeCoins : list string)
    (routes : list (Route.t num)) (first : Route.t num) :
  candidates bridgeCoins = Resolved routes ->
  nth_error (sortRoutes routes) 0 = Some first ->
  let lookup := getMinStepsBinance (SellCoin.market (Route.sellCoin first))
                  (BuyLeg.market (Route.buyCoin first)) in
  (resolves lookup -> resolves (evaluate bridgeCoins))
  /\ (forall e, lookup = Rejected e -> evaluate bridgeCoins = Rejected e).
Proof.
  intros Eroutes E0 lookup. unfold getBestRoute.
  rewrite Eroutes. cbn [bind]. rewrite E0.
  unfold addBinanceMinSteps. cbn [defined bind]. fold lookup.
  split.
  - intros [stepsObj ->]. cbn [bind].
    destruct (@nth_error_last_Some _ (sortRoutes routes)) as [rN ->].
    + intros Hnil. rewrite Hnil in E0. discriminate.
    + eexists. reflexivity.
  - intros e ->. reflexivity.
Qed.

End RouteEvaluationMore.

Lemma getBestRoute_markets_witness :
  exists best,
    Sample.getBestRoute "XRP" "ADA" ["BTC"; "ETH"; "USDT"]%string 8 = Resolved best
    /\ SellCoin.market (BestRoute.sellCoin best) = "XRPETH"%string
    /\ Adjusted.market (BestRoute.buyCoin best) = "ADAETH"%string
    /\ BestRoute.baseCoin best = BaseCoin.mk "ETH" "ETHUSDT"
    /\ In (WorstRoute.baseCoin (BestRoute.worstRoute best)) ["BTC"; "ETH"; "USDT"]%string.
Proof.
  destruct (Sample.getBestRoute "XRP" "ADA" ["BTC"; "ETH"; "USDT"]%string 8)
    as [best|e] eqn:E; [|vm_compute in E; discriminate E].
  destruct (getBestRoute_markets _ _ _ _ _ _ _ _ E) as [_ Hworst].
  exists best. split; [reflexivity|].
  vm_compute in E. inversion E; subst best; clear E.
  repeat split. exact Hworst.
Defined.

Lemma getBestRoute_single_bridge_witness :
  exists best,
    Sample.getBestRoute "XRP" "ADA" ["BTC"]%string 8 = Resolved best
    /\ WorstRoute.baseCoin (BestRoute.worstRoute best) = "BTC"%string
    /\ WorstRoute.averageSellPrice (BestRoute.worstRoute best)
       = SellCoin.averageSellPrice (BestRoute.sellCoin best).
Proof.
  destruct (Sample.getBestRoute "XRP" "ADA" ["BTC"]%string 8)
    as [best|e] eqn:E; [|vm_compute in E; discriminate E].
  destruct (getBestRoute_single_bridge _ _ _ _ _ _ _ _ E) as (Hb & _ & Hs & _).
  exists best. repeat split; assumption.
Defined.

Lemma getBestRoute_min_steps_witness :
  resolves (Sample.getBestRoute "XRP" "ADA" ["BTC"; "ETH"]%string 8)
  /\ getBestRoute Sample.getOrdersBinance
       (fun _ _ => Rejected (ExchangeError "Timestamp outside of recvWindow."))
       sampleSellData sampleBuyData "XRP" "ADA" ["BTC"; "ETH"]%string 8
     = Rejected (ExchangeError "Timestamp outside of recvWindow.").
Proof.
  destruct (Sample.possibleRoutes "XRP" "ADA" ["BTC"; "ETH"]%string 8)
    as [routes|e] eqn:Er; [|vm_compute in Er; discriminate Er].
  destruct (nth_error (sortRoutes routes) 0) as [first|] eqn:E0;
    [|vm_compute in Er; inversion Er; subst routes; vm_compute in E0; discriminate E0].
  split.
  - apply (proj1 (@getBestRoute_min_steps Q _ Sample.getOrdersBinance
                    Sample.getMinStepsBinance sampleSellData sampleBuyData
                    "XRP" "ADA" 8 ["BTC"; "ETH"]%string routes first Er E0)).
    eexists. reflexivity.
  - apply (proj2 (@getBestRoute_min_steps Q _ Sample.getOrdersBinance
                    (fun _ _ => Rejected (ExchangeError "Timestamp outside of recvWindow."))
                    sampleSellData sampleBuyData
                    "XRP" "ADA" 8 ["BTC"; "ETH"]%string routes first Er E0)).
    reflexivity.
Defined.

(* ===================================================================== *)
(** * Failures of the route evaluation                                    *)
(* ===================================================================== *)

Lemma bind_rejected {A B} (c : outcome A) (k : A -> outcome B) (e : error) :
  bind c k = Rejected e ->
  c = Rejected e \/ exists a, c = Resolved a /\ k a = Rejected e.
Proof. destruct c as [a|e']; simpl; intros E; [right; eauto | left; congruence]. Qed.

Lemma Promise_all2_rejected {A B} (p : outcome A) (q : outcome B) (e : error) :
  Promise_all2 p q = Rejected e -> p = Rejected e \/ q = Rejected e.
Proof.
  destruct p as [a|ep]; simpl; [|intros E; left; congruence].
  destruct q as [b|eq]; simpl; [discriminate | intros E; right; congruence].
Qed.

Lemma Promise_map_rejected {A B} (f : A -> outcome B) (xs : list A) (e : error) :
  Promise_map f xs = Rejected e -> exists x, In x xs /\ f x = Rejected e.
Proof.
  induction xs as [|x xs IH]; simpl; [discriminate|].
  intros E. apply bind_rejected in E. destruct E as [E | (y & _ & E)].
  - exists x. auto.
  - apply bind_rejected in E. destruct E as [E | (ys & _ & E)]; [|discriminate E].
    destruct (IH E) as (x' & Hin & Hx'). exists x'. auto.
Qed.

Section RouteEvaluationFailure.

Context {num : Type} `{Number num}.
Local Open Scope js_scope.

Variable getOrdersBinance : string -> outcome (OrderBook.t num).
Variable getMinStepsBinance : string -> string -> outcome (Steps.t num).
Variable calculateSellData : list (Level num) -> num -> SellData.t num.
Variable calculateBuyData : list (Level num) -> num -> BuyData.t num.

Variables sellCoinName buyCoinName : string.
Variable sharesEntered : num.

Local Abbreviation candidate :=
  (possibleRoute getOrdersBinance calculateSellData calculateBuyData
     sellCoinName buyCoinName sharesEntered).
Local Abbreviation candidates bridgeCoins :=
  (possibleRoutes getOrdersBinance calculateSellData calculateBuyData
     sellCoinName buyCoinName bridgeCoins sharesEntered).
Local Abbreviation evaluate bridgeCoins :=
  (getBestRoute getOrdersBinance getMinStepsBinance calculateSellData calculateBuyData
     sellCoinName buyCoinName bridgeCoins sharesEntered).
Local Abbreviation arrived := (fetched getOrdersBinance sellCoinName buyCoinName).
Local Abbreviation failing := (fetchFails getOrdersBinance sellCoinName buyCoinName).

Lemma possibleRoute_rejected (baseCoin : string) (e : error) :
  candidate baseCoin = Rejected e ->
  getOrdersBinance (sellCoinName ++ baseCoin) = Rejected e
  \/ getOrdersBinance (buyCoinName ++ baseCoin) = Rejected e.
Proof.
  unfold possibleRoute. intros E.
  apply bind_rejected in E. destruct E as [E | ([o0 o1] & _ & E)]; [|discriminate E].
  apply Promise_all2_rejected, E.
Qed.

(** C2, as the code behaves.  A candidate whose order-book fetch fails is
    not set aside: the whole evaluation rejects.  An empty list of bridge
    coins rejects with the [TypeError] of destructuring [undefined].  There
    is no error of the evaluation's own: whatever it rejects with is that
    [TypeError], or the error of an order-book fetch of one of the bridge
    coins, or the error of the min-step lookup for the markets of one of
    them.  The evaluation resolves only over a non-empty list of bridge
    coins all of whose order books arrived, and it then ranks one route per
    bridge coin. *)
Theorem getBestRoute_fetch_failure_fatal (bridgeCoins : list string) :
  (forall baseCoin, In baseCoin bridgeCoins -> failing baseCoin ->
     rejects (evaluate bridgeCoins))
  /\ (bridgeCoins = [] ->
      evaluate bridgeCoins = Rejected (TypeError "Cannot read properties of undefined"))
  /\ (forall e, evaluate bridgeCoins = Rejected e ->
        (bridgeCoins = [] /\ e = TypeError "Cannot read properties of undefined")
        \/ (exists baseCoin, In baseCoin bridgeCoins
              /\ (getOrdersBinance (sellCoinName ++ baseCoin) = Rejected e
                  \/ getOrdersBinance (buyCoinName ++ baseCoin) = Rejected e))
        \/ (exists baseCoin, In baseCoin bridgeCoins
              /\ getMinStepsBinance (sellCoinName ++ baseCoin) (buyCoinName ++ baseCoin)
                 = Rejected e))
  /\ (forall best, evaluate bridgeCoins = Resolved best ->
        bridgeCoins <> []
        /\ (forall baseCoin, In baseCoin bridgeCoins -> arrived baseCoin)
        /\ exists routes, candidates bridgeCoins = Resolved routes
             /\ List.length (sortRoutes routes) = List.length bridgeCoins).
Proof.
  split; [|split; [|split]].
  - intros baseCoin Hin Hf.
    unfold getBestRoute.
    apply bind_rejects.
    apply Promise_map_rejects with (x := baseCoin); [exact Hin|].
    apply possibleRoute_fetchFails, Hf.
  - intros ->. reflexivity.
  - intros e E. unfold getBestRoute in E.
    apply bind_rejected in E. destruct E as [E | (routes & Eroutes & E)].
    + right. left.
      apply Promise_map_rejected in E. destruct E as (baseCoin & Hin & E).
      exists baseCoin. split; [exact Hin|]. apply possibleRoute_rejected, E.
    + pose proof (Promise_map_length _ _ Eroutes) as Hlen.
      rewrite (Permutation_length (sortRoutes_perm routes)) in Hlen.
      destruct (nth_error (sortRoutes routes) 0) as [r0|] eqn:E0.
      * right. right.
        assert (H0 : In r0 routes).
        { apply (Permutation_in _ (Permutation_sym (sortRoutes_perm routes))).
          apply nth_error_In with (n := 0%nat). exact E0. }
        edestruct candidates_In as (baseCoin & Hin & Eb); [exact Eroutes | exact H0 |].
        apply possibleRoute_markets in Eb. destruct Eb as (Esell & Ebuy & _).
        exists baseCoin. split; [exact Hin|].
        unfold addBinanceMinSteps in E. cbn [defined bind] in E.
        rewrite Esell, Ebuy in E.
        apply bind_rejected in E. destruct E as [E | ([[sellCoin buyCoin] rest] & _ & E)].
        -- apply bind_rejected in E. destruct E as [E | (stepsObj & _ & E)];
             [exact E | discriminate E].
        -- exfalso.
           destruct (@nth_error_last_Some _ (sortRoutes routes)) as [rN EN].
           { intros Hnil. rewrite Hnil in E0. discriminate E0. }
           rewrite EN in E. discriminate E.
      * left.
        assert (Hnil : bridgeCoins = []).
        { destruct (sortRoutes routes); [|discriminate E0].
          destruct bridgeCoins; [reflexivity | discriminate Hlen]. }
        split; [exact Hnil|].
        cbn in E. congruence.
  - intros best E.
    assert (Hne : bridgeCoins <> []).
    { intros ->. discriminate E. }
    split; [exact Hne|].
    apply getBestRoute_resolved in E.
    destruct E as (routes & r0 & rN & stepsObj & Eroutes & _).
    split.
    + intros baseCoin Hin.
      destruct (resolves_or_rejects (candidate baseCoin)) as [Hr | Hr].
      * exact (proj1 (@possibleRoute_fetched _ _ getOrdersBinance calculateSellData
                        calculateBuyData sellCoinName buyCoinName sharesEntered baseCoin) Hr).
      * exfalso.
        apply (@resolves_not_rejects _ (candidates bridgeCoins)).
        -- exists routes. exact Eroutes.
        -- apply Promise_map_rejects with (x := baseCoin); assumption.
    + exists routes. split; [exact Eroutes|].
      rewrite <- (Permutation_length (sortRoutes_perm routes)).
      apply (Promise_map_length _ _ Eroutes).
Qed.

End RouteEvaluationFailure.

Lemma getBestRoute_fetch_failure_fatal_witness :
  In "DOGE"%string ["BTC"; "DOGE"; "USDT"]%string
  /\ fetchFails Sample.getOrdersBinance "XRP" "ADA" "DOGE"
  /\ rejects (Sample.getBestRoute "XRP" "ADA" ["BTC"; "DOGE"; "USDT"]%string 8)
  /\ Sample.getBestRoute "XRP" "ADA" [] 8
     = Rejected (TypeError "Cannot read properties of undefined")
  /\ (exists baseCoin,
        In baseCoin ["BTC"; "DOGE"; "USDT"]%string
        /\ (Sample.getOrdersBinance ("XRP" ++ baseCoin)
            = Rejected (ExchangeError "Invalid symbol.")
            \/ Sample.getOrdersBinance ("ADA" ++ baseCoin)
               = Rejected (ExchangeError "Invalid symbol.")))
  /\ fetched Sample.getOrdersBinance "XRP" "ADA" "USDT".
Proof.
  pose proof (@getBestRoute_fetch_failure_fatal Q _ Sample.getOrdersBinance
                Sample.getMinStepsBinance sampleSellData sampleBuyData "XRP" "ADA" 8) as T.
  assert (Hin : In "DOGE"%string ["BTC"; "DOGE"; "USDT"]%string) by (simpl; auto).
  assert (Hf : fetchFails Sample.getOrdersBinance "XRP" "ADA" "DOGE").
  { left. eexists. vm_compute. reflexivity. }
  split; [exact Hin|]. split; [exact Hf|].
  split; [exact (proj1 (T ["BTC"; "DOGE"; "USDT"]%string) "DOGE"%string Hin Hf)|].
  split; [exact (proj1 (proj2 (T [])) eq_refl)|].
  split.
  - destruct (proj1 (proj2 (proj2 (T ["BTC"; "DOGE"; "USDT"]%string)))
                (ExchangeError "Invalid symbol.") eq_refl)
      as [[Hnil _] | [Hfetch | (baseCoin & _ & Hsteps)]].
    + discriminate Hnil.
    + exact Hfetch.
    + discriminate Hsteps.
  - destruct (Sample.getBestRoute "XRP" "ADA" ["BTC"; "ETH"; "USDT"]%string 8)
      as [best|e] eqn:E; [|vm_compute in E; discriminate E].
    destruct (proj2 (proj2 (proj2 (T ["BTC"; "ETH"; "USDT"]%string))) best E)
      as (_ & Hall & _).
    apply Hall. simpl. auto.
Defined.

(* ===================================================================== *)
(** * The best route among the candidates                               *)
(* ===================================================================== *)

Unset Implicit Arguments.

Lemma Promise_map_perm {A B} (f : A -> outcome B) (xs xs' : list A) :
  Permutation xs xs' ->
  forall ys, Promise_map f xs = Resolved ys ->
  exists ys', Promise_map f xs' = Resolved ys' /\ Permutation ys ys'.
Proof.
  induction 1 as [| x xs xs' _ IH | x1 x2 xs | xs1 xs2 xs3 _ IH1 _ IH2]; intros ys E.
  - exists ys. split; [exact E | reflexivity].
  - simpl in E. apply bind_resolved in E. destruct E as (y & Ey & E).
    apply bind_resolved in E. destruct E as (ys0 & Eys & E).
    inversion E; subst ys; clear E.
    destruct (IH ys0 Eys) as (ys' & Eys' & Hp).
    exists (y :: ys'). simpl. rewrite Ey, Eys'. split; [reflexivity | auto].
  - simpl in E. apply bind_resolved in E. destruct E as (y2 & Ey2 & E).
    apply bind_resolved in E. destruct E as (ys1 & E1 & E).
    apply bind_resolved in E1. destruct E1 as (y1 & Ey1 & E1).
    apply bind_resolved in E1. destruct E1 as (ys0 & Eys & E1).
    inversion E1; subst ys1; clear E1. inversion E; subst ys; clear E.
    exists (y1 :: y2 :: ys0). simpl. rewrite Ey1, Ey2, Eys.
    split; [reflexivity | apply perm_swap].
  - destruct (IH1 ys E) as (ys2 & E2 & Hp12).
    destruct (IH2 ys2 E2) as (ys3 & E3 & Hp23).
    exists ys3. split; [exact E3 | etransitivity; eassumption].
Qed.

(** Two sorted arrangements of the same elements agree when no two
    distinct elements can stand either way round. *)
Lemma sorted_unique {A} (R : A -> A -> Prop) (l1 : list A) :
  forall l2,
    StronglySorted R l1 -> StronglySorted R l2 -> Permutation l1 l2 ->
    (forall a b, In a l1 -> In b l1 -> R a b -> R b a -> a = b) ->
    l1 = l2.
Proof.
  induction l1 as [|a t1 IH]; intros l2 S1 S2 Hp Hanti.
  - apply Permutation_nil in Hp. congruence.
  - destruct l2 as [|b t2].
    { apply Permutation_sym, Permutation_nil in Hp. discriminate. }
    inversion S1 as [|? ? S1' F1]; subst. inversion S2 as [|? ? S2' F2]; subst.
    rewrite Forall_forall in F1, F2.
    assert (Hab : a = b).
    { assert (Ha : In a (b :: t2)) by (apply (Permutation_in _ Hp); left; reflexivity).
      assert (Hb : In b (a :: t1)).
      { apply (Permutation_in _ (Permutation_sym Hp)). left. reflexivity. }
      destruct Ha as [Ha | Ha]; [congruence|].
      destruct Hb as [Hb | Hb]; [congruence|].
      apply Hanti; [left; reflexivity | right; exact Hb | apply F1, Hb | apply F2, Ha]. }
    subst b. f_equal.
    apply IH; try assumption.
    + exact (Permutation_cons_inv Hp).
    + intros x y Hx Hy. apply Hanti; right; assumption.
Qed.

Section RankingOnDoubles.

Variable getOrdersBinance : string -> outcome (OrderBook.t Binary64.t).
Variable getMinStepsBinance : string -> string -> outcome (Steps.t Binary64.t).
Variable calculateSellData : list (Level Binary64.t) -> Binary64.t -> SellData.t Binary64.t.
Variable calculateBuyData : list (Level Binary64.t) -> Binary64.t -> BuyData.t Binary64.t.

Variables sellCoinName buyCoinName : string.
Variable sharesEntered : Binary64.t.

Local Abbreviation candidates bridgeCoins :=
  (possibleRoutes getOrdersBinance calculateSellData calculateBuyData
     sellCoinName buyCoinName bridgeCoins sharesEntered).
Local Abbreviation evaluate bridgeCoins :=
  (getBestRoute getOrdersBinance getMinStepsBinance calculateSellData calculateBuyData
     sellCoinName buyCoinName bridgeCoins sharesEntered).

Lemma ranked_refl (a : Route.t Binary64.t) :
  Binary64Ranking.numbers a = true -> Binary64Ranking.ranked a a.
Proof. intros Ha. apply (RankingFacts.ranked_ord a a Ha Ha). split; intros; lia. Qed.

Lemma ranked_antisym_tied (a b : Route.t Binary64.t) :
  Binary64Ranking.numbers a = true -> Binary64Ranking.numbers b = true ->
  Binary64Ranking.ranked a b -> Binary64Ranking.ranked b a ->
  Binary64Ranking.tied a b = true.
Proof.
  intros Ha Hb Hab Hba.
  apply (RankingFacts.ranked_ord a b Ha Hb) in Hab.
  apply (RankingFacts.ranked_ord b a Hb Ha) in Hba.
  apply (RankingFacts.tied_ord a b Ha Hb).
  destruct Hab as [S1 R1]. destruct Hba as [S2 R2].
  assert (E : Binary64.ord (Binary64Ranking.shares a)
              = Binary64.ord (Binary64Ranking.shares b)) by lia.
  specialize (R1 E). specialize (R2 (eq_sym E)). split; lia.
Qed.

(** X10. On doubles, when no key of a candidate is NaN, no candidate beats
    the best route returned: none has more [sharesSellable], and among the
    candidates with as many [sharesSellable] none has a higher [ratio]. *)
Theorem getBestRoute_dominates (bridgeCoins : list string)
    (best : BestRoute.t Binary64.t) :
  evaluate bridgeCoins = Resolved best ->
  exists routes,
    candidates bridgeCoins = Resolved routes
    /\ (forallb Binary64Ranking.numbers routes = true ->
        forall route, In route routes ->
          SFleb (SellCoin.sharesSellable (Route.sellCoin route))
            (SellCoin.sharesSellable (BestRoute.sellCoin best)) = true
          /\ (SFeqb (SellCoin.sharesSellable (BestRoute.sellCoin best))
                (SellCoin.sharesSellable (Route.sellCoin route)) = true ->
              SFleb (Route.ratio route) (BestRoute.ratio best) = true)).
Proof.
  intros E. apply getBestRoute_resolved in E.
  destruct E as (routes & r0 & rN & stepsObj & Eroutes & E0 & EN & Es & ->).
  exists routes. split; [exact Eroutes|].
  intros Hn route Hin. cbn.
  pose proof (RankingFacts.sortRoutes_ranked routes Hn) as Hsorted.
  assert (H0 : In r0 routes).
  { apply (Permutation_in _ (Permutation_sym (sortRoutes_perm routes))).
    apply nth_error_In with (n := 0%nat). exact E0. }
  rewrite forallb_forall in Hn.
  apply (Permutation_in _ (sortRoutes_perm routes)) in Hin.
  assert (Hr : Binary64Ranking.ranked r0 route).
  { destruct (sortRoutes routes) as [|x tl]; [discriminate E0|].
    simpl in E0. inversion E0; subst x.
    inversion Hsorted as [|? ? _ Hall]; subst.
    destruct Hin as [<- | Hin]; [apply ranked_refl, Hn, H0|].
    rewrite Forall_forall in Hall. apply Hall, Hin. }
  exact Hr.
Qed.

(** X11. On doubles, when no key of a candidate is NaN and no two
    different candidates agree on both [sharesSellable] and [ratio],
    listing the bridge coins in another order gives the same best route,
    with the same worst-route summary. *)
Theorem getBestRoute_order_independent (bridgeCoins bridgeCoins' : list string)
    (routes : list (Route.t Binary64.t)) :
  Permutation bridgeCoins bridgeCoins' ->
  candidates bridgeCoins = Resolved routes ->
  forallb Binary64Ranking.numbers routes = true ->
  (forall a b, In a routes -> In b routes -> Binary64Ranking.tied a b = true -> a = b) ->
  evaluate bridgeCoins' = evaluate bridgeCoins.
Proof.
  intros Hp Eroutes Hn Hties.
  destruct (Promise_map_perm _ _ _ Hp _ Eroutes) as (routes' & Eroutes' & Hpr).
  unfold getBestRoute. rewrite Eroutes.
  change (possibleRoutes getOrdersBinance calculateSellData calculateBuyData
            sellCoinName buyCoinName bridgeCoins' sharesEntered)
    with (Promise_map (possibleRoute getOrdersBinance calculateSellData
                         calculateBuyData sellCoinName buyCoinName sharesEntered)
            bridgeCoins').
  rewrite Eroutes'. cbn [bind].
  assert (Hn' : forallb Binary64Ranking.numbers routes' = true).
  { rewrite forallb_forall in Hn. apply forallb_forall. intros r Hr.
    apply Hn. exact (Permutation_in _ (Permutation_sym Hpr) Hr). }
  assert (Hsame : sortRoutes routes' = sortRoutes routes).
  { symmetry.
    apply (sorted_unique Binary64Ranking.ranked).
    - apply RankingFacts.sortRoutes_ranked, Hn.
    - apply RankingFacts.sortRoutes_ranked, Hn'.
    - rewrite <- (sortRoutes_perm routes), <- (sortRoutes_perm routes'). exact Hpr.
    - intros a b Ha Hb Hab Hba.
      apply (Permutation_in _ (Permutation_sym (sortRoutes_perm routes))) in Ha.
      apply (Permutation_in _ (Permutation_sym (sortRoutes_perm routes))) in Hb.
      rewrite forallb_forall in Hn.
      apply Hties; [exact Ha | exact Hb |].
      apply ranked_antisym_tied; auto. }
  rewrite Hsame. reflexivity.
Qed.

End RankingOnDoubles.

(** X24. On doubles, for routes none of whose keys is NaN, the comparator
    handed to [sort] is consistent, as [Array.prototype.sort] requires for
    a defined result: it sends [a] behind [b] exactly when [a] has fewer
    [sharesSellable], or as many and the lower [ratio]; it never sends two
    routes behind each other; "sorts behind" and "does not sort behind"
    are transitive; and it leaves two routes unordered exactly when they
    agree on both keys. *)
Theorem compareRoutes_consistent (a b c : Route.t Binary64.t) :
  Binary64Ranking.numbers a = true ->
  Binary64Ranking.numbers b = true ->
  Binary64Ranking.numbers c = true ->
  (sortsBehind a b = true
   <-> SFltb (Binary64Ranking.shares a) (Binary64Ranking.shares b) = true
       \/ (SFeqb (Binary64Ranking.shares a) (Binary64Ranking.shares b) = true
           /\ SFltb (Route.ratio a) (Route.ratio b) = true))
  /\ (sortsBehind a b = true -> sortsBehind b a = false)
  /\ (sortsBehind a b = true -> sortsBehind b c = true -> sortsBehind a c = true)
  /\ (sortsBehind a b = false -> sortsBehind b c = false -> sortsBehind a c = false)
  /\ (sortsBehind a b = false /\ sortsBehind b a = false
      <-> Binary64Ranking.tied a b = true).
Proof.
  intros Ha Hb Hc.
  pose proof (RankingFacts.sortsBehind_ord a b Ha Hb) as Eab.
  pose proof (RankingFacts.sortsBehind_ord b a Hb Ha) as Eba.
  pose proof (RankingFacts.sortsBehind_ord b c Hb Hc) as Ebc.
  pose proof (RankingFacts.sortsBehind_ord a c Ha Hc) as Eac.
  pose proof (RankingFacts.tied_ord a b Ha Hb) as Et.
  unfold Binary64Ranking.numbers in Ha, Hb.
  apply andb_true_iff in Ha. destruct Ha as [Hsa Hra].
  apply andb_true_iff in Hb. destruct Hb as [Hsb Hrb].
  rewrite (Binary64Order.ltb_ord _ _ Hsa Hsb), (Binary64Order.eqb_ord _ _ Hsa Hsb),
    (Binary64Order.ltb_ord _ _ Hra Hrb).
  rewrite Et, Eab, Eba, Ebc, Eac. clear Et Eab Eba Ebc Eac.
  set (sa := Binary64.ord (Binary64Ranking.shares a)).
  set (sb := Binary64.ord (Binary64Ranking.shares b)).
  set (sc := Binary64.ord (Binary64Ranking.shares c)).
  set (ra := Binary64.ord (Route.ratio a)).
  set (rb := Binary64.ord (Route.ratio b)).
  set (rc := Binary64.ord (Route.ratio c)).
  clearbody sa sb sc ra rb rc.
  destruct (Z.eqb_spec sa sb); destruct (Z.eqb_spec sb sa); destruct (Z.eqb_spec sb sc);
    destruct (Z.eqb_spec sa sc); try lia;
    rewrite ?Z.ltb_lt, ?Z.ltb_ge; repeat split; intros; try lia;
    try (destruct H as [? | [? ?]]; lia).
Qed.

Lemma getBestRoute_dominates_witness :
  exists best routes,
    Doubles.getBestRoute "XRP" "ADA" ["BTC"; "ETH"; "USDT"]%string (int 8) = Resolved best
    /\ Doubles.possibleRoutes "XRP" "ADA" ["BTC"; "ETH"; "USDT"]%string (int 8)
       = Resolved routes
    /\ Forall (fun route =>
                 SFleb (SellCoin.sharesSellable (Route.sellCoin route))
                   (SellCoin.sharesSellable (BestRoute.sellCoin best)) = true) routes.
Proof.
  destruct (Doubles.getBestRoute "XRP" "ADA" ["BTC"; "ETH"; "USDT"]%string (int 8))
    as [best|e] eqn:E; [|vm_compute in E; discriminate E].
  destruct (getBestRoute_dominates Doubles.getOrdersBinance Doubles.getMinStepsBinance
              sampleSellData sampleBuyData "XRP" "ADA" (int 8)
              ["BTC"; "ETH"; "USDT"]%string best E)
    as (routes & Eroutes & Hall).
  exists best, routes. split; [reflexivity|]. split; [exact Eroutes|].
  assert (Hn : forallb Binary64Ranking.numbers routes = true).
  { vm_compute in Eroutes. inversion Eroutes; subst routes. vm_compute. reflexivity. }
  apply Forall_forall. intros route Hin. exact (proj1 (Hall Hn route Hin)).
Defined.

Lemma getBestRoute_order_independent_witness :
  Doubles.getBestRoute "XRP" "ADA" ["USDT"; "BTC"; "ETH"]%string (int 8)
  = Doubles.getBestRoute "XRP" "ADA" ["BTC"; "ETH"; "USDT"]%string (int 8).
Proof.
  destruct (Doubles.possibleRoutes "XRP" "ADA" ["BTC"; "ETH"; "USDT"]%string (int 8))
    as [routes|e] eqn:Er; [|vm_compute in Er; discriminate Er].
  apply (getBestRoute_order_independent Doubles.getOrdersBinance Doubles.getMinStepsBinance
           sampleSellData sampleBuyData "XRP" "ADA" (int 8)
           ["BTC"; "ETH"; "USDT"]%string ["USDT"; "BTC"; "ETH"]%string routes).
  - apply Permutation_sym.
    apply (Permutation_cons_app ["BTC"; "ETH"]%string []). reflexivity.
  - exact Er.
  - vm_compute in Er. inversion Er; subst routes; clear Er. vm_compute. reflexivity.
  - vm_compute in Er. inversion Er; subst routes; clear Er.
    intros a b Ha Hb Ht. simpl in Ha, Hb.
    destruct Ha as [<- | [<- | [<- | []]]]; destruct Hb as [<- | [<- | [<- | []]]];
      try reflexivity; vm_compute in Ht; discriminate Ht.
Defined.

Lemma compareRoutes_consistent_witness :
  exists btc eth usdt,
    Doubles.possibleRoutes "XRP" "ADA" ["BTC"; "ETH"; "USDT"]%string (int 8)
    = Resolved [btc; eth; usdt]
    /\ sortsBehind usdt btc = true
    /\ sortsBehind btc eth = true
    /\ sortsBehind usdt eth = true
    /\ sortsBehind eth usdt = false.
Proof.
  destruct (Doubles.possibleRoutes "XRP" "ADA" ["BTC"; "ETH"; "USDT"]%string (int 8))
    as [routes|e] eqn:Er; [|vm_compute in Er; discriminate Er].
  vm_compute in Er. inversion Er; subst routes; clear Er.
  eexists. eexists. eexists. split; [reflexivity|].
  match goal with
  | |- sortsBehind ?u ?b = true /\ sortsBehind ?b ?e = true /\ _ =>
      assert (Hub : sortsBehind u b = true) by (vm_compute; reflexivity);
      assert (Hbe : sortsBehind b e = true) by (vm_compute; reflexivity);
      destruct (compareRoutes_consistent u b e) as (_ & _ & Htrans & _);
        [vm_compute; reflexivity | vm_compute; reflexivity | vm_compute; reflexivity |];
      destruct (compareRoutes_consistent u e u) as (_ & Hasym & _);
        [vm_compute; reflexivity | vm_compute; reflexivity | vm_compute; reflexivity |];
      pose proof (Htrans Hub Hbe) as Hue;
      exact (conj Hub (conj Hbe (conj Hue (Hasym Hue))))
  end.
Defined.

Section BuyLegOfBestRoute.

Context {num : Type} `{Number num}.
Local Open Scope js_scope.

Variable getOrdersBinance : string -> outcome (OrderBook.t num).
Variable getMinStepsBinance : string -> string -> outcome (Steps.t num).
Variable calculateSellData : list (Level num) -> num -> SellData.t num.
Variable calculateBuyData : list (Level num) -> num -> BuyData.t num.

Variables sellCoinName buyCoinName : string.
Variable sharesEntered : num.

Local Abbreviation candidates bridgeCoins :=
  (possibleRoutes getOrdersBinance calculateSellData calculateBuyData
     sellCoinName buyCoinName bridgeCoins sharesEntered).
Local Abbreviation evaluate bridgeCoins :=
  (getBestRoute getOrdersBinance getMinStepsBinance calculateSellData calculateBuyData
     sellCoinName buyCoinName bridgeCoins sharesEntered).

(** X12. The buy leg of the best route is [adjustBuyCoin] applied to the
    buy leg of the first-ranked candidate with the min step looked up for
    that candidate's two markets: the amount spent and the average price
    are the candidate's, the quantity bought in its simulation is not used,
    and neither [bid] nor [ask] is set.  The sell leg carries the sell step
    of the same lookup. *)
Theorem getBestRoute_buy_leg (bridgeCoins : list string) (best : BestRoute.t num) :
  evaluate bridgeCoins = Resolved best ->
  exists routes first stepsObj,
    candidates bridgeCoins = Resolved routes
    /\ nth_error (sortRoutes routes) 0 = Some first
    /\ getMinStepsBinance (SellCoin.market (Route.sellCoin first))
         (BuyLeg.market (Route.buyCoin first)) = Resolved stepsObj
    /\ SellCoin.minStep (BestRoute.sellCoin best) = Some (Steps.sellCoin stepsObj)
    /\ BestRoute.buyCoin best
       = adjustBuyCoin
           {| BuyCoin.market := BuyLeg.market (Route.buyCoin first);
              BuyCoin.amountBuyable := BuyLeg.amountBuyable (Route.buyCoin first);
              BuyCoin.sharesBuyable := BuyLeg.sharesBuyable (Route.buyCoin first);
              BuyCoin.averageBuyPrice := BuyLeg.averageBuyPrice (Route.buyCoin first);
              BuyCoin.minStep := Steps.buyCoin stepsObj;
              BuyCoin.bid := None;
              BuyCoin.ask := None |}
    /\ Adjusted.minStep (BestRoute.buyCoin best) = Steps.buyCoin stepsObj
    /\ Adjusted.averageBuyPrice (BestRoute.buyCoin best)
       = BuyLeg.averageBuyPrice (Route.buyCoin first)
    /\ (let quantity := BuyLeg.amountBuyable (Route.buyCoin first)
                        / BuyLeg.averageBuyPrice (Route.buyCoin first) in
        Adjusted.sharesBuyable (BestRoute.buyCoin best)
        = quantity - quantity %% Steps.buyCoin stepsObj)
    /\ Adjusted.bid (BestRoute.buyCoin best) = None
    /\ Adjusted.ask (BestRoute.buyCoin best) = None.
Proof.
  intros E. apply getBestRoute_resolved in E.
  destruct E as (routes & r0 & rN & stepsObj & Eroutes & E0 & EN & Es & ->).
  exists routes, r0, stepsObj.
  split; [exact Eroutes|]. split; [exact E0|]. split; [exact Es|].
  repeat split.
Qed.

End BuyLegOfBestRoute.

Lemma getBestRoute_buy_leg_witness :
  exists best,
    Doubles.getBestRoute "XRP" "ADA" ["BTC"; "ETH"; "USDT"]%string (int 8) = Resolved best
    /\ SellCoin.minStep (BestRoute.sellCoin best) = Some (int 1)
    /\ Adjusted.minStep (BestRoute.buyCoin best) = int 3
    /\ Adjusted.averageBuyPrice (BestRoute.buyCoin best) = int 5
    /\ Adjusted.sharesBuyable (BestRoute.buyCoin best) = int 15
    /\ Adjusted.bid (BestRoute.buyCoin best) = None.
Proof.
  destruct (Doubles.getBestRoute "XRP" "ADA" ["BTC"; "ETH"; "USDT"]%string (int 8))
    as [best|e] eqn:E; [|vm_compute in E; discriminate E].
  destruct (getBestRoute_buy_leg Doubles.getOrdersBinance Doubles.getMinStepsBinance
              sampleSellData sampleBuyData "XRP" "ADA" (int 8)
              ["BTC"; "ETH"; "USDT"]%string best E)
    as (routes & first & stepsObj & Er & E0 & Es & Hsell & _ & Hstep & Hprice & Hq & Hbid & _).
  exists best. split; [reflexivity|].
  vm_compute in Er. inversion Er; subst routes; clear Er.
  vm_compute in E0. inversion E0; subst first; clear E0.
  inversion Es; subst stepsObj; clear Es.
  split; [exact Hsell|]. split; [exact Hstep|]. split; [rewrite Hprice; reflexivity|].
  split; [rewrite Hq; vm_compute; reflexivity | exact Hbid].
Defined.

(* ===================================================================== *)
(** * Bridge prices: [calculateUSDSavings] and [/coins/prices]            *)
(* ===================================================================== *)

Lemma string_length_append (s t : string) :
  String.length (s ++ t) = (String.length s + String.length t)%nat.
Proof. induction s as [|c s IH]; simpl; congruence. Qed.

Lemma string_append_inj_r (s1 : string) :
  forall s2 t, (s1 ++ t)%string = (s2 ++ t)%string -> s1 = s2.
Proof.
  induction s1 as [|c1 s1 IH]; intros [|c2 s2] t E; simpl in E.
  - reflexivity.
  - apply (f_equal String.length) in E. simpl in E.
    rewrite string_length_append in E. lia.
  - apply (f_equal String.length) in E. simpl in E.
    rewrite string_length_append in E. lia.
  - inversion E; subst. f_equal. eapply IH. eassumption.
Qed.

(** The USDT market of a bridge coin is the placeholder [USDTUSDT] exactly
    when the bridge coin is USDT itself. *)
Lemma USDT_market_eqb (baseCoin : string) :
  String.eqb (baseCoin ++ "USDT") "USDTUSDT" = String.eqb baseCoin "USDT".
Proof.
  destruct (String.eqb_spec baseCoin "USDT") as [-> | Hne].
  - reflexivity.
  - apply String.eqb_neq. intros E. apply Hne.
    apply (string_append_inj_r baseCoin "USDT" "USDT"). exact E.
Qed.

Section Prices.

Context {num : Type} `{Number num}.
Local Open Scope js_scope.

Variable getPriceBinance : string -> outcome num.

Lemma calculateUSDSavings_prices (bestRoute : BestRoute.t num) :
  calculateUSDSavings getPriceBinance bestRoute
  = (bestCoinPriceUSD <-
       coinPriceUSD getPriceBinance (BaseCoin.name (BestRoute.baseCoin bestRoute)) ;;
     worstCoinPriceUSD <-
       coinPriceUSD getPriceBinance
         (WorstRoute.baseCoin (BestRoute.worstRoute bestRoute)) ;;
     Resolved
       (numberToFixed
          ((SellCoin.averageSellPrice (BestRoute.sellCoin bestRoute)
            - Adjusted.averageBuyPrice (BestRoute.buyCoin bestRoute)) * bestCoinPriceUSD
           - (WorstRoute.averageSellPrice (BestRoute.worstRoute bestRoute)
              - WorstRoute.averageBuyPrice (BestRoute.worstRoute bestRoute))
             * worstCoinPriceUSD) 4 None)).
Proof. reflexivity. Qed.

(** What [/coins/prices] answers for a base market is the price
    [calculateUSDSavings] uses for that bridge coin. *)
Lemma coinsPrices_base (query : PricesQuery.t) (answer : LastPrices.t num)
    (baseCoin : string) :
  PricesQuery.baseCoinSymbol query = (baseCoin ++ "USDT")%string ->
  coinsPrices getPriceBinance query = Some answer ->
  coinPriceUSD getPriceBinance baseCoin = Resolved (LastPrices.baseCoinLast answer).
Proof.
  unfold coinsPrices, coinPriceUSD, Promise_all3. intros Eq E.
  rewrite Eq, USDT_market_eqb in E.
  destruct (getPriceBinance (PricesQuery.sellCoinSymbol query)) as [s|e]; [|discriminate E].
  destruct (getPriceBinance (PricesQuery.buyCoinSymbol query)) as [b|e]; [|discriminate E].
  cbn [bind] in E.
  destruct (String.eqb baseCoin "USDT"); cbn [negb] in E.
  - cbn [bind] in E. inversion E; subst. reflexivity.
  - destruct (getPriceBinance (baseCoin ++ "USDT")) as [p|e]; [|discriminate E].
    cbn [bind] in E. inversion E; subst. reflexivity.
Qed.

(** X13. [GET /coins/prices] answers exactly when every lookup it makes
    resolves, and then with the prices looked up; the base coin's price is 1
    without a lookup when its market is [USDTUSDT].  When a lookup rejects
    no answer is sent. *)
Theorem coinsPrices_answer (query : PricesQuery.t) :
  let basePrice :=
    if String.eqb (PricesQuery.baseCoinSymbol query) "USDTUSDT"
    then Resolved (int 1)
    else getPriceBinance (PricesQuery.baseCoinSymbol query) in
  (forall answer,
     coinsPrices getPriceBinance query = Some answer <->
     getPriceBinance (PricesQuery.sellCoinSymbol query)
       = Resolved (LastPrices.sellCoinLast answer)
     /\ getPriceBinance (PricesQuery.buyCoinSymbol query)
          = Resolved (LastPrices.buyCoinLast answer)
     /\ basePrice = Resolved (LastPrices.baseCoinLast answer))
  /\ (coinsPrices getPriceBinance query = None <->
      rejects (getPriceBinance (PricesQuery.sellCoinSymbol query))
      \/ rejects (getPriceBinance (PricesQuery.buyCoinSymbol query))
      \/ rejects basePrice).
Proof.
  intros basePrice. unfold coinsPrices, Promise_all3.
  replace (if negb (String.eqb (PricesQuery.baseCoinSymbol query) "USDTUSDT")
           then getPriceBinance (PricesQuery.baseCoinSymbol query)
           else Resolved (int 1)) with basePrice
    by (unfold basePrice; destruct (String.eqb (PricesQuery.baseCoinSymbol query) "USDTUSDT");
        reflexivity).
  destruct (getPriceBinance (PricesQuery.sellCoinSymbol query)) as [s|es];
    destruct (getPriceBinance (PricesQuery.buyCoinSymbol query)) as [b|eb];
    destruct basePrice as [p|ep]; cbn [bind]; split.
  all: try (intros [s' b' p']; cbn; split;
            [intros E; inversion E; subst; auto
            | intros (E1 & E2 & E3); congruence]).
  all: try (split; [discriminate|];
            intros [[e E] | [[e E] | [e E]]]; discriminate E).
  all: try (intros [s' b' p']; cbn; split;
            [discriminate | intros (E1 & E2 & E3); discriminate]).
  all: split; [intros _ | reflexivity];
    try (left; eexists; reflexivity);
    try (right; left; eexists; reflexivity);
    try (right; right; eexists; reflexivity).
Qed.

(** X14. The savings of a best route are computed with the very base-coin
    prices that [/coins/prices] answers for the base markets of its best
    and worst bridge coins. *)
Theorem calculateUSDSavings_quoted_prices (bestRoute : BestRoute.t num)
    (bestQuery worstQuery : PricesQuery.t) (bestAnswer worstAnswer : LastPrices.t num) :
  PricesQuery.baseCoinSymbol bestQuery
  = (BaseCoin.name (BestRoute.baseCoin bestRoute) ++ "USDT")%string ->
  PricesQuery.baseCoinSymbol worstQuery
  = (WorstRoute.baseCoin (BestRoute.worstRoute bestRoute) ++ "USDT")%string ->
  coinsPrices getPriceBinance bestQuery = Some bestAnswer ->
  coinsPrices getPriceBinance worstQuery = Some worstAnswer ->
  calculateUSDSavings getPriceBinance bestRoute
  = Resolved
      (numberToFixed
         ((SellCoin.averageSellPrice (BestRoute.sellCoin bestRoute)
           - Adjusted.averageBuyPrice (BestRoute.buyCoin bestRoute))
          * LastPrices.baseCoinLast bestAnswer
          - (WorstRoute.averageSellPrice (BestRoute.worstRoute bestRoute)
             - WorstRoute.averageBuyPrice (BestRoute.worstRoute bestRoute))
            * LastPrices.baseCoinLast worstAnswer) 4 None).
Proof.
  intros Eb Ew Ab Aw.
  rewrite calculateUSDSavings_prices.
  rewrite (coinsPrices_base bestQuery bestAnswer _ Eb Ab).
  rewrite (coinsPrices_base worstQuery worstAnswer _ Ew Aw).
  reflexivity.
Qed.

(** X15. The savings resolve exactly when the prices of the best and of the
    worst bridge coin are available, USDT's always being so; a failed price
    lookup rejects the whole computation with that error. *)
Theorem calculateUSDSavings_resolves (bestRoute : BestRoute.t num) :
  let bestPrice :=
    coinPriceUSD getPriceBinance (BaseCoin.name (BestRoute.baseCoin bestRoute)) in
  let worstPrice :=
    coinPriceUSD getPriceBinance (WorstRoute.baseCoin (BestRoute.worstRoute bestRoute)) in
  (resolves (calculateUSDSavings getPriceBinance bestRoute)
   <-> resolves bestPrice /\ resolves worstPrice)
  /\ (forall e, bestPrice = Rejected e ->
        calculateUSDSavings getPriceBinance bestRoute = Rejected e)
  /\ (BaseCoin.name (BestRoute.baseCoin bestRoute) = "USDT"%string ->
      WorstRoute.baseCoin (BestRoute.worstRoute bestRoute) = "USDT"%string ->
      resolves (calculateUSDSavings getPriceBinance bestRoute)).
Proof.
  intros bestPrice worstPrice. rewrite calculateUSDSavings_prices.
  fold bestPrice. fold worstPrice.
  split; [|split].
  - split.
    + intros [v E].
      apply bind_resolved in E. destruct E as (bp & Eb & E).
      apply bind_resolved in E. destruct E as (wp & Ew & _).
      split; eexists; eassumption.
    + intros [[bp ->] [wp ->]]. eexists. reflexivity.
  - intros e ->. reflexivity.
  - intros Eb Ew. unfold bestPrice, worstPrice, coinPriceUSD.
    rewrite Eb, Ew. eexists. reflexivity.
Qed.

End Prices.

Lemma calculateUSDSavings_quoted_prices_witness :
  exists best bestAnswer worstAnswer USDSavings,
    Sample.getBestRoute "XRP" "ADA" ["BTC"; "ETH"; "USDT"]%string 8 = Resolved best
    /\ coinsPrices SampleFeed.getPriceBinance (PricesQuery.mk "XRPETH" "ADAETH" "ETHUSDT")
       = Some bestAnswer
    /\ coinsPrices SampleFeed.getPriceBinance (PricesQuery.mk "XRPETH" "ADAETH" "USDTUSDT")
       = Some worstAnswer
    /\ LastPrices.baseCoinLast bestAnswer = 1500
    /\ LastPrices.baseCoinLast worstAnswer = 1
    /\ calculateUSDSavings SampleFeed.getPriceBinance best = Resolved USDSavings
    /\ USDSavings == (10 - 5) * 1500 - (1000 - 400) * 1.
Proof.
  destruct (Sample.getBestRoute "XRP" "ADA" ["BTC"; "ETH"; "USDT"]%string 8)
    as [best|e] eqn:E; [|vm_compute in E; discriminate E].
  vm_compute in E. inversion E; subst best; clear E.
  eexists. eexists. eexists. eexists.
  split; [reflexivity|].
  split; [reflexivity|]. split; [reflexivity|].
  split; [reflexivity|]. split; [reflexivity|].
  split.
  - apply (calculateUSDSavings_quoted_prices SampleFeed.getPriceBinance _
             (PricesQuery.mk "XRPETH" "ADAETH" "ETHUSDT")
             (PricesQuery.mk "XRPETH" "ADAETH" "USDTUSDT")
             (LastPrices.mk (1 # 100) (2 # 100) 1500)
             (LastPrices.mk (1 # 100) (2 # 100) 1));
      reflexivity.
  - vm_compute. reflexivity.
Defined.

(* ===================================================================== *)
(** * More on the settlement of [/trade]                                  *)
(* ===================================================================== *)

Section SettlementMore.

Context {num : Type} `{Number num}.
Local Open Scope js_scope.

Variable getOrdersBinance : string -> outcome (OrderBook.t num).
Variable getMinStepsBinance : string -> string -> outcome (Steps.t num).
Variable getPriceBinance : string -> outcome num.
Variable calculateSellData : list (Level num) -> num -> SellData.t num.
Variable calculateBuyData : list (Level num) -> num -> BuyData.t num.
Variable sellMarketBinance : string -> num -> outcome (OrderResult.t num).
Variable buyMarketBinance : string -> num -> outcome (OrderResult.t num).
Variable aggregateFilledTradesBinance : list (Fill.t num) -> Aggregate.t num.

Local Abbreviation settle :=
  (trade getOrdersBinance getMinStepsBinance getPriceBinance calculateSellData
     calculateBuyData sellMarketBinance buyMarketBinance aggregateFilledTradesBinance).
Local Abbreviation select :=
  (selectRoute getOrdersBinance getMinStepsBinance calculateSellData calculateBuyData).

(** The savings block of [/trade] (lines 390-401). *)
Local Abbreviation savingsOf bestRoute buyQuantity :=
  (match bestRoute with
   | Some bestRoute =>
       USDSavings <- calculateUSDSavings getPriceBinance bestRoute ;;
       Resolved (Some
         {| Savings.USDSavings := USDSavings;
            Savings.totalUSDSavings := numberToFixed (USDSavings * buyQuantity) 4 None;
            Savings.bestBaseCoin := BaseCoin.name (BestRoute.baseCoin bestRoute);
            Savings.worstBaseCoin :=
              WorstRoute.baseCoin (BestRoute.worstRoute bestRoute) |})
   | None => Resolved None
   end).

(** The steps of [/trade] after the markets are chosen. *)
Lemma trade_steps (body : TradeRequest.t num) :
  settle body
  = ('(sellCoinSymbol, buyCoinSymbol, sharesBuyable, bestRoute) <- select body ;;
     stepsObj <- getMinStepsBinance sellCoinSymbol buyCoinSymbol ;;
     sellRes <- sellMarketBinance sellCoinSymbol (TradeRequest.shares body) ;;
     let sellAgg := aggregateFilledTradesBinance (OrderResult.fills sellRes) in
     sellFill0 <- defined (nth_error (OrderResult.fills sellRes) 0) ;;
     let sellAmount := Aggregate.qty sellAgg * Aggregate.price sellAgg in
     buyRes <- buyMarketBinance buyCoinSymbol
                 (quantityToBuy sharesBuyable (Steps.buyCoin stepsObj)) ;;
     let buyAgg := aggregateFilledTradesBinance (OrderResult.fills buyRes) in
     buyFill0 <- defined (nth_error (OrderResult.fills buyRes) 0) ;;
     let buyAmount := Aggregate.qty buyAgg * Aggregate.price buyAgg in
     savings <- savingsOf bestRoute (Aggregate.qty buyAgg) ;;
     Resolved
       {| Trade.sale :=
            {| Settled.market := OrderResult.symbol sellRes;
               Settled.price := Aggregate.price sellAgg;
               Settled.quantity := Aggregate.qty sellAgg;
               Settled.commission := Aggregate.commission sellAgg;
               Settled.commissionAsset := Fill.commissionAsset sellFill0;
               Settled.total :=
                 sellAmount
                 - sellAmount * commissionDecimal (Fill.commissionAsset sellFill0);
               Settled.tradeId := Fill.tradeId sellFill0 |};
          Trade.purchase :=
            {| Settled.market := OrderResult.symbol buyRes;
               Settled.price := Aggregate.price buyAgg;
               Settled.quantity := Aggregate.qty buyAgg;
               Settled.commission := Aggregate.commission buyAgg;
               Settled.commissionAsset := Fill.commissionAsset buyFill0;
               Settled.total :=
                 buyAmount
                 + buyAmount * commissionDecimal (Fill.commissionAsset buyFill0);
               Settled.tradeId := Fill.tradeId buyFill0 |};
          Trade.savings := savings |}).
Proof. reflexivity. Qed.

(** X16. Without [smartRouting] the trade uses the request's own markets
    and quantity estimate: it sells [shares] on the request's sell market,
    buys [sharesBuyable - sharesBuyable % minStep] on its buy market,
    reports no savings, and neither the order books nor the price feed nor
    the fill simulation has any influence on the outcome. *)
Theorem trade_without_smartRouting (body : TradeRequest.t num) :
  TradeRequest.smartRouting body = false ->
  (forall t, settle body = Resolved t ->
     Trade.savings t = None
     /\ exists stepsObj sellRes buyRes,
          getMinStepsBinance (CoinRef.market (TradeRequest.sellCoin body))
            (CoinRef.market (TradeRequest.buyCoin body)) = Resolved stepsObj
          /\ sellMarketBinance (CoinRef.market (TradeRequest.sellCoin body))
               (TradeRequest.shares body) = Resolved sellRes
          /\ buyMarketBinance (CoinRef.market (TradeRequest.buyCoin body))
               (quantityToBuy (CoinRef.sharesBuyable (TradeRequest.buyCoin body))
                  (Steps.buyCoin stepsObj)) = Resolved buyRes
          /\ Settled.market (Trade.sale t) = OrderResult.symbol sellRes
          /\ Settled.market (Trade.purchase t) = OrderResult.symbol buyRes)
  /\ (forall getOrdersBinance' getPriceBinance' calculateSellData' calculateBuyData',
        trade getOrdersBinance' getMinStepsBinance getPriceBinance' calculateSellData'
          calculateBuyData' sellMarketBinance buyMarketBinance
          aggregateFilledTradesBinance body
        = settle body).
Proof.
  intros Hsmart. split.
  - intros t E. rewrite trade_steps in E.
    unfold selectRoute in E. rewrite Hsmart in E. cbn [bind] in E.
    apply bind_resolved in E. destruct E as (stepsObj & Es & E).
    apply bind_resolved in E. destruct E as (sellRes & Esell & E).
    apply bind_resolved in E. destruct E as (sellFill & _ & E).
    apply bind_resolved in E. destruct E as (buyRes & Ebuy & E).
    apply bind_resolved in E. destruct E as (buyFill & _ & E).
    cbn [bind] in E. inversion E; subst t; clear E.
    split; [reflexivity|].
    exists stepsObj, sellRes, buyRes. repeat split; assumption.
  - intros g' p' cs' cb'. unfold trade. rewrite Hsmart. reflexivity.
Qed.

(** X17. An order that comes back without fills makes the [try] block of
    [/trade] throw a [TypeError], so that the handler takes its [catch]
    branch although the order was accepted: for the sale, and likewise for
    the purchase after a sale that did have fills. *)
Theorem trade_without_fills (body : TradeRequest.t num)
    (sellCoinSymbol buyCoinSymbol : string) (sharesBuyable : num)
    (bestRoute : option (BestRoute.t num)) (stepsObj : Steps.t num)
    (sellRes : OrderResult.t num) :
  select body = Resolved (sellCoinSymbol, buyCoinSymbol, sharesBuyable, bestRoute) ->
  getMinStepsBinance sellCoinSymbol buyCoinSymbol = Resolved stepsObj ->
  sellMarketBinance sellCoinSymbol (TradeRequest.shares body) = Resolved sellRes ->
  (OrderResult.fills sellRes = [] ->
   settle body = Rejected (TypeError "Cannot read properties of undefined"))
  /\ (forall buyRes,
        OrderResult.fills sellRes <> [] ->
        buyMarketBinance buyCoinSymbol
          (quantityToBuy sharesBuyable (Steps.buyCoin stepsObj)) = Resolved buyRes ->
        OrderResult.fills buyRes = [] ->
        settle body = Rejected (TypeError "Cannot read properties of undefined")).
Proof.
  intros Esel Es Esell. rewrite trade_steps.
  rewrite Esel. cbn [bind]. rewrite Es, Esell. cbn [bind].
  split.
  - intros ->. reflexivity.
  - intros buyRes Hne Ebuy Hnil.
    destruct (OrderResult.fills sellRes) as [|fill fills]; [congruence|].
    cbn [nth_error defined bind]. rewrite Ebuy. cbn [bind]. rewrite Hnil.
    reflexivity.
Qed.

(** X18. With [smartRouting], a price lookup that fails while the savings
    are computed makes the [try] block throw that error after both orders
    have been filled: the handler takes its [catch] branch and the trade is
    not reported. *)
Theorem trade_savings_failure (body : TradeRequest.t num)
    (sellCoinSymbol buyCoinSymbol : string) (sharesBuyable : num)
    (bestRoute : BestRoute.t num) (stepsObj : Steps.t num)
    (sellRes buyRes : OrderResult.t num) (e : error) :
  select body = Resolved (sellCoinSymbol, buyCoinSymbol, sharesBuyable, Some bestRoute) ->
  getMinStepsBinance sellCoinSymbol buyCoinSymbol = Resolved stepsObj ->
  sellMarketBinance sellCoinSymbol (TradeRequest.shares body) = Resolved sellRes ->
  OrderResult.fills sellRes <> [] ->
  buyMarketBinance buyCoinSymbol
    (quantityToBuy sharesBuyable (Steps.buyCoin stepsObj)) = Resolved buyRes ->
  OrderResult.fills buyRes <> [] ->
  calculateUSDSavings getPriceBinance bestRoute = Rejected e ->
  settle body = Rejected e.
Proof.
  intros Esel Es Esell Hs Ebuy Hb Esav. rewrite trade_steps.
  rewrite Esel. cbn [bind]. rewrite Es, Esell. cbn [bind].
  destruct (OrderResult.fills sellRes) as [|sfill sfills]; [congruence|].
  cbn [nth_error defined bind]. rewrite Ebuy. cbn [bind].
  destruct (OrderResult.fills buyRes) as [|bfill bfills]; [congruence|].
  cbn [nth_error defined bind]. rewrite Esav. reflexivity.
Qed.

End SettlementMore.

Lemma trade_without_smartRouting_witness :
  let body :=
    {| TradeRequest.sellCoin := CoinRef.mk "XRP" "XRPETH" (0 : Q) 0;
       TradeRequest.buyCoin := CoinRef.mk "ADA" "ADAETH" 5 16;
       TradeRequest.shares := 8;
       TradeRequest.bridgeCoins := [];
       TradeRequest.smartRouting := false |} in
  exists t,
    Sample.trade body = Resolved t
    /\ Trade.savings t = None
    /\ Settled.quantity (Trade.purchase t) == 15
    /\ trade (fun _ => Rejected (ExchangeError "Invalid symbol."))
         Sample.getMinStepsBinance (fun _ => Rejected (ExchangeError "Invalid symbol."))
         sampleSellData sampleBuyData Sample.sellMarketBinance Sample.buyMarketBinance
         sampleAggregate body
       = Sample.trade body.
Proof.
  intros body.
  destruct (Sample.trade body) as [t|e] eqn:E; [|vm_compute in E; discriminate E].
  destruct (trade_without_smartRouting Sample.getOrdersBinance Sample.getMinStepsBinance
              Sample.getPriceBinance sampleSellData sampleBuyData Sample.sellMarketBinance
              Sample.buyMarketBinance sampleAggregate body eq_refl) as [Hres Hind].
  destruct (Hres t E) as [Hsav _].
  exists t. split; [reflexivity|]. split; [exact Hsav|].
  split.
  - vm_compute in E. inversion E; subst t. reflexivity.
  - rewrite <- E. apply Hind.
Defined.

Lemma trade_without_fills_witness :
  trade Sample.getOrdersBinance Sample.getMinStepsBinance Sample.getPriceBinance
    sampleSellData sampleBuyData
    (fun symbol _ => Resolved (OrderResult.mk symbol []))
    Sample.buyMarketBinance sampleAggregate
    {| TradeRequest.sellCoin := CoinRef.mk "XRP" "XRPETH" (0 : Q) 0;
       TradeRequest.buyCoin := CoinRef.mk "ADA" "ADAETH" 5 16;
       TradeRequest.shares := 8;
       TradeRequest.bridgeCoins := [];
       TradeRequest.smartRouting := false |}
  = Rejected (TypeError "Cannot read properties of undefined").
Proof.
  apply (proj1 (trade_without_fills Sample.getOrdersBinance Sample.getMinStepsBinance
                  Sample.getPriceBinance sampleSellData sampleBuyData
                  (fun symbol _ => Resolved (OrderResult.mk symbol []))
                  Sample.buyMarketBinance sampleAggregate
                  {| TradeRequest.sellCoin := CoinRef.mk "XRP" "XRPETH" (0 : Q) 0;
                     TradeRequest.buyCoin := CoinRef.mk "ADA" "ADAETH" 5 16;
                     TradeRequest.shares := 8;
                     TradeRequest.bridgeCoins := [];
                     TradeRequest.smartRouting := false |}
                  "XRPETH" "ADAETH" 16 None (Steps.mk 1 3) (OrderResult.mk "XRPETH" [])
                  eq_refl eq_refl eq_refl)).
  reflexivity.
Defined.

Lemma trade_savings_failure_witness :
  trade Sample.getOrdersBinance Sample.getMinStepsBinance
    (fun _ => Rejected (ExchangeError "Too many requests."))
    sampleSellData sampleBuyData Sample.sellMarketBinance Sample.buyMarketBinance
    sampleAggregate (Sample.request ["BTC"; "ETH"; "USDT"]%string)
  = Rejected (ExchangeError "Too many requests.").
Proof.
  destruct (selectRoute Sample.getOrdersBinance Sample.getMinStepsBinance sampleSellData
              sampleBuyData (Sample.request ["BTC"; "ETH"; "USDT"]%string))
    as [[[[sellCoinSymbol buyCoinSymbol] sharesBuyable] [bestRoute|]]|e] eqn:Esel;
    try (vm_compute in Esel; discriminate Esel).
  eapply (trade_savings_failure Sample.getOrdersBinance Sample.getMinStepsBinance
            (fun _ => Rejected (ExchangeError "Too many requests."))
            sampleSellData sampleBuyData Sample.sellMarketBinance Sample.buyMarketBinance
            sampleAggregate (Sample.request ["BTC"; "ETH"; "USDT"]%string));
    [exact Esel | reflexivity | reflexivity | discriminate
     | reflexivity | discriminate |].
  vm_compute in Esel. inversion Esel; subst. reflexivity.
Defined.

(** ** Exact arithmetic *)

Section SettlementExact.

Variable getOrdersBinance : string -> outcome (OrderBook.t Q).
Variable getMinStepsBinance : string -> string -> outcome (Steps.t Q).
Variable getPriceBinance : string -> outcome Q.
Variable calculateSellData : list (Level Q) -> Q -> SellData.t Q.
Variable calculateBuyData : list (Level Q) -> Q -> BuyData.t Q.
Variable sellMarketBinance : string -> Q -> outcome (OrderResult.t Q).
Variable buyMarketBinance : string -> Q -> outcome (OrderResult.t Q).
Variable aggregateFilledTradesBinance : list (Fill.t Q) -> Aggregate.t Q.

Local Abbreviation settle :=
  (trade getOrdersBinance getMinStepsBinance getPriceBinance calculateSellData
     calculateBuyData sellMarketBinance buyMarketBinance aggregateFilledTradesBinance).
Local Abbreviation evaluate sellCoinName buyCoinName bridgeCoins sharesEntered :=
  (getBestRoute getOrdersBinance getMinStepsBinance calculateSellData calculateBuyData
     sellCoinName buyCoinName bridgeCoins sharesEntered).

Lemma commissionDecimal_bounds (commissionAsset : string) :
  0 < commissionDecimal commissionAsset /\ commissionDecimal commissionAsset <= 1 # 10000.
Proof.
  unfold commissionDecimal. destruct (String.eqb commissionAsset "BNB"); cbn; split; lra.
Qed.

(** X19. The fee of a leg is positive and at most 0.01% of its amount
    [quantity * price]: for a non-negative amount the sale total lies
    between 99.99% of the amount and the amount, the purchase total between
    the amount and 100.01% of it. *)
Theorem trade_totals_bounds (body : TradeRequest.t Q) (t : Trade.t Q) :
  settle body = Resolved t ->
  let sold := Settled.quantity (Trade.sale t) * Settled.price (Trade.sale t) in
  let bought := Settled.quantity (Trade.purchase t) * Settled.price (Trade.purchase t) in
  (0 <= sold ->
   sold * (9999 # 10000) <= Settled.total (Trade.sale t)
   /\ Settled.total (Trade.sale t) <= sold)
  /\ (0 <= bought ->
      bought <= Settled.total (Trade.purchase t)
      /\ Settled.total (Trade.purchase t) <= bought * (10001 # 10000)).
Proof.
  intros E. rewrite trade_steps in E.
  apply bind_resolved in E.
  destruct E as ([[[sellCoinSymbol buyCoinSymbol] sharesBuyable] bestRoute] & _ & E).
  apply bind_resolved in E. destruct E as (stepsObj & _ & E).
  apply bind_resolved in E. destruct E as (sellRes & _ & E).
  apply bind_resolved in E. destruct E as (sellFill & _ & E).
  apply bind_resolved in E. destruct E as (buyRes & _ & E).
  apply bind_resolved in E. destruct E as (buyFill & _ & E).
  apply bind_resolved in E. destruct E as (savings & _ & E).
  inversion E; subst t; clear E.
  cbn [Trade.sale Trade.purchase Settled.quantity Settled.price Settled.total].
  cbn [sub add mul Number_Q].
  destruct (commissionDecimal_bounds (Fill.commissionAsset sellFill)) as [Hs0 Hs1].
  destruct (commissionDecimal_bounds (Fill.commissionAsset buyFill)) as [Hb0 Hb1].
  set (sold := Aggregate.qty (aggregateFilledTradesBinance (OrderResult.fills sellRes))
               * Aggregate.price (aggregateFilledTradesBinance (OrderResult.fills sellRes))).
  set (bought := Aggregate.qty (aggregateFilledTradesBinance (OrderResult.fills buyRes))
                 * Aggregate.price (aggregateFilledTradesBinance (OrderResult.fills buyRes))).
  set (rs := commissionDecimal (Fill.commissionAsset sellFill)) in *.
  set (rb := commissionDecimal (Fill.commissionAsset buyFill)) in *.
  split; intros Hpos.
  - assert (H1 : 0 <= sold * rs) by (apply Qmult_le_0_compat; lra).
    assert (H2 : sold * rs <= sold * (1 # 10000)).
    { rewrite (Qmult_comm sold rs), (Qmult_comm sold (1 # 10000)).
      apply Qmult_le_compat_r; assumption. }
    split; lra.
  - assert (H1 : 0 <= bought * rb) by (apply Qmult_le_0_compat; lra).
    assert (H2 : bought * rb <= bought * (1 # 10000)).
    { rewrite (Qmult_comm bought rb), (Qmult_comm bought (1 # 10000)).
      apply Qmult_le_compat_r; assumption. }
    split; lra.
Qed.

End SettlementExact.

Lemma trade_totals_bounds_witness :
  exists t,
    Sample.trade (Sample.request ["BTC"; "ETH"; "USDT"]%string) = Resolved t
    /\ 80 * (9999 # 10000) <= Settled.total (Trade.sale t)
    /\ Settled.total (Trade.sale t) <= 80
    /\ 75 <= Settled.total (Trade.purchase t)
    /\ Settled.total (Trade.purchase t) <= 75 * (10001 # 10000).
Proof.
  destruct (Sample.trade (Sample.request ["BTC"; "ETH"; "USDT"]%string))
    as [t|e] eqn:E; [|vm_compute in E; discriminate E].
  destruct (trade_totals_bounds Sample.getOrdersBinance Sample.getMinStepsBinance
              Sample.getPriceBinance sampleSellData sampleBuyData Sample.sellMarketBinance
              Sample.buyMarketBinance sampleAggregate
              (Sample.request ["BTC"; "ETH"; "USDT"]%string) t E) as [Hsale Hpurchase].
  exists t. split; [reflexivity|].
  vm_compute in E. inversion E; subst t; clear E.
  destruct Hsale as [Hs1 Hs2]; [vm_compute; discriminate|].
  destruct Hpurchase as [Hp1 Hp2]; [vm_compute; discriminate|].
  split; [|split; [|split]].
  - eapply Qle_trans; [|exact Hs1]. vm_compute. discriminate.
  - eapply Qle_trans; [exact Hs2|]. vm_compute. discriminate.
  - eapply Qle_trans; [|exact Hp1]. vm_compute. discriminate.
  - eapply Qle_trans; [exact Hp2|]. vm_compute. discriminate.
Defined.

(* ===================================================================== *)
(** * More on the live session                                            *)
(* ===================================================================== *)

Section LiveSessionMore.

Context {num : Type} `{Number num}.
Local Open Scope js_scope.

Variable calculateSellData : list (Level num) -> num -> SellData.t num.
Variable calculateBuyData : list (Level num) -> num -> BuyData.t num.
Variable sellCoinSymbol : string.
Variable buyCoin : BuyCoin.t num.

Local Abbreviation runs := (run calculateSellData calculateBuyData sellCoinSymbol buyCoin).
Local Abbreviation cached := (cachedSaleTotal calculateSellData).

Lemma cachedSaleTotal_without_sell_updates (past : list (Event.t num)) :
  forallb (fun ev => negb (isSellCoinOrders ev)) past = true ->
  cached past = int 0.
Proof.
  induction past as [|ev past IH]; [reflexivity|].
  simpl. intros Hp. apply andb_true_iff in Hp. destruct Hp as [Hev Hp].
  destruct ev; [discriminate Hev | |]; apply IH, Hp.
Qed.

(** X22. A sell-market update whose bids or asks are empty broadcasts
    nothing, yet its [saleTotal] is cached: the next buy-market update
    computes the buy leg from it. *)
Theorem failed_sell_update_is_cached (s : Session.t num) (o buyCoinOrders : OrderBook.t num) :
  OrderBook.bids o = [] \/ OrderBook.asks o = [] ->
  snd (runs s [Event.SellCoinOrders o; Event.BuyCoinOrders buyCoinOrders])
  = [ Rejected (TypeError "Cannot read properties of undefined");
      buyLeg calculateBuyData buyCoin
        (SellData.saleTotal
           (calculateSellData (OrderBook.bids o) (Session.SHARES_FOR_ORDER_UPDATES s)))
        buyCoinOrders ].
Proof.
  intros Hempty. cbn.
  unfold buyLeg. f_equal.
  destruct o as [bids asks]. cbn in *.
  destruct Hempty as [-> | ->]; [reflexivity|].
  destruct bids; reflexivity.
Qed.

(** X23. Until the first sell-market update of a session nothing has been
    cached: whatever quantities were entered and however many buy-market
    updates arrived, a buy-market update computes the buy leg for an amount
    of 0. *)
Theorem buy_leg_before_first_sell_update (evs : list (Event.t num))
    (buyCoinOrders : OrderBook.t num) :
  forallb (fun ev => negb (isSellCoinOrders ev)) evs = true ->
  snd (onBuyCoinOrders calculateBuyData buyCoin (fst (runs newSession evs)) buyCoinOrders)
  = buyLeg calculateBuyData buyCoin (int 0) buyCoinOrders.
Proof.
  intros Hevs.
  rewrite (onBuyCoinOrders_buyLeg calculateBuyData buyCoin). cbn [snd].
  rewrite (run_state calculateSellData calculateBuyData sellCoinSymbol buyCoin).
  cbn [Session.saleProceeds].
  rewrite cachedSaleTotal_without_sell_updates; [reflexivity|].
  apply forallb_forall. intros ev Hin. apply in_rev in Hin.
  rewrite forallb_forall in Hevs. auto.
Qed.

End LiveSessionMore.

Lemma failed_sell_update_is_cached_witness :
  let o := Sample.book [(10, 20)]%Z [] in
  let adaeth := Sample.book [(4, 100)]%Z [(5, 1000)]%Z in
  snd (Sample.run (sharesUpdated newSession 8)
         [Event.SellCoinOrders o; Event.BuyCoinOrders adaeth])
  = [ Rejected (TypeError "Cannot read properties of undefined");
      buyLeg sampleBuyData Sample.liveBuyCoin 80 adaeth ].
Proof.
  intros o adaeth.
  exact (failed_sell_update_is_cached sampleSellData sampleBuyData "XRPETH"
           Sample.liveBuyCoin (sharesUpdated newSession 8) o adaeth (or_intror eq_refl)).
Defined.

Lemma buy_leg_before_first_sell_update_witness :
  let adaeth := Sample.book [(4, 100)]%Z [(5, 1000)]%Z in
  snd (onBuyCoinOrders sampleBuyData Sample.liveBuyCoin
         (fst (Sample.run newSession
                 [Event.SharesUpdated 8; Event.BuyCoinOrders adaeth; Event.SharesUpdated 9]))
         adaeth)
  = buyLeg sampleBuyData Sample.liveBuyCoin 0 adaeth.
Proof.
  intros adaeth.
  exact (buy_leg_before_first_sell_update sampleSellData sampleBuyData "XRPETH"
           Sample.liveBuyCoin
           [Event.SharesUpdated 8; Event.BuyCoinOrders adaeth; Event.SharesUpdated 9]
           adaeth eq_refl).
Defined.

Lemma calculateUSDSavings_resolves_witness :
  resolves (calculateUSDSavings Sample.getPriceBinance (Sample.usdtRoute 12 10 11 10))
  /\ calculateUSDSavings (fun _ => Rejected (ExchangeError "Too many requests."))
       {| BestRoute.sellCoin := SellCoin.mk "XRPETH" (10 : Q) 8 (Some 1);
          BestRoute.buyCoin := Adjusted.mk "ADAETH" 75 15 5 3 5 None None;
          BestRoute.baseCoin := BaseCoin.mk "ETH" "ETHUSDT";
          BestRoute.ratio := 2;
          BestRoute.worstRoute := WorstRoute.mk None "USDT" 1000 400 |}
     = Rejected (ExchangeError "Too many requests.").
Proof.
  split.
  - apply (proj2 (proj2 (calculateUSDSavings_resolves Sample.getPriceBinance
                           (Sample.usdtRoute 12 10 11 10)))); reflexivity.
  - apply (proj1 (proj2 (calculateUSDSavings_resolves
                           (fun _ => Rejected (ExchangeError "Too many requests.")) _))).
    reflexivity.
Defined.

Lemma coinsPrices_answer_witness :
  coinsPrices SampleFeed.getPriceBinance (PricesQuery.mk "XRPETH" "ADAETH" "USDTUSDT")
  = Some (LastPrices.mk (1 # 100) (2 # 100) 1)
  /\ coinsPrices SampleFeed.getPriceBinance (PricesQuery.mk "USDTUSDT" "ADAETH" "ETHUSDT")
     = None.
Proof.
  split.
  - apply (proj1 (coinsPrices_answer SampleFeed.getPriceBinance
                    (PricesQuery.mk "XRPETH" "ADAETH" "USDTUSDT"))).
    repeat split.
  - apply (proj2 (coinsPrices_answer SampleFeed.getPriceBinance
                    (PricesQuery.mk "USDTUSDT" "ADAETH" "ETHUSDT"))).
    left. eexists. reflexivity.
Defined.
